(** * The joint VAE / Cox training loop of [modules_vae]

    A shallow embedding of [modules_vae/fit.py] (the function [fit] with its
    two closures [train_step] and [valid_step]) and of the script
    [modules_vae/main.py].

    The program is glue code over PyTorch and over modules of the repository
    that live in [../utils]: the embedding takes those collaborators as the
    fields of the interface [Framework] and models what the two source
    files do with them: the order of the calls, the values passed, the mutation of the
    model, of the optimizer and of the [results] dictionary, and the
    exceptions raised. *)

From Stdlib Require Import ZArith Ascii String PrimFloat Uint63.
From Stdlib Require Import FloatAxioms SpecFloat FloatOps.
From stdpp Require Import base option list gmap strings.

Local Open Scope Z_scope.

(** ** Python values *)

(** The loss accumulators of [fit] start as the [int] literal [0] and become
    [float] once a [.item()] has been added; Python floats are IEEE
    binary64 numbers, as Rocq's primitive floats are. *)
Inductive pynum :=
  | PyInt (z : Z)
  | PyFloat (x : float).

(** [float(z)]; exact for the integers that occur ([fit] only ever adds the
    literal [0] to a float), and for every [z] below [2^53] in size. *)
Definition float_of_int (z : Z) : float :=
  match z with
  | Z0 => 0%float
  | Zpos _ => PrimFloat.of_uint63 (Uint63.of_Z z)
  | Zneg p => PrimFloat.opp (PrimFloat.of_uint63 (Uint63.of_Z (Zpos p)))
  end.

(** [a + b] on Python numbers: an [int] operand is converted when the other
    one is a [float]. *)
Definition py_add (a b : pynum) : pynum :=
  match a, b with
  | PyInt x, PyInt y => PyInt (x + y)
  | PyInt x, PyFloat y => PyFloat (float_of_int x + y)
  | PyFloat x, PyInt y => PyFloat (x + float_of_int y)
  | PyFloat x, PyFloat y => PyFloat (x + y)
  end.

(** The builtin [sum]: a left fold that starts from the [int] [0]. *)
Definition py_sum (xs : list pynum) : pynum := fold_left py_add xs (PyInt 0).






(** The sum of the floats [xs] as Python accumulates it from the [int]
    literal [0]: the [int] [0] when there is nothing to add, and otherwise
    the float [((0.0 + x1) + x2) + ...]. *)
Definition sum_from_zero (xs : list float) : pynum :=
  match xs with
  | [] => PyInt 0
  | _ :: _ => PyFloat (fold_left PrimFloat.add xs 0%float)
  end.

(** A dict comprehension [{k: v for k, v in kvs}]: the pairs are inserted
    from left to right, so a later pair replaces an earlier one with the
    same key. *)
Definition py_dict {V} (kvs : list (string * V)) : gmap string V :=
  fold_left (λ d kv, <[kv.1 := kv.2]> d) kvs ∅.

(** [range(n)] *)
Definition py_range (n : Z) : list Z := seqZ 0 n.

(** [zip] of three lists, mapped; it stops at the shortest list. *)
Fixpoint zip_with3 {A B C D} (f : A → B → C → D)
    (xs : list A) (ys : list B) (zs : list C) : list D :=
  match xs, ys, zs with
  | x :: xs', y :: ys', z :: zs' => f x y z :: zip_with3 f xs' ys' zs'
  | _, _, _ => []
  end.

(** The exceptions that the two files can raise themselves. *)
Inductive exn :=
  | AssertionError
  | KeyError
  | RuntimeError
  | SystemExit (code : Z).

(** The attributes of [model] that [fit] reads; its weights are part of the
    state of a run. *)
Record Model := {
  input_types_vae : list string;
  input_types_subtask : list string;
}.

(** The [params] namespace: the attributes that [fit] and [main] read, and
    [vars(params).items()]. [pyobj] stands for the Python objects that the
    two files only pass along. *)
Record Namespace {pyobj : Type} := {
  endpoint : string;
  shuffle : Z;
  fold : Z;
  lr : float;
  epochs : Z;
  resultsprefix : string;
  batch_size : Z;
  input_types_all : pyobj;
  input_types : pyobj;
  input_dims : pyobj;
  layer_dims : pyobj;
  params_input_types_subtask : pyobj;
  input_dims_subtask : pyobj;
  layer_dims_subtask : pyobj;
  z_dim : pyobj;
  vars_items : list (string * pyobj);
}.
Arguments Namespace : clear implicits.

(** ** The collaborators

    PyTorch, the Python library, and the modules of [../utils] that the two
    files import. *)

Class Framework := {
  (** [torch.Tensor] *)
  tensor : Type;
  (** the values of [model.parameters()] *)
  weights : Type;
  (** the contents of the parameters' [.grad] buffers *)
  gradients : Type;
  (** the state that [torch.optim.Adam] keeps between steps *)
  adam : Type;
  (** random generators and module buffers *)
  hidden : Type;
  (** what [ConcordanceIndex] returns *)
  metric : Type;
  (** [torch.utils.data.DataLoader] *)
  loader : Type;
  (** a Python object that the two files only pass along *)
  pyobj : Type;
  (** [pandas.DataFrame] and [Dataset] *)
  dataframe : Type;
  dataset : Type;

  (** [a + b] on two tensors *)
  tensor_add : tensor → tensor → tensor;
  (** [a + n] and [n + a] for an [int] [n] *)
  tensor_add_int : tensor → Z → tensor;
  int_add_tensor : Z → tensor → tensor;
  (** [a.isnan().any().item()] *)
  isnan_any : tensor → bool;
  (** [a.data.item()] *)
  item : tensor → float;
  (** [a.flatten()] *)
  flatten : tensor → tensor;
  (** [torch.cat]; [None] when it raises *)
  cat : list tensor → option tensor;

  (** [model.forward((inputs_vae, inputs_task))], given the weights and
      [model.training]: the decoder outputs, [mu], [logvar], [riskpred] *)
  forward : weights → bool → hidden → list tensor → list tensor →
            (list tensor * tensor * tensor * tensor) * hidden;
  (** [KLDivergence()(mu, logvar)] *)
  kl_divergence : tensor → tensor → tensor;
  (** [torch.nn.MSELoss(reduction='mean')(output, input)] *)
  mse_loss : tensor → tensor → tensor;
  (** [CoxPHLoss()(event_indicator, event_time, estimate)] *)
  coxph_loss : tensor → tensor → tensor → tensor;
  (** [ConcordanceIndex(event_indicator, event_time, estimate)] *)
  concordance_index : tensor → tensor → tensor → metric;

  (** the [.grad] buffers after [optimizer.zero_grad()] *)
  zero_grad : gradients;
  (** the [.grad] buffers after [loss.backward()]: autograd adds the
      gradient of [loss] to what the buffers hold *)
  backward : gradients → tensor → gradients;
  (** [torch.optim.Adam(params, lr=lr)] *)
  adam_init : float → weights → adam;
  (** [optimizer.step()] reads the [.grad] buffers *)
  adam_step : adam → weights → gradients → adam * weights;

  (** one pass over a data loader: the batches it yields, in order; a batch
      is a dict from column names to tensors *)
  batches : loader → hidden → list (gmap string tensor) * hidden;

  (** [int(s)] on a string, [None] when it raises [ValueError] *)
  py_int : string → option Z;
  (** [os.path.dirname] *)
  dirname : string → string;
  (** [VAEParams(endpoint, shuffle, fold)] *)
  specify_params_here : string → Z → Z → Namespace pyobj;
  (** [parse_all(endpoint)] *)
  parse_all : string → dataframe;
  (** [kfold_split(full_dataframe, shuffle, fold)] *)
  kfold_split : dataframe → Z → Z → dataframe * dataframe;
  (** [scale_and_impute_without_train_test_leak(train, valid)] *)
  scale_impute : dataframe → dataframe → dataframe * dataframe;
  (** [Dataset(dataframe, input_types_all)] *)
  new_dataset : dataframe → pyobj → dataset;
  (** [DataLoader(dataset, batch_size=..., shuffle=...)] *)
  new_loader : dataset → Z → bool → loader;
  (** [MultiModalVAE(...)]: the attributes of the new model and its initial
      weights and [.grad] buffers *)
  new_model : pyobj → pyobj → pyobj → pyobj → pyobj → pyobj → pyobj →
              hidden → (Model * weights * gradients) * hidden;
}.

Section Fit.
Context `{Framework}.

(** A batch, as the data loader yields it. *)
Definition batch : Type := gmap string tensor.

(** ** The [results] dictionary *)

(** A value stored under a key of [results['history'][epoch]['train']] or
    [...['valid']]. *)
Inductive logval :=
  | LogNum (a : pynum)
  | LogDict (d : gmap string pynum)
  | LogMetric (m : metric).

(** [results['history'][epoch]], always created as
    [{'train': {}, 'valid': {}}]. *)
Record epoch_log := EpochLog {
  log_train : gmap string logval;
  log_valid : gmap string logval;
}.

Record results := Results {
  results_params : list (string * pyobj);
  results_history : gmap Z epoch_log;
}.

Inductive phase := Train | Valid.

(** What a function returns to its caller. *)
Inductive retval :=
  | PyNone
  | PyResults (r : results).

(** ** Observable calls *)

Inductive event :=
  (** entering [train_step(epoch)] and [valid_step(epoch)] *)
  | TrainStep (epoch : Z)
  | ValidStep (epoch : Z)
  (** [optimizer.zero_grad()] *)
  | ZeroGrad
  (** [model.forward(...)], with [model.training] and
      [torch.is_grad_enabled()] at the time of the call *)
  | Forward (training grad_enabled : bool)
  (** [loss.backward()] *)
  | Backward (loss : tensor)
  (** [optimizer.step()], with the [.grad] buffers it reads *)
  | OptimizerStep (g : gradients)
  (** [ConcordanceIndex(event_indicator, event_time, estimate)] *)
  | ConcordanceIndex (event_indicator event_time estimate : tensor)
  (** [json.dump(results, f)] on the file opened at [path] *)
  | JsonDump (path : string) (r : results)
  (** calls of [main] *)
  | MakeDirs (path : string)
  | ParseAll (endpoint : string)
  | KFoldSplit (full_dataframe : dataframe) (shuffle fold : Z)
  | PredictToCsv (validloader : loader) (path : string)
  | PlotResultsToPdf (json pdf : string).

(** ** The state of a run *)

Record world := World {
  w_weights : weights;
  w_grad : gradients;
  w_adam : adam;
  w_hidden : hidden;
  (** [model.training] *)
  w_training : bool;
  (** [torch.is_grad_enabled()] *)
  w_grad_enabled : bool;
  (** the dictionary [results] of the running [fit] *)
  w_results : results;
  (** the calls made so far, oldest first *)
  w_trace : list event;
}.

Definition set_weights (x : weights) (s : world) : world :=
  World x (w_grad s) (w_adam s) (w_hidden s) (w_training s)
        (w_grad_enabled s) (w_results s) (w_trace s).
Definition set_grad (x : gradients) (s : world) : world :=
  World (w_weights s) x (w_adam s) (w_hidden s) (w_training s)
        (w_grad_enabled s) (w_results s) (w_trace s).
Definition set_adam (x : adam) (s : world) : world :=
  World (w_weights s) (w_grad s) x (w_hidden s) (w_training s)
        (w_grad_enabled s) (w_results s) (w_trace s).
Definition set_hidden (x : hidden) (s : world) : world :=
  World (w_weights s) (w_grad s) (w_adam s) x (w_training s)
        (w_grad_enabled s) (w_results s) (w_trace s).
Definition set_training (x : bool) (s : world) : world :=
  World (w_weights s) (w_grad s) (w_adam s) (w_hidden s) x
        (w_grad_enabled s) (w_results s) (w_trace s).
Definition set_grad_enabled (x : bool) (s : world) : world :=
  World (w_weights s) (w_grad s) (w_adam s) (w_hidden s) (w_training s)
        x (w_results s) (w_trace s).
Definition set_results (x : results) (s : world) : world :=
  World (w_weights s) (w_grad s) (w_adam s) (w_hidden s) (w_training s)
        (w_grad_enabled s) x (w_trace s).
Definition add_event (e : event) (s : world) : world :=
  World (w_weights s) (w_grad s) (w_adam s) (w_hidden s) (w_training s)
        (w_grad_enabled s) (w_results s) (w_trace s ++ [e]).

(** ** Computations: state passing with exceptions

    A Python exception ends the computation but leaves the mutations made
    before it in place, so the state is returned in both cases. *)
Definition M (A : Type) : Type := world → (exn + A) * world.

#[global] Instance M_ret : MRet M := λ A a s, (inr a, s).
#[global] Instance M_bind : MBind M := λ A B k m s,
  match m s with
  | (inr a, s') => k a s'
  | (inl e, s') => (inl e, s')
  end.

Definition raise {A} (e : exn) : M A := λ s, (inl e, s).
Definition emit (e : event) : M unit := λ s, (inr tt, add_event e s).

(** [assert b], assertions being enabled (Python is not run with [-O]) *)
Definition py_assert (b : bool) : M unit :=
  if b then mret tt else raise AssertionError.

(** [d[key]] *)
Definition getitem (d : batch) (key : string) : M tensor :=
  match d !! key with
  | Some v => mret v
  | None => raise KeyError
  end.

(** A [for] loop over a list that updates local variables [acc]. *)
Fixpoint for_each {A B} (body : A → B → M B) (xs : list A) (acc : B) : M B :=
  match xs with
  | [] => mret acc
  | x :: xs' => acc' ← body x acc; for_each body xs' acc'
  end.

(** [with torch.no_grad(): body]; the previous mode is restored on exit,
    also when [body] raises. *)
Definition with_no_grad {A} (body : M A) : M A := λ s,
  let prev := w_grad_enabled s in
  let '(r, s') := body (set_grad_enabled false s) in
  (r, set_grad_enabled prev s').

(** *** Calls on the model, the optimizer and the loaders *)

Definition model_train : M unit := λ s, (inr tt, set_training true s).
Definition model_eval : M unit := λ s, (inr tt, set_training false s).

Definition model_forward (inputs_vae inputs_task : list tensor)
    : M (list tensor * tensor * tensor * tensor) := λ s,
  let '(r, h) := forward (w_weights s) (w_training s) (w_hidden s)
                         inputs_vae inputs_task in
  (inr r, add_event (Forward (w_training s) (w_grad_enabled s))
            (set_hidden h s)).

(** [torch.optim.Adam(params, lr=rate)], for parameters and a rate that
    Adam accepts: it raises ValueError on an empty list of parameters or a
    negative rate, which is not modelled; what is proved of [fit] is about
    the calls in which the optimizer is created. *)
Definition optimizer_init (rate : float) : M unit := λ s,
  (inr tt, set_adam (adam_init rate (w_weights s)) s).

Definition optimizer_zero_grad : M unit := λ s,
  (inr tt, add_event ZeroGrad (set_grad zero_grad s)).

(** [loss.backward()]. A loss computed while gradients are disabled has no
    [grad_fn], and autograd raises RuntimeError on it; the [.grad] buffers
    are then as they were. *)
Definition tensor_backward (loss : tensor) : M unit := λ s,
  if w_grad_enabled s
  then (inr tt,
        add_event (Backward loss) (set_grad (backward (w_grad s) loss) s))
  else (inl RuntimeError, add_event (Backward loss) s).

(** [optimizer.step()], on the dense gradients that [backward] left in the
    buffers, which Adam accepts. *)
Definition optimizer_step : M unit := λ s,
  let '(a, w) := adam_step (w_adam s) (w_weights s) (w_grad s) in
  (inr tt, add_event (OptimizerStep (w_grad s)) (set_adam a (set_weights w s))).

Definition enumerate (l : loader) : M (list batch) := λ s,
  let '(ds, h) := batches l (w_hidden s) in (inr ds, set_hidden h s).

Definition call_concordance_index (ei et est : tensor) : M metric :=
  _ ← emit (ConcordanceIndex ei et est);
  mret (concordance_index ei et est).

Definition torch_cat (ts : list tensor) : M tensor :=
  match cat ts with
  | Some t => mret t
  | None => raise RuntimeError
  end.

(** [sum(ts)] on a list of tensors: [0 + t1 + t2 + ...], the [int] [0] when
    the list is empty. *)
Definition sum_tensors (ts : list tensor) : Z + tensor :=
  fold_left (λ acc t,
               match acc with
               | inl n => inr (int_add_tensor n t)
               | inr a => inr (tensor_add a t)
               end) ts (inl 0).

(** [a + sum(ts)] *)
Definition add_sum (a : tensor) (ts : list tensor) : tensor :=
  match sum_tensors ts with
  | inl n => tensor_add_int a n
  | inr b => tensor_add a b
  end.

(** *** Writing into [results] *)

Definition log_of (ph : phase) (el : epoch_log) : gmap string logval :=
  match ph with Train => log_train el | Valid => log_valid el end.

Definition set_log (ph : phase) (d : gmap string logval) (el : epoch_log)
    : epoch_log :=
  match ph with
  | Train => EpochLog d (log_valid el)
  | Valid => EpochLog (log_train el) d
  end.

(** [results['history'][epoch][ph][key] = v] *)
Definition log_write (epoch : Z) (ph : phase) (key : string) (v : logval)
    : M unit := λ s,
  let r := w_results s in
  match results_history r !! epoch with
  | None => (inl KeyError, s)
  | Some el =>
      let el' := set_log ph (<[key := v]> (log_of ph el)) el in
      (inr tt,
       set_results (Results (results_params r)
                            (<[epoch := el']> (results_history r))) s)
  end.

Definition get_results : M results := λ s, (inr (w_results s), s).
Definition put_results (r : results) : M unit := λ s, (inr tt, set_results r s).

(** ** [fit.py] *)

(** What one batch contributes: the three kinds of loss tensors. *)
Record batch_losses := BatchLosses {
  batch_kl_loss : tensor;
  batch_reconstruction_losses : list tensor;
  batch_survival_loss : tensor;
}.

(** The accumulators of a step: [*_kl_loss], [*_reconstruction_losses] and
    [*_survival_loss]. *)
Definition sums : Type := pynum * list pynum * pynum.

(** Lines 66-68 and 102-104. *)
Definition accumulate (acc : sums) (bl : batch_losses) : sums :=
  let '(kl_loss, reconstruction_losses, survival_loss) := acc in
  (py_add kl_loss (PyFloat (item (batch_kl_loss bl))),
   zip_with (λ i j, py_add i (PyFloat (item j)))
            reconstruction_losses (batch_reconstruction_losses bl),
   py_add survival_loss (PyFloat (item (batch_survival_loss bl)))).

(** [assert not t.isnan().any().item()] *)
Definition assert_not_nan (t : tensor) : M unit :=
  py_assert (negb (isnan_any t)).

(** [[data[f'X_{input_type}'] for input_type in types]] *)
Definition get_inputs (data : batch) (types : list string)
    : M (list tensor) :=
  mapM (λ input_type, getitem data ("X_" +:+ input_type)) types.

(** [{input_type: loss for input_type, loss in zip(types, losses)}] *)
Definition loss_dict (types : list string) (losses : list pynum) : logval :=
  LogDict (py_dict (zip types losses)).

Section Closures.
(** The variables of [fit] that its two closures capture. *)
Variable model : Model.
Variables trainloader validloader : loader.

Definition reconstruction_loss_funcs : list (tensor → tensor → tensor) :=
  (λ _, mse_loss) <$> input_types_vae model.

(** [[0 for _ in range(len(model.input_types_vae))]] *)
Definition zero_losses : list pynum :=
  (λ _, PyInt 0) <$> seq 0 (length (input_types_vae model)).

(** The body of the loop of [train_step] up to [optimizer.step()]
    (lines 50-65). *)
Definition train_batch (data : batch) : M batch_losses :=
  inputs_vae ← get_inputs data (input_types_vae model);
  inputs_task ← get_inputs data (input_types_subtask model);
  '(outputs, mu, logvar, riskpred) ← model_forward inputs_vae inputs_task;
  _ ← py_assert (bool_decide (length inputs_vae = length outputs));
  let kl_loss := kl_divergence mu logvar in
  _ ← assert_not_nan kl_loss;
  let reconstruction_losses :=
    zip_with3 (λ f output input_vae, f output input_vae)
              reconstruction_loss_funcs outputs inputs_vae in
  _ ← mapM assert_not_nan reconstruction_losses;
  event_indicator ← getitem data "event_indicator";
  event_time ← getitem data "event_time";
  let survival_loss :=
    coxph_loss event_indicator event_time (flatten riskpred) in
  _ ← assert_not_nan survival_loss;
  let batch_loss :=
    add_sum (tensor_add kl_loss survival_loss) reconstruction_losses in
  _ ← tensor_backward batch_loss;
  _ ← optimizer_step;
  mret (BatchLosses kl_loss reconstruction_losses survival_loss).

Definition train_step (epoch : Z) : M (pynum * list pynum * pynum) :=
  _ ← emit (TrainStep epoch);
  _ ← model_train;
  _ ← optimizer_zero_grad;
  let train_reconstruction_losses := zero_losses in
  let train_kl_loss := PyInt 0 in
  let train_survival_loss := PyInt 0 in
  loaded ← enumerate trainloader;
  '(train_kl_loss, train_reconstruction_losses, train_survival_loss) ←
    for_each (λ data acc, bl ← train_batch data; mret (accumulate acc bl))
             loaded
             (train_kl_loss, train_reconstruction_losses, train_survival_loss);
  _ ← log_write epoch Train "kl_loss" (LogNum train_kl_loss);
  _ ← log_write epoch Train "reconstruction_loss"
        (loss_dict (input_types_vae model) train_reconstruction_losses);
  _ ← log_write epoch Train "survival_loss" (LogNum train_survival_loss);
  mret (train_kl_loss, train_reconstruction_losses, train_survival_loss).

(** What one validation batch contributes: the three tensors appended for
    the metric, and the losses. *)
Record valid_item := ValidItem {
  item_event_indicator : tensor;
  item_event_time : tensor;
  item_estimate : tensor;
  item_losses : batch_losses;
}.

(** The body of the loop of [valid_step] up to the end of the [with] block
    (lines 85-101). *)
Definition valid_batch (data : batch) : M valid_item :=
  appended_indicator ← getitem data "event_indicator";
  appended_time ← getitem data "event_time";
  '(appended_estimate, bl) ← with_no_grad (
    inputs_vae ← get_inputs data (input_types_vae model);
    inputs_task ← get_inputs data (input_types_subtask model);
    '(outputs, mu, logvar, riskpred) ← model_forward inputs_vae inputs_task;
    let appended_estimate := flatten riskpred in
    _ ← py_assert (bool_decide (length inputs_vae = length outputs));
    let kl_loss := kl_divergence mu logvar in
    _ ← assert_not_nan kl_loss;
    let reconstruction_losses :=
      zip_with3 (λ f output input_vae, f output input_vae)
                reconstruction_loss_funcs outputs inputs_vae in
    _ ← mapM assert_not_nan reconstruction_losses;
    event_indicator ← getitem data "event_indicator";
    event_time ← getitem data "event_time";
    let survival_loss :=
      coxph_loss event_indicator event_time (flatten riskpred) in
    _ ← assert_not_nan survival_loss;
    mret (appended_estimate,
          BatchLosses kl_loss reconstruction_losses survival_loss));
  mret (ValidItem appended_indicator appended_time appended_estimate bl).

(** The local variables of [valid_step] that its loop updates. *)
Record valid_locals := ValidLocals {
  event_indicator_list : list tensor;
  event_time_list : list tensor;
  estimate_list : list tensor;
  valid_sums : sums;
}.

Definition valid_update (acc : valid_locals) (it : valid_item)
    : valid_locals :=
  ValidLocals (event_indicator_list acc ++ [item_event_indicator it])
              (event_time_list acc ++ [item_event_time it])
              (estimate_list acc ++ [item_estimate it])
              (accumulate (valid_sums acc) (item_losses it)).

Definition valid_step (epoch : Z)
    : M (pynum * list pynum * pynum * metric) :=
  _ ← emit (ValidStep epoch);
  _ ← model_eval;
  let start := ValidLocals [] [] [] (PyInt 0, zero_losses, PyInt 0) in
  loaded ← enumerate validloader;
  acc ← for_each (λ data acc, it ← valid_batch data;
                              mret (valid_update acc it))
                 loaded start;
  let '(valid_kl_loss, valid_reconstruction_losses, valid_survival_loss) :=
    valid_sums acc in
  event_indicator ← torch_cat (event_indicator_list acc);
  event_time ← torch_cat (event_time_list acc);
  estimate ← torch_cat (estimate_list acc);
  valid_metric ← call_concordance_index event_indicator event_time estimate;
  _ ← log_write epoch Valid "kl_loss" (LogNum valid_kl_loss);
  _ ← log_write epoch Valid "reconstruction_loss"
        (loss_dict (input_types_vae model) valid_reconstruction_losses);
  _ ← log_write epoch Valid "survival_loss" (LogNum valid_survival_loss);
  _ ← log_write epoch Valid "metric" (LogMetric valid_metric);
  mret (valid_kl_loss, valid_reconstruction_losses, valid_survival_loss,
        valid_metric).

(** The body of the loop over the epochs (lines 122-125). *)
Definition run_epoch (epoch : Z) : M unit :=
  r ← get_results;
  _ ← match results_history r !! epoch with
      | None =>
          put_results (Results (results_params r)
                         (<[epoch := EpochLog ∅ ∅]> (results_history r)))
      | Some _ => mret tt
      end;
  _ ← train_step epoch;
  _ ← valid_step epoch;
  mret tt.

End Closures.

Definition fit (model : Model) (trainloader validloader : loader)
    (params : Namespace pyobj) : M retval :=
  _ ← optimizer_init (lr params);
  _ ← put_results
        (Results (List.filter (λ kv, negb (String.prefix "_" kv.1))
                              (vars_items params)) ∅);
  _ ← for_each (λ epoch (_ : unit),
                  run_epoch model trainloader validloader epoch)
               (py_range (epochs params)) tt;
  r ← get_results;
  _ ← emit (JsonDump (resultsprefix params +:+ ".json") r);
  mret PyNone.

(** ** [main.py] *)

(** The values given on the command line for the three options, [None] for
    an option that is not given. *)
Record command_line := CommandLine {
  opt_endpoint : option string;
  opt_shuffle : option string;
  opt_fold : option string;
}.

(** The namespace that [parser.parse_args()] returns. *)
Record arguments := ParsedArgs {
  args_endpoint : string;
  args_shuffle : Z;
  args_fold : Z;
}.

(** [argparse] reports an invalid value with [parser.error], which exits
    with status 2. *)
Definition parser_error {A} : M A := raise (SystemExit 2).

(** An option with [type=int, choices=range(n), default=0]. *)
Definition int_option (given : option string) (n : Z) : M Z :=
  match given with
  | None => mret 0
  | Some text =>
      match py_int text with
      | None => parser_error
      | Some value =>
          if bool_decide (value ∈ py_range n) then mret value
          else parser_error
      end
  end.

(** An option with [type=str, choices=choices] and a default. *)
Definition str_option (given : option string) (choices : list string)
    (default : string) : M string :=
  match given with
  | None => mret default
  | Some value =>
      if bool_decide (value ∈ choices) then mret value else parser_error
  end.

Definition parse_args (argv : command_line) : M arguments :=
  e ← str_option (opt_endpoint argv) ["pfs"; "os"] "pfs";
  s ← int_option (opt_shuffle argv) 10;
  f ← int_option (opt_fold argv) 5;
  mret (ParsedArgs e s f).

Definition call_parse_all (e : string) : M dataframe :=
  _ ← emit (ParseAll e);
  mret (parse_all e).

Definition call_kfold_split (full : dataframe) (s f : Z)
    : M (dataframe * dataframe) :=
  _ ← emit (KFoldSplit full s f);
  mret (kfold_split full s f).

(** [Model(...)]: the new model replaces the weights and [.grad] buffers of
    the state. *)
Definition call_new_model (params : Namespace pyobj) : M Model := λ s,
  let '(m, w, g, h) :=
    new_model (input_types params) (input_dims params) (layer_dims params)
              (params_input_types_subtask params) (input_dims_subtask params)
              (layer_dims_subtask params) (z_dim params) (w_hidden s) in
  (inr m, set_hidden h (set_grad g (set_weights w s))).

(** Modelled from the spec: [predict_to_csv] and [plot_results_to_pdf] are
    in [../utils]; the spec lists a CSV and a PDF output, and [main.py] says
    of the two calls that they predict on the validation data and save to
    CSV, and plot losses and metrics to PDF. A call is recorded with the
    paths it is given, and counts as writing the file at its output path. *)
Definition predict_to_csv (model : Model) (validloader : loader)
    (path : string) : M unit :=
  emit (PredictToCsv validloader path).
Definition plot_results_to_pdf (json pdf : string) : M unit :=
  emit (PlotResultsToPdf json pdf).

Definition main (argv : command_line) : M unit :=
  args ← parse_args argv;
  let params :=
    specify_params_here (args_endpoint args) (args_shuffle args)
                        (args_fold args) in
  _ ← emit (MakeDirs (dirname (resultsprefix params)));
  full_dataframe ← call_parse_all (endpoint params);
  '(train_dataframe, valid_dataframe) ←
    call_kfold_split full_dataframe (shuffle params) (fold params);
  let '(train_dataframe_scaled, valid_dataframe_scaled) :=
    scale_impute train_dataframe valid_dataframe in
  let trainloader :=
    new_loader (new_dataset train_dataframe_scaled (input_types_all params))
               (batch_size params) true in
  let validloader :=
    new_loader (new_dataset valid_dataframe_scaled (input_types_all params))
               128 false in
  model ← call_new_model params;
  _ ← fit model trainloader validloader params;
  _ ← predict_to_csv model validloader (resultsprefix params +:+ ".csv");
  _ ← plot_results_to_pdf (resultsprefix params +:+ ".json")
                          (resultsprefix params +:+ ".pdf");
  mret tt.

(** The files that the calls of a trace write, in order. *)
Definition output_file (e : event) : option string :=
  match e with
  | JsonDump path _ => Some path
  | PredictToCsv _ path => Some path
  | PlotResultsToPdf _ pdf => Some pdf
  | _ => None
  end.

Definition output_files (evs : list event) : list string :=
  omap output_file evs.

End Fit.


(** ** Reading a trace *)

Section Traces.
Context `{Framework}.

(** The arguments of the [loss.backward()] calls of a trace. *)
Definition backward_calls (evs : list event) : list tensor :=
  omap (λ e, match e with Backward l => Some l | _ => None end) evs.

(** The [.grad] buffers read by the [optimizer.step()] calls of a trace. *)
Definition optimizer_calls (evs : list event) : list gradients :=
  omap (λ e, match e with OptimizerStep g => Some g | _ => None end) evs.

(** The arguments of the [ConcordanceIndex] calls of a trace. *)
Definition concordance_calls (evs : list event)
    : list (tensor * tensor * tensor) :=
  omap (λ e, match e with
             | ConcordanceIndex ei et est => Some (ei, et, est)
             | _ => None
             end) evs.

(** The steps entered in a trace. *)
Definition step_calls (evs : list event) : list (phase * Z) :=
  omap (λ e, match e with
             | TrainStep epoch => Some (Train, epoch)
             | ValidStep epoch => Some (Valid, epoch)
             | _ => None
             end) evs.

(** The calls that a validation step may make: no gradient is reset,
    computed or applied, and the model runs with gradients disabled. *)
Definition inference_only (e : event) : Prop :=
  match e with
  | ZeroGrad | Backward _ | OptimizerStep _ => False
  | Forward _ grad_enabled => grad_enabled = false
  | _ => True
  end.

(** The calls made between the first and the last line of [fit], the final
    [json.dump] apart. *)
Definition training_call (e : event) : Prop :=
  match e with
  | TrainStep _ | ValidStep _ | ZeroGrad | Forward _ _ | Backward _
  | OptimizerStep _ | ConcordanceIndex _ _ _ => True
  | _ => False
  end.

(** A computation [m] keeps the invariant [I] of the state, whether it
    returns or raises, and only adds calls that satisfy [Q] to the trace. *)
Definition steps {A} (I : world → Prop) (Q : event → Prop) (m : M A) : Prop :=
  ∀ s, I s →
    I (m s).2 ∧ ∃ evs, w_trace (m s).2 = w_trace s ++ evs ∧ Forall Q evs.

(** The sum of the values of one kind of loss over the batches of a step, as
    the accumulators compute it. *)
Definition total (kind : batch_losses → tensor) (bls : list batch_losses)
    : pynum :=
  py_sum ((λ bl, PyFloat (item (kind bl))) <$> bls).

(** The same for the reconstruction loss of the [i]-th input type. *)
Definition total_reconstruction (i : nat) (bls : list batch_losses)
    : pynum :=
  py_sum (omap (λ bl, (λ t, PyFloat (item t)) <$>
                       batch_reconstruction_losses bl !! i) bls).

(** The loss that [train_step] backpropagates for a batch with the losses
    [bl]: [batch_kl_loss + batch_survival_loss +
    sum(batch_reconstruction_losses)]. *)
Definition batch_loss (bl : batch_losses) : tensor :=
  add_sum (tensor_add (batch_kl_loss bl) (batch_survival_loss bl))
          (batch_reconstruction_losses bl).

(** The three losses [bl] of a batch, and the estimate that a validation
    step keeps of it, are what the loss functions and [flatten] return on
    the outputs of the model for that batch, the model having the weights
    [w], the mode [training] and the hidden state [h]. *)
Definition losses_of_forward (model : Model) (data : batch)
    (w : weights) (training : bool) (h : hidden)
    (bl : batch_losses) (estimate : tensor) : Prop :=
  ∃ inputs_vae inputs_task outputs mu logvar riskpred h' ei et,
    Forall2 (λ t x, data !! ("X_" +:+ t) = Some x)
            (input_types_vae model) inputs_vae ∧
    Forall2 (λ t x, data !! ("X_" +:+ t) = Some x)
            (input_types_subtask model) inputs_task ∧
    forward w training h inputs_vae inputs_task
      = ((outputs, mu, logvar, riskpred), h') ∧
    length outputs = length inputs_vae ∧
    data !! "event_indicator" = Some ei ∧
    data !! "event_time" = Some et ∧
    batch_kl_loss bl = kl_divergence mu logvar ∧
    batch_reconstruction_losses bl = zip_with mse_loss outputs inputs_vae ∧
    batch_survival_loss bl = coxph_loss ei et (flatten riskpred) ∧
    estimate = flatten riskpred.

(** No loss of a batch is NaN, and there is one reconstruction loss per
    input type of the VAE. *)
Definition losses_checked (model : Model) (bl : batch_losses) : Prop :=
  isnan_any (batch_kl_loss bl) = false ∧
  Forall (λ t, isnan_any t = false) (batch_reconstruction_losses bl) ∧
  isnan_any (batch_survival_loss bl) = false ∧
  length (batch_reconstruction_losses bl) = length (input_types_vae model).

(** The calls of the body of a loop over batches. *)
Definition batch_call (e : event) : Prop :=
  match e with
  | Forward _ _ | Backward _ | OptimizerStep _ => True
  | _ => False
  end.

(** The accumulators [acc] of a step hold, for each kind of loss, the sum
    over the batches of the step. *)
Definition sums_of (model : Model) (bls : list batch_losses) (acc : sums)
    : Prop :=
  acc.1.1 = total batch_kl_loss bls ∧
  length acc.1.2 = length (input_types_vae model) ∧
  (∀ i, (i < length (input_types_vae model))%nat →
        acc.1.2 !! i = Some (total_reconstruction i bls)) ∧
  acc.2 = total batch_survival_loss bls.

(** The three assignments that end a step (lines 71-75 and 112-116). *)
Definition write_losses (model : Model) (acc : sums)
    (d : gmap string logval) : gmap string logval :=
  <["survival_loss" := LogNum acc.2]>
    (<["reconstruction_loss" := loss_dict (input_types_vae model) acc.1.2]>
       (<["kl_loss" := LogNum acc.1.1]> d)).

(** [results] with [results['history'][epoch]] replaced. *)
Definition with_epoch (epoch : Z) (el : epoch_log) (r : results) : results :=
  Results (results_params r) (<[epoch := el]> (results_history r)).

(** The batches that a pass over [l] yields from the state [s]. *)
Definition loaded (l : loader) (s : world) : list batch :=
  (batches l (w_hidden s)).1.

(** The losses [bls] are those of the batches [ds], computed by the model
    in training mode. *)
Definition train_losses (model : Model) (ds : list batch)
    (bls : list batch_losses) : Prop :=
  Forall2 (λ data bl, ∃ w h estimate,
             losses_of_forward model data w true h bl estimate) ds bls.

(** The items [items] are those of the batches [ds], computed by the model
    with the weights [w], in evaluation mode. *)
Definition valid_items (model : Model) (w : weights) (ds : list batch)
    (items : list valid_item) : Prop :=
  Forall2 (λ data it,
             (∃ h, losses_of_forward model data w false h
                     (item_losses it) (item_estimate it)) ∧
             data !! "event_indicator" = Some (item_event_indicator it) ∧
             data !! "event_time" = Some (item_event_time it)) ds items.

(** The dictionary [d], written by a step, holds under ['kl_loss'],
    ['survival_loss'] and ['reconstruction_loss'] the sums of the losses
    [bls] of the batches of that step, the last one as a dictionary with one
    entry per input type of the VAE. *)
Definition logged_sums (model : Model) (bls : list batch_losses)
    (d : gmap string logval) : Prop :=
  d !! "kl_loss" = Some (LogNum (total batch_kl_loss bls)) ∧
  d !! "survival_loss" = Some (LogNum (total batch_survival_loss bls)) ∧
  ∃ per_type,
    d !! "reconstruction_loss" = Some (LogDict per_type) ∧
    dom per_type = list_to_set (input_types_vae model) ∧
    ∀ t v, per_type !! t = Some v →
      ∃ i, input_types_vae model !! i = Some t ∧
           v = total_reconstruction i bls.

(** What one epoch leaves in [results['history'][epoch]]: the sums of the
    checked losses of its training batches and of its validation batches,
    and the metric. *)
Definition epoch_entry (model : Model) (bls : list batch_losses)
    (items : list valid_item) (m : metric) (el : epoch_log) : Prop :=
  ∃ train_sums valid_sums,
    Forall (losses_checked model) bls ∧
    Forall (losses_checked model) (item_losses <$> items) ∧
    sums_of model bls train_sums ∧
    sums_of model (item_losses <$> items) valid_sums ∧
    log_train el = write_losses model train_sums ∅ ∧
    log_valid el
    = <["metric" := LogMetric m]> (write_losses model valid_sums ∅).

(** The state in which [run_epoch] calls [train_step]: the entry of the
    epoch is there. *)
Definition enter_epoch (epoch : Z) (s : world) : world :=
  match results_history (w_results s) !! epoch with
  | None => set_results (with_epoch epoch (EpochLog ∅ ∅) (w_results s)) s
  | Some _ => s
  end.

(** The model could run on the batch [data] in the state [s], and one of
    the checks of the loop body does not hold for what it returned. *)
Definition check_fails (model : Model) (data : batch) (s : world) : Prop :=
  ∃ inputs_vae inputs_task outputs mu logvar riskpred h',
    Forall2 (λ t x, data !! ("X_" +:+ t) = Some x)
            (input_types_vae model) inputs_vae ∧
    Forall2 (λ t x, data !! ("X_" +:+ t) = Some x)
            (input_types_subtask model) inputs_task ∧
    forward (w_weights s) (w_training s) (w_hidden s) inputs_vae inputs_task
      = ((outputs, mu, logvar, riskpred), h') ∧
    (length inputs_vae ≠ length outputs ∨
     isnan_any (kl_divergence mu logvar) = true ∨
     Exists (λ t, isnan_any t = true) (zip_with mse_loss outputs inputs_vae) ∨
     ∃ ei et, data !! "event_indicator" = Some ei ∧
              data !! "event_time" = Some et ∧
              isnan_any (coxph_loss ei et (flatten riskpred)) = true).

(** Every loss that the dictionary [d] of a step holds is the [int] [0]. *)
Definition logged_zero (d : gmap string logval) : Prop :=
  d !! "kl_loss" = Some (LogNum (PyInt 0)) ∧
  d !! "survival_loss" = Some (LogNum (PyInt 0)) ∧
  ∀ per_type t v,
    d !! "reconstruction_loss" = Some (LogDict per_type) →
    per_type !! t = Some v → v = PyInt 0.

(** The [.grad] buffers that successive [optimizer.step()] calls read when
    the losses [losses] are backpropagated one after the other, each
    followed by a step, from the buffers [g]. *)
Fixpoint accumulated (g : gradients) (losses : list tensor)
    : list gradients :=
  match losses with
  | [] => []
  | loss :: rest => backward g loss :: accumulated (backward g loss) rest
  end.

(** The states in which the loop of [train_step], the loop of [valid_step]
    and the loop of [fit] over the epochs start. *)
Definition train_loop_start (tl : loader) (epoch : Z) (s : world) : world :=
  (enumerate tl
     (add_event ZeroGrad
        (set_grad zero_grad
           (set_training true (add_event (TrainStep epoch) s))))).2.

Definition valid_loop_start (vl : loader) (epoch : Z) (s : world) : world :=
  (enumerate vl (set_training false (add_event (ValidStep epoch) s))).2.

Definition fit_loop_start (params : Namespace pyobj) (s : world) : world :=
  set_results
    (Results (List.filter (λ kv, negb (String.prefix "_" kv.1))
                          (vars_items params)) ∅)
    (set_adam (adam_init (lr params) (w_weights s)) s).

(** A loop with the body [f] over [xs], started in the state [s], gets to
    the element [x] in the state [s_x]: the body returned on every element
    before it. *)
Definition reaches {A B} (f : A → M B) (xs : list A) (s : world)
    (x : A) (s_x : world) : Prop :=
  ∃ before after bs, xs = before ++ x :: after ∧
                     mapM f before s = (inr bs, s_x).

(** [fit], started in the state [s], gets to the epoch [epoch] in the state
    [s_e]. *)
Definition reaches_epoch (model : Model) (tl vl : loader)
    (params : Namespace pyobj) (s : world) (epoch : Z) (s_e : world) : Prop :=
  reaches (run_epoch model tl vl) (py_range (epochs params))
          (fit_loop_start params s) epoch s_e.

(** The value that [parse_args] gives an option: the default when the
    option is not given, and otherwise the converted value, which must be
    one of the choices. *)
Definition endpoint_accepted (given : option string) (value : string)
    : Prop :=
  match given with
  | None => value = "pfs"
  | Some text => text = value ∧ (value = "pfs" ∨ value = "os")
  end.

Definition int_accepted (given : option string) (n : Z) (value : Z) : Prop :=
  match given with
  | None => value = 0
  | Some text => py_int text = Some value ∧ 0 ≤ value < n
  end.

Definition accepted (argv : command_line) (args : arguments) : Prop :=
  endpoint_accepted (opt_endpoint argv) (args_endpoint args) ∧
  int_accepted (opt_shuffle argv) 10 (args_shuffle args) ∧
  int_accepted (opt_fold argv) 5 (args_fold args).

(** The calls that [main] makes before it builds the model. *)
Definition data_calls (params : Namespace pyobj) : list event :=
  [MakeDirs (dirname (resultsprefix params));
   ParseAll (endpoint params);
   KFoldSplit (parse_all (endpoint params)) (shuffle params) (fold params)].

(** The validation loader that [main] builds. *)
Definition validloader_of (params : Namespace pyobj) : loader :=
  let '(train, valid) :=
    kfold_split (parse_all (endpoint params)) (shuffle params) (fold params) in
  let '(_, valid_scaled) := scale_impute train valid in
  new_loader (new_dataset valid_scaled (input_types_all params)) 128 false.

(** The calls that [main] makes after [fit] returned. *)
Definition report_calls (params : Namespace pyobj) : list event :=
  [PredictToCsv (validloader_of params) (resultsprefix params +:+ ".csv");
   PlotResultsToPdf (resultsprefix params +:+ ".json")
                    (resultsprefix params +:+ ".pdf")].

(** A call that loads no data: anything but [parse_all] and
    [kfold_split]. *)
Definition loads_no_data (e : event) : Prop :=
  match e with
  | ParseAll _ | KFoldSplit _ _ _ => False
  | _ => True
  end.

End Traces.

(** ** What the steps leave behind

    Notions for the state and the [results] that a step, [fit] or [main]
    leaves. *)

Section Observations.
Context `{Framework}.

(** The optimizer state and the weights after [optimizer.step()] has been
    called once for each of the buffers [gs], in order. *)
Definition apply_steps (gs : list gradients) (aw : adam * weights)
    : adam * weights :=
  fold_left (λ aw g, adam_step aw.1 aw.2 g) gs aw.

(** A [model.forward] call that runs with [model.training] being [training]
    and [torch.is_grad_enabled()] being [grad_enabled]. *)
Definition forward_in_mode (training grad_enabled : bool) (e : event)
    : Prop :=
  match e with
  | Forward tr ge => tr = training ∧ ge = grad_enabled
  | _ => True
  end.

(** [r'] differs from [r] at most in the keys [keys] of the dictionary of
    the phase [ph] of [results['history'][epoch]]. *)
Definition writes_only (epoch : Z) (ph : phase) (keys : list string)
    (r r' : results) : Prop :=
  results_params r' = results_params r ∧
  (∀ e, e ≠ epoch → results_history r' !! e = results_history r !! e) ∧
  (results_history r !! epoch = None → results_history r' !! epoch = None) ∧
  ∀ el, results_history r !! epoch = Some el →
    ∃ el', results_history r' !! epoch = Some el' ∧
      (∀ ph', ph' ≠ ph → log_of ph' el' = log_of ph' el) ∧
      ∀ k, k ∉ keys → log_of ph el' !! k = log_of ph el !! k.

(** The training loader that [main] builds, and the state in which it
    builds the model: the data calls have been made. *)
Definition trainloader_of (params : Namespace pyobj) : loader :=
  let '(train, valid) :=
    kfold_split (parse_all (endpoint params)) (shuffle params) (fold params) in
  let '(train_scaled, _) := scale_impute train valid in
  new_loader (new_dataset train_scaled (input_types_all params))
             (batch_size params) true.

Definition data_loaded (params : Namespace pyobj) (s : world) : world :=
  fold_left (λ s e, add_event e s) (data_calls params) s.

End Observations.

(** ** The words of the specification

    What the specification says of the losses, written without the helpers
    of the embedding of [fit.py], to be compared with what the embedding
    computes. *)

Section Stated.
Context `{Framework}.



(** The dictionary [d] of a step holds, under ['kl_loss'],
    ['survival_loss'] and, per input type, under ['reconstruction_loss'],
    the sum from [0] of the [.item()] values of that loss over the batches
    with the losses [bls], in order. *)
Definition logged_totals (model : Model) (bls : list batch_losses)
    (d : gmap string logval) : Prop :=
  d !! "kl_loss"
  = Some (LogNum (sum_from_zero ((λ bl, item (batch_kl_loss bl)) <$> bls))) ∧
  d !! "survival_loss"
  = Some (LogNum (sum_from_zero
                    ((λ bl, item (batch_survival_loss bl)) <$> bls))) ∧
  ∃ per_type,
    d !! "reconstruction_loss" = Some (LogDict per_type) ∧
    dom per_type = list_to_set (input_types_vae model) ∧
    ∀ t v, per_type !! t = Some v →
      ∃ i, input_types_vae model !! i = Some t ∧
           v = sum_from_zero
                 (omap (λ bl, item <$> batch_reconstruction_losses bl !! i)
                       bls).





End Stated.

(** ** A small instance of the collaborators

    One-dimensional tensors of floats and a linear model with one weight,
    enough to run [fit] and [main] on concrete batches. The [.grad] buffers
    are kept symbolically, as the list of the loss values whose gradients
    they have accumulated since they were last zeroed. The losses are sums
    of squares and, for the survival loss, the absolute value of the sum of
    the risk scores: like a mean squared error, a KL divergence and a
    negative partial log-likelihood, they are never negative. *)
Module Toy.

Definition fsum (xs : list float) : float := fold_left PrimFloat.add xs 0%float.

Definition square_error (output input : list float) : list float :=
  [fsum (zip_with (λ a b, ((a - b) * (a - b))%float) output input)].

Definition digit (c : ascii) : option Z :=
  let n := Z.of_N (Ascii.N_of_ascii c) in
  if bool_decide (48 ≤ n ≤ 57) then Some (n - 48) else None.

Fixpoint digits (s : string) (acc : Z) : option Z :=
  match s with
  | EmptyString => Some acc
  | String c s' =>
      match digit c with
      | Some d => digits s' (10 * acc + d)
      | None => None
      end
  end.

Definition decimal (s : string) : option Z :=
  match s with
  | EmptyString => None
  | _ => digits s 0
  end.

Definition toy_params (e : string) (s f : Z) : Namespace unit := {|
  endpoint := e; shuffle := s; fold := f;
  lr := 0.5%float; epochs := 2; resultsprefix := "out/" +:+ e;
  batch_size := 1;
  input_types_all := tt; input_types := tt; input_dims := tt;
  layer_dims := tt; params_input_types_subtask := tt;
  input_dims_subtask := tt; layer_dims_subtask := tt; z_dim := tt;
  vars_items := [("lr", tt); ("_secret", tt); ("epochs", tt)];
|}.

Definition toy_batch (x c time : float) : gmap string (list float) :=
  {[ "X_rna" := [x]; "X_clin" := [c];
     "event_indicator" := [1%float]; "event_time" := [time] ]}.

#[export] Instance framework : Framework := {|
  tensor := list float;
  weights := float;
  gradients := list float;
  adam := float;
  hidden := unit;
  metric := list float;
  loader := list (gmap string (list float));
  pyobj := unit;
  dataframe := list (gmap string (list float));
  dataset := list (gmap string (list float));
  tensor_add := zip_with PrimFloat.add;
  tensor_add_int := λ a n, List.map (λ x, (x + float_of_int n)%float) a;
  int_add_tensor := λ n a, List.map (λ x, (float_of_int n + x)%float) a;
  isnan_any := existsb PrimFloat.is_nan;
  item := λ a, match a with [x] => x | _ => PrimFloat.nan end;
  flatten := id;
  cat := λ ts, match ts with [] => None | _ => Some (concat ts) end;
  forward := λ w training h inputs_vae inputs_task,
    ((List.map (List.map (λ x, (w * x)%float)) inputs_vae,
      concat inputs_task, [0%float], concat inputs_task), h);
  kl_divergence := λ mu logvar, [fsum (List.map (λ x, (x * x)%float) mu)];
  mse_loss := square_error;
  coxph_loss := λ event_indicator event_time estimate,
    [PrimFloat.abs (fsum estimate)];
  concordance_index := λ event_indicator event_time estimate, estimate;
  zero_grad := [];
  backward := λ g loss, g ++ loss;
  adam_init := λ rate w, rate;
  adam_step := λ rate w g, (rate, (w - rate * fsum g)%float);
  batches := λ l h, (l, h);
  py_int := decimal;
  dirname := λ path, "out";
  specify_params_here := toy_params;
  parse_all := λ e,
    [toy_batch 1 0.5 3; toy_batch 2 (-0.5) 1;
     toy_batch 3 0.25 2; toy_batch 4 0 5];
  kfold_split := λ full s f, (take 2 full, drop 2 full);
  scale_impute := λ train valid, (train, valid);
  new_dataset := λ df types, df;
  new_loader := λ ds size shuffled, ds;
  new_model := λ _ _ _ _ _ _ _ h,
    (Build_Model ["rna"] ["clin"], 1%float, [], h);
|}.

Definition toy_model : Model := Build_Model ["rna"] ["clin"].

Definition train_data : list (gmap string (list float)) :=
  [toy_batch 1 0.5 3; toy_batch 2 (-0.5) 1].

Definition valid_data : list (gmap string (list float)) :=
  [toy_batch 3 0.25 2; toy_batch 4 0 5].

Definition start : world :=
  World (1%float : weights) ([] : gradients) (0%float : adam) (tt : hidden)
        false true (Results [] ∅) [].

(** The state in which [fit] enters epoch [0]. *)
Definition ready : world := enter_epoch 0 start.

Definition argv_example : command_line :=
  CommandLine None (Some "3") (Some "4").

Definition args_example : arguments := ParsedArgs "pfs" 3 4.

(** What a run returned, or [default] when it raised. *)
Definition returned {A} (default : A) (run : (exn + A) * world) : A :=
  match run.1 with
  | inr a => a
  | inl _ => default
  end.

Definition succeeded {A} (run : (exn + A) * world) : bool :=
  match run.1 with
  | inr _ => true
  | inl _ => false
  end.

Lemma returned_eq {A} (default : A) (run : (exn + A) * world) :
  succeeded run = true → run = (inr (returned default run), run.2).
Proof. by destruct run as [[e|a] s]. Qed.

Definition no_sums : sums := (PyInt 0, [], PyInt 0).

(** One training step on two batches, the validation step that follows it,
    and the same as an epoch, as a whole [fit] and as a run of [main]. *)
Definition train_run := train_step toy_model train_data 0 ready.
Definition valid_run := valid_step toy_model valid_data 0 train_run.2.
Definition epoch_run := run_epoch toy_model train_data valid_data 0 start.
Definition fit_run :=
  fit toy_model train_data valid_data (toy_params "pfs" 0 0) start.
Definition main_run := main argv_example start.

(** A batch on which the model returns a NaN reconstruction. *)
Definition nan_batch : gmap string (list float) := toy_batch nan 0.5 3.


(** A batch without the column of the input type [rna], and one without
    the two survival columns. *)
Definition bare_batch : gmap string (list float) :=
  {[ "X_clin" := [0.5%float];
     "event_indicator" := [1%float]; "event_time" := [3%float] ]}.

Definition unlabelled_batch : gmap string (list float) :=
  {[ "X_rna" := [1%float]; "X_clin" := [0.5%float] ]}.

(** Whether a run returned, and what it returned or raised ([default]
    otherwise), for any collaborators. *)
Definition returns {H : Framework} {A} (run : (exn + A) * world) : bool :=
  match run.1 with
  | inr _ => true
  | inl _ => false
  end.

Definition value_of {H : Framework} {A} (default : A)
    (run : (exn + A) * world) : A :=
  match run.1 with
  | inr a => a
  | inl _ => default
  end.

Definition raised {H : Framework} {A} (default : exn)
    (run : (exn + A) * world) : exn :=
  match run.1 with
  | inl e => e
  | inr _ => default
  end.

Lemma value_of_eq {H : Framework} {A} (default : A)
    (run : (exn + A) * world) :
  returns run = true → run = (inr (value_of default run), run.2).
Proof. by destruct run as [[e|a] s]. Qed.

Lemma raised_eq {H : Framework} {A} (default : exn)
    (run : (exn + A) * world) :
  returns run = false → run = (inl (raised default run), run.2).
Proof. by destruct run as [[e|a] s]. Qed.

(** The first training step of [fit_run], and its first epoch. *)
Definition first_train_run :=
  train_step toy_model train_data 0
    (enter_epoch 0 (fit_loop_start (toy_params "pfs" 0 0) start)).
Definition first_epochs :=
  mapM (run_epoch toy_model train_data valid_data) [0]
       (fit_loop_start (toy_params "pfs" 0 0) start).

(** The same collaborators, with parsed data whose first row holds a NaN. *)
Definition nan_framework : Framework := {|
  tensor := list float;
  weights := float;
  gradients := list float;
  adam := float;
  hidden := unit;
  metric := list float;
  loader := list (gmap string (list float));
  pyobj := unit;
  dataframe := list (gmap string (list float));
  dataset := list (gmap string (list float));
  tensor_add := zip_with PrimFloat.add;
  tensor_add_int := λ a n, List.map (λ x, (x + float_of_int n)%float) a;
  int_add_tensor := λ n a, List.map (λ x, (float_of_int n + x)%float) a;
  isnan_any := existsb PrimFloat.is_nan;
  item := λ a, match a with [x] => x | _ => PrimFloat.nan end;
  flatten := id;
  cat := λ ts, match ts with [] => None | _ => Some (concat ts) end;
  forward := λ w training h inputs_vae inputs_task,
    ((List.map (List.map (λ x, (w * x)%float)) inputs_vae,
      concat inputs_task, [0%float], concat inputs_task), h);
  kl_divergence := λ mu logvar, [fsum (List.map (λ x, (x * x)%float) mu)];
  mse_loss := square_error;
  coxph_loss := λ event_indicator event_time estimate,
    [PrimFloat.abs (fsum estimate)];
  concordance_index := λ event_indicator event_time estimate, estimate;
  zero_grad := [];
  backward := λ g loss, g ++ loss;
  adam_init := λ rate w, rate;
  adam_step := λ rate w g, (rate, (w - rate * fsum g)%float);
  batches := λ l h, (l, h);
  py_int := decimal;
  dirname := λ path, "out";
  specify_params_here := toy_params;
  parse_all := λ e,
    [toy_batch nan 0.5 3; toy_batch 2 (-0.5) 1;
     toy_batch 3 0.25 2; toy_batch 4 0 5];
  kfold_split := λ full s f, (take 2 full, drop 2 full);
  scale_impute := λ train valid, (train, valid);
  new_dataset := λ df types, df;
  new_loader := λ ds size shuffled, ds;
  new_model := λ _ _ _ _ _ _ _ h,
    (Build_Model ["rna"] ["clin"], 1%float, [], h);
|}.

Definition nan_start : @world nan_framework :=
  @World nan_framework 1%float [] 0%float tt false true
         (@Results nan_framework [] ∅) [].

(** The model that [main] builds on these data, and its [fit]. *)
Definition nan_model_run :=
  @call_new_model nan_framework (toy_params "pfs" 3 4)
    (@data_loaded nan_framework (toy_params "pfs" 3 4) nan_start).
Definition nan_fit_run :=
  @fit nan_framework (value_of toy_model nan_model_run)
    (@trainloader_of nan_framework (toy_params "pfs" 3 4))
    (@validloader_of nan_framework (toy_params "pfs" 3 4))
    (toy_params "pfs" 3 4) nan_model_run.2.

(** A train loader whose second batch holds a NaN, and the loop body of
    [train_step] on its first batch. *)
Definition spoilt_data : list (gmap string (list float)) :=
  [toy_batch 1 0.5 3; nan_batch].
Definition first_batch_run :=
  mapM (train_batch toy_model) [toy_batch 1 0.5 3]
       (train_loop_start spoilt_data 0 ready).
Definition spoilt_run := train_batch toy_model nan_batch first_batch_run.2.

(** A state in which the weight of the model is [2], so that the
    reconstruction losses are not [0]; a training step and the validation
    step after it from there. *)
Definition tuned : world :=
  World (2%float : weights) ([] : gradients) (0%float : adam) (tt : hidden)
        false true (w_results ready) [].
Definition tuned_run := train_step toy_model train_data 0 tuned.
Definition tuned_valid_run := valid_step toy_model valid_data 0 tuned_run.2.

(** The two steps over a loader that yields no batch. *)
Definition empty_train_run := train_step toy_model [] 0 ready.
Definition empty_valid_run := valid_step toy_model [] 0 train_run.2.

End Toy.

(** ** Reasoning about runs *)

Section Reasoning.
Context `{Framework}.

(** *** Running a sequence *)

Lemma bind_run {A B} (m : M A) (k : A → M B) s :
  (m ≫= k) s = match m s with
               | (inr a, s1) => k a s1
               | (inl e, s1) => (inl e, s1)
               end.
Proof. reflexivity. Qed.

Lemma bind_inr {A B} (m : M A) (k : A → M B) s b s' :
  (m ≫= k) s = (inr b, s') →
  ∃ a s1, m s = (inr a, s1) ∧ k a s1 = (inr b, s').
Proof.
  rewrite bind_run. destruct (m s) as [[e|a] s1]; [discriminate|]. eauto.
Qed.

Lemma bind_inl {A B} (m : M A) (k : A → M B) s e s' :
  (m ≫= k) s = (inl e, s') →
  m s = (inl e, s') ∨ ∃ a s1, m s = (inr a, s1) ∧ k a s1 = (inl e, s').
Proof.
  rewrite bind_run. destruct (m s) as [[e1|a] s1]; intros Hk.
  - injection Hk as -> ->. by left.
  - right. eauto.
Qed.

Lemma ret_inr {A} (a b : A) s s' :
  mret (M := M) a s = (inr b, s') → b = a ∧ s' = s.
Proof. intros [= -> ->]. done. Qed.

Lemma assert_inr b s u s' :
  py_assert b s = (inr u, s') → b = true ∧ s' = s.
Proof. destruct b; intros [= <-]; done. Qed.

Lemma getitem_inr (d : batch) key s v s' :
  getitem d key s = (inr v, s') → d !! key = Some v ∧ s' = s.
Proof.
  unfold getitem. destruct (d !! key); intros [= <- <-]; done.
Qed.


(** *** Invariants and emitted calls *)

Lemma steps_ret {A} I Q (a : A) : steps I Q (mret a).
Proof.
  intros s HI. split; [done|]. exists []. by rewrite app_nil_r.
Qed.

Lemma steps_raise {A} I Q e : steps I Q (raise (A := A) e).
Proof.
  intros s HI. split; [done|]. exists []. by rewrite app_nil_r.
Qed.

Lemma steps_bind {A B} I Q (m : M A) (k : A → M B) :
  steps I Q m → (∀ a, steps I Q (k a)) → steps I Q (m ≫= k).
Proof.
  intros Hm Hk s HI. rewrite bind_run.
  destruct (Hm s HI) as (HI1 & evs1 & Ht1 & HQ1).
  destruct (m s) as [[e|a] s1]; simpl in *; [eauto|].
  destruct (Hk a s1 HI1) as (HI2 & evs2 & Ht2 & HQ2).
  split; [done|]. exists (evs1 ++ evs2).
  rewrite Ht2, Ht1, app_assoc. split; [done|]. by apply Forall_app.
Qed.

Lemma steps_for_each {A B} I Q (body : A → B → M B) xs :
  (∀ x acc, steps I Q (body x acc)) → ∀ acc, steps I Q (for_each body xs acc).
Proof.
  intros Hbody. induction xs as [|x xs IH]; intros acc; simpl.
  - apply steps_ret.
  - apply steps_bind; [apply Hbody|apply IH].
Qed.

Lemma steps_mapM {A B} I Q (f : A → M B) xs :
  (∀ x, steps I Q (f x)) → steps I Q (mapM f xs).
Proof.
  intros Hf. induction xs as [|x xs IH]; simpl.
  - apply steps_ret.
  - apply steps_bind; [apply Hf|]. intros b.
    apply steps_bind; [apply IH|]. intros bs. apply steps_ret.
Qed.

Lemma steps_with_no_grad {A} (I : world → Prop) Q (body : M A) :
  (∀ s b, I s → I (set_grad_enabled b s)) →
  steps (λ s, I s ∧ w_grad_enabled s = false) Q body →
  steps I Q (with_no_grad body).
Proof.
  intros Hstable Hbody s HI. unfold with_no_grad.
  destruct (Hbody (set_grad_enabled false s)) as ((HI1 & _) & evs & Ht & HQ).
  { split; [by apply Hstable|done]. }
  destruct (body (set_grad_enabled false s)) as [r s1]; simpl in *.
  split; [by apply Hstable|]. eauto.
Qed.

(** *** Runs that return *)

Lemma emit_inr e s u s' :
  emit e s = (inr u, s') → s' = add_event e s.
Proof. by intros [= _ <-]. Qed.

Lemma with_no_grad_inr {A} (body : M A) s r s' :
  with_no_grad body s = (inr r, s') →
  ∃ s1, body (set_grad_enabled false s) = (inr r, s1) ∧
        s' = set_grad_enabled (w_grad_enabled s) s1.
Proof.
  unfold with_no_grad.
  destruct (body (set_grad_enabled false s)) as [r1 s1].
  intros [= -> <-]. eauto.
Qed.

Lemma model_forward_inr inputs_vae inputs_task s r s' :
  model_forward inputs_vae inputs_task s = (inr r, s') →
  ∃ h, forward (w_weights s) (w_training s) (w_hidden s)
               inputs_vae inputs_task = (r, h) ∧
       s' = add_event (Forward (w_training s) (w_grad_enabled s))
                      (set_hidden h s).
Proof.
  unfold model_forward.
  destruct (forward _ _ _ _ _) as [r1 h]. intros [= -> <-]. eauto.
Qed.

Lemma optimizer_step_inr s u s' :
  optimizer_step s = (inr u, s') →
  w_trace s' = w_trace s ++ [OptimizerStep (w_grad s)] ∧
  w_grad s' = w_grad s ∧ w_hidden s' = w_hidden s ∧
  w_training s' = w_training s ∧ w_grad_enabled s' = w_grad_enabled s ∧
  w_results s' = w_results s.
Proof.
  unfold optimizer_step.
  destruct (adam_step _ _ _) as [a w]. by intros [= _ <-].
Qed.

Lemma tensor_backward_inr loss s u s' :
  tensor_backward loss s = (inr u, s') →
  s' = add_event (Backward loss) (set_grad (backward (w_grad s) loss) s).
Proof.
  unfold tensor_backward. destruct (w_grad_enabled s); [|done].
  by intros [= _ <-].
Qed.

Lemma get_inputs_inr data types s xs s' :
  get_inputs data types s = (inr xs, s') →
  Forall2 (λ t x, data !! ("X_" +:+ t) = Some x) types xs ∧ s' = s.
Proof.
  unfold get_inputs. revert s xs.
  induction types as [|t types IH]; intros s xs; simpl.
  - intros [= <- <-]. by split.
  - intros Hrun. apply bind_inr in Hrun as (x & s1 & Hx & Hrun).
    apply getitem_inr in Hx as [Hx ->].
    apply bind_inr in Hrun as (xs' & s2 & Hxs & Hrun).
    apply ret_inr in Hrun as [-> ->].
    apply IH in Hxs as [Hxs ->]. split; [by constructor|done].
Qed.

Lemma assert_not_nan_inr t s u s' :
  assert_not_nan t s = (inr u, s') → isnan_any t = false ∧ s' = s.
Proof.
  intros Hrun. apply assert_inr in Hrun as [Hnan ->].
  by apply negb_true_iff in Hnan.
Qed.

Lemma assert_each_inr ts s us s' :
  mapM assert_not_nan ts s = (inr us, s') →
  Forall (λ t, isnan_any t = false) ts ∧ s' = s.
Proof.
  revert s us. induction ts as [|t ts IH]; intros s us; simpl.
  - intros [= <- <-]. by split.
  - intros Hrun. apply bind_inr in Hrun as (u & s1 & Ht & Hrun).
    apply assert_not_nan_inr in Ht as [Ht ->].
    apply bind_inr in Hrun as (us' & s2 & Hts & Hrun).
    apply ret_inr in Hrun as [-> ->].
    apply IH in Hts as [Hts ->]. split; [by constructor|done].
Qed.

Lemma zip_with3_mse (types : list string) outputs inputs :
  length outputs = length inputs → length inputs = length types →
  zip_with3 (λ f output input_vae, f output input_vae)
            ((λ _, mse_loss) <$> types) outputs inputs
  = zip_with mse_loss outputs inputs.
Proof.
  revert outputs inputs.
  induction types as [|t types IH]; intros [|o os] [|i ins]; simpl; try done.
  intros [= Ho] [= Hi]; simpl. f_equal. by apply IH.
Qed.

Lemma log_write_inr epoch ph key v s u s' :
  log_write epoch ph key v s = (inr u, s') →
  ∃ el, results_history (w_results s) !! epoch = Some el ∧
        s' = set_results
               (with_epoch epoch
                  (set_log ph (<[key := v]> (log_of ph el)) el)
                  (w_results s)) s.
Proof.
  unfold log_write.
  destruct (results_history (w_results s) !! epoch) as [el|];
    intros [= <-]; eauto.
Qed.

End Reasoning.

(** *** Tactics *)

(** A call that cannot raise and adds at most one event. *)
Ltac steps_call :=
  let s := fresh "s" in
  let HI := fresh "HI" in
  intros s HI;
  unfold model_forward, emit, model_train, model_eval, optimizer_init,
    optimizer_zero_grad, tensor_backward, optimizer_step, enumerate,
    get_results, put_results, log_write, call_new_model,
    predict_to_csv, plot_results_to_pdf;
  cbn in *;
  repeat (case_match; cbn in * );
  (split; [ cbn in *; intuition (eauto; congruence) | ]);
  first [ exists []; split;
            [ symmetry; apply app_nil_r | constructor ]
        | eexists; split;
            [ reflexivity
            | repeat constructor; cbn in *; intuition (eauto; congruence) ] ].

Ltac steps_go :=
  repeat
    match goal with
    | |- steps _ _ (mret _) => apply steps_ret
    | |- steps _ _ (raise _) => apply steps_raise
    | |- steps _ _ parser_error => apply steps_raise
    | |- steps _ _ (_ ≫= _) => apply steps_bind; [|intros ?]
    | |- steps _ _ (mapM _ _) => apply steps_mapM; intros ?
    | |- steps _ _ (for_each _ _ _) => apply steps_for_each; intros ? ?
    | |- steps _ _ (with_no_grad _) =>
        apply steps_with_no_grad; [intros ? ? ?; cbn in *; tauto|]
    | |- steps _ _ (py_assert ?b) => unfold py_assert; destruct b
    | |- steps _ _ (assert_not_nan _) => unfold assert_not_nan
    | |- steps _ _ (get_inputs _ _) => unfold get_inputs
    | |- steps _ _ (getitem ?d ?k) => unfold getitem; destruct (d !! k)
    | |- steps _ _ (torch_cat ?l) => unfold torch_cat; destruct (cat l)
    | |- steps _ _ (call_concordance_index _ _ _) =>
        unfold call_concordance_index
    | |- steps _ _ (match ?x with _ => _ end) => destruct x
    end.

(** Splitting the hypothesis that a sequence of calls returned. *)
Ltac run_inv H :=
  lazymatch type of H with
  | (_ ≫= _) _ = (inr _, _) =>
      let a := fresh "a" in
      let s1 := fresh "s" in
      let H1 := fresh "Hrun" in
      apply bind_inr in H as (a & s1 & H1 & H);
      cbv beta in H;
      repeat match goal with
             | x : (_ * _)%type |- _ => destruct x
             end;
      run_inv H1; run_inv H
  | mret _ _ = (inr _, _) => apply ret_inr in H as [? ?]
  | emit _ _ = (inr _, _) => apply emit_inr in H
  | py_assert _ _ = (inr _, _) => apply assert_inr in H as [? ?]
  | assert_not_nan _ _ = (inr _, _) => apply assert_not_nan_inr in H as [? ?]
  | getitem _ _ _ = (inr _, _) => apply getitem_inr in H as [? ?]
  | get_inputs _ _ _ = (inr _, _) => apply get_inputs_inr in H as [? ?]
  | mapM assert_not_nan _ _ = (inr _, _) =>
      apply assert_each_inr in H as [? ?]
  | model_forward _ _ _ = (inr _, _) =>
      apply model_forward_inr in H as (? & ? & ?)
  | tensor_backward _ _ = (inr _, _) => apply tensor_backward_inr in H
  | log_write _ _ _ _ _ = (inr _, _) =>
      apply log_write_inr in H as (? & ? & ?)
  | with_no_grad _ _ = (inr _, _) =>
      let s1 := fresh "s" in
      apply with_no_grad_inr in H as (s1 & H & ?); run_inv H
  | _ => idtac
  end.

Ltac forward_witness :=
  unfold losses_of_forward;
  match goal with
  | Hf : forward _ _ _ ?iv ?it = (?o, ?mu, ?lv, ?rp, ?h') |- _ =>
      exists iv, it, o, mu, lv, rp, h'
  end;
  do 2 eexists; repeat split; eauto.

Section Steps.
Context `{Framework}.

Lemma train_batch_inr model data s bl s' :
  train_batch model data s = (inr bl, s') →
  (∃ estimate,
     losses_of_forward model data (w_weights s) (w_training s) (w_hidden s)
                       bl estimate) ∧
  losses_checked model bl ∧
  w_trace s' = w_trace s ++
    [Forward (w_training s) (w_grad_enabled s);
     Backward (batch_loss bl);
     OptimizerStep (backward (w_grad s) (batch_loss bl))].
Proof.
  intros Hrun. unfold train_batch in Hrun. run_inv Hrun.
  match goal with
  | Hs : optimizer_step _ = _ |- _ =>
      apply optimizer_step_inr in Hs as (Ht & _)
  end.
  match goal with
  | Hb : bool_decide _ = true |- _ => apply bool_decide_eq_true in Hb
  end.
  subst.
  match goal with
  | Hin : Forall2 _ (input_types_vae model) _ |- _ =>
      pose proof (Forall2_length _ _ _ Hin) as Hlen
  end.
  unfold reconstruction_loss_funcs in *.
  rewrite zip_with3_mse in * by done.
  split; [|split].
  - eexists. by forward_witness.
  - repeat split; simpl; try done.
    rewrite length_zip_with. lia.
  - rewrite Ht. cbn. by rewrite <- !app_assoc.
Qed.

Lemma valid_batch_inr model data s it s' :
  valid_batch model data s = (inr it, s') →
  losses_of_forward model data (w_weights s) (w_training s) (w_hidden s)
                    (item_losses it) (item_estimate it) ∧
  losses_checked model (item_losses it) ∧
  data !! "event_indicator" = Some (item_event_indicator it) ∧
  data !! "event_time" = Some (item_event_time it).
Proof.
  intros Hrun. unfold valid_batch in Hrun. run_inv Hrun.
  match goal with
  | Hb : bool_decide _ = true |- _ => apply bool_decide_eq_true in Hb
  end.
  simplify_eq. cbn in *.
  repeat match goal with
         | H1 : ?o = Some ?x, H2 : ?o = Some ?y |- _ =>
             assert (y = x) by congruence; subst; clear H2
         end.
  match goal with
  | Hin : Forall2 _ (input_types_vae model) _ |- _ =>
      pose proof (Forall2_length _ _ _ Hin) as Hlen
  end.
  unfold reconstruction_loss_funcs in *.
  rewrite zip_with3_mse in * by done.
  split; [|split; [|split]]; try done.
  - by forward_witness.
  - repeat split; simpl; try done.
    rewrite length_zip_with. lia.
Qed.

(** *** Loops *)

Lemma for_each_mapM {A B C} (f : A → M B) (g : C → B → C) xs acc s :
  for_each (λ x acc, b ← f x; mret (g acc b)) xs acc s
  = (bs ← mapM f xs; mret (fold_left g bs acc)) s.
Proof.
  revert acc s. induction xs as [|x xs IH]; intros acc s; [done|].
  cbn [for_each mapM]. rewrite !bind_run.
  destruct (f x s) as [[e|b] s1]; [done|].
  rewrite !bind_run. cbn. rewrite IH, bind_run.
  by destruct (mapM f xs s1) as [[e|bs] s2].
Qed.

Lemma mapM_inr {A B C} (f : A → M B) (I : world → Prop) (R : A → B → Prop)
    (π : event → option C) (E : B → list C) :
  (∀ x s b s', I s → f x s = (inr b, s') →
     R x b ∧ I s' ∧
     ∃ evs, w_trace s' = w_trace s ++ evs ∧ omap π evs = E b) →
  ∀ xs s bs s', I s → mapM f xs s = (inr bs, s') →
     Forall2 R xs bs ∧ I s' ∧
     ∃ evs, w_trace s' = w_trace s ++ evs ∧ omap π evs = bs ≫= E.
Proof.
  intros Hf. induction xs as [|x xs IH]; intros s bs s' HI; simpl.
  - intros [= <- <-]. repeat split; [constructor|done|].
    exists []. by rewrite app_nil_r.
  - intros Hrun. apply bind_inr in Hrun as (b & s1 & Hb & Hrun).
    apply bind_inr in Hrun as (bs' & s2 & Hbs & Hrun).
    apply ret_inr in Hrun as [-> ->].
    destruct (Hf _ _ _ _ HI Hb) as (HR & HI1 & evs1 & Ht1 & Hp1).
    destruct (IH _ _ _ HI1 Hbs) as (HRs & HI2 & evs2 & Ht2 & Hp2).
    repeat split; [by constructor|done|].
    exists (evs1 ++ evs2). rewrite Ht2, Ht1, app_assoc. split; [done|].
    by rewrite omap_app, Hp1, Hp2.
Qed.


(** *** Sums and dictionaries *)

Lemma fold_accumulate (bls : list batch_losses) kl recs surv n :
  Forall (λ bl, length (batch_reconstruction_losses bl) = n) bls →
  length recs = n →
  ∃ recs',
    fold_left accumulate bls (kl, recs, surv)
    = (fold_left py_add ((λ bl, PyFloat (item (batch_kl_loss bl))) <$> bls) kl,
       recs',
       fold_left py_add
         ((λ bl, PyFloat (item (batch_survival_loss bl))) <$> bls) surv) ∧
    length recs' = n ∧
    ∀ i r, recs !! i = Some r →
      recs' !! i
      = Some (fold_left py_add
                (omap (λ bl, (λ t, PyFloat (item t)) <$>
                              batch_reconstruction_losses bl !! i) bls) r).
Proof.
  intros Hlen. revert kl recs surv.
  induction Hlen as [|bl bls Hbl Hbls IH]; intros kl recs surv Hrecs.
  - exists recs. by repeat split.
  - cbn [fold_left accumulate fmap list_fmap].
    edestruct IH as (recs' & -> & Hlen' & Hlookup).
    { rewrite length_zip_with. rewrite Hrecs, Hbl. apply Nat.min_id. }
    exists recs'. repeat split; [done|].
    intros i r Hi.
    assert (is_Some (batch_reconstruction_losses bl !! i)) as [t Ht].
    { apply lookup_lt_is_Some. rewrite Hbl, <- Hrecs.
      by eapply lookup_lt_Some. }
    cbn [omap list_omap]. rewrite Ht. cbn.
    apply Hlookup. rewrite lookup_zip_with, Hi. cbn. by rewrite Ht.
Qed.

Lemma zero_losses_lookup model i :
  (i < length (input_types_vae model))%nat →
  zero_losses model !! i = Some (PyInt 0).
Proof.
  intros Hi. unfold zero_losses.
  rewrite list_lookup_fmap, lookup_seq_lt; done.
Qed.

Lemma sums_of_fold model bls :
  Forall (losses_checked model) bls →
  sums_of model bls
    (fold_left accumulate bls (PyInt 0, zero_losses model, PyInt 0)).
Proof.
  intros Hbls.
  destruct (fold_accumulate bls (PyInt 0) (zero_losses model) (PyInt 0)
              (length (input_types_vae model)))
    as (recs & -> & Hlen & Hlookup).
  - eapply Forall_impl; [done|]. by intros bl (_ & _ & _ & ?).
  - unfold zero_losses. by rewrite length_fmap, length_seq.
  - repeat split; [done|].
    intros i Hi. by apply Hlookup, zero_losses_lookup.
Qed.

Lemma py_dict_insert_lookup {V} (kvs : list (string * V))
    (d : gmap string V) k v :
  fold_left (λ d kv, <[kv.1 := kv.2]> d) kvs d !! k = Some v →
  d !! k = Some v ∨ (k, v) ∈ kvs.
Proof.
  revert d. induction kvs as [|[k' v'] kvs IH]; intros d; simpl; [by left|].
  intros Hk. apply IH in Hk as [Hk|Hk].
  - destruct (decide (k' = k)) as [->|Hne].
    + rewrite lookup_insert_eq in Hk. injection Hk as ->.
      right. by left.
    + rewrite lookup_insert_ne in Hk by done. by left.
  - right. by right.
Qed.

Lemma py_dict_insert_dom {V} (kvs : list (string * V)) (d : gmap string V) :
  dom (fold_left (λ d kv, <[kv.1 := kv.2]> d) kvs d)
  = dom d ∪ list_to_set kvs.*1.
Proof.
  revert d. induction kvs as [|[k v] kvs IH]; intros d; simpl.
  - set_solver.
  - rewrite IH, dom_insert_L. set_solver.
Qed.

Lemma py_dict_lookup {V} (ks : list string) (vs : list V) k v :
  py_dict (zip ks vs) !! k = Some v →
  ∃ i, ks !! i = Some k ∧ vs !! i = Some v.
Proof.
  intros Hk. apply py_dict_insert_lookup in Hk as [Hk|Hk].
  - by rewrite lookup_empty in Hk.
  - apply list_elem_of_lookup in Hk as [i Hi]. exists i.
    apply lookup_zip_with_Some in Hi as (k' & v' & [= -> ->] & ? & ?).
    done.
Qed.

Lemma py_dict_dom {V} (ks : list string) (vs : list V) :
  length ks = length vs →
  dom (py_dict (zip ks vs)) = list_to_set ks.
Proof.
  intros Hlen. unfold py_dict.
  rewrite py_dict_insert_dom, dom_empty_L, fst_zip by lia. set_solver.
Qed.


(** *** The two steps *)

Lemma Forall2_and_r {A B} (P : A → B → Prop) (Q : B → Prop) l k :
  Forall2 (λ x y, P x y ∧ Q y) l k → Forall2 P l k ∧ Forall Q k.
Proof.
  induction 1 as [|x y l k [HP HQ] _ [IH1 IH2]]; split; by constructor.
Qed.

Lemma with_epoch_lookup epoch el r :
  results_history (with_epoch epoch el r) !! epoch = Some el.
Proof. apply lookup_insert_eq. Qed.

Lemma with_epoch_twice epoch el1 el2 r :
  with_epoch epoch el2 (with_epoch epoch el1 r) = with_epoch epoch el2 r.
Proof. unfold with_epoch. cbn. by rewrite insert_insert_eq. Qed.

Lemma enumerate_inr l s ds s' :
  enumerate l s = (inr ds, s') →
  ds = loaded l s ∧ w_trace s' = w_trace s ∧ w_results s' = w_results s ∧
  w_weights s' = w_weights s ∧ w_training s' = w_training s ∧
  w_grad s' = w_grad s ∧ w_adam s' = w_adam s ∧
  w_grad_enabled s' = w_grad_enabled s.
Proof.
  unfold enumerate, loaded. destruct (batches l (w_hidden s)) as [ds' h].
  by intros [= <- <-].
Qed.

Lemma train_batch_steps model data tr r :
  steps (λ s, w_training s = tr ∧ w_results s = r) batch_call
        (train_batch model data).
Proof. unfold train_batch. steps_go. all: steps_call. Qed.

Lemma train_step_inr model tl epoch s r s' :
  train_step model tl epoch s = (inr r, s') →
  ∃ bls el evs,
    Forall2 (λ data bl, ∃ w h estimate,
               losses_of_forward model data w true h bl estimate)
            (loaded tl s) bls ∧
    Forall (losses_checked model) bls ∧
    sums_of model bls r ∧
    results_history (w_results s) !! epoch = Some el ∧
    w_results s' = with_epoch epoch
                     (EpochLog (write_losses model r (log_train el))
                               (log_valid el))
                     (w_results s) ∧
    w_trace s' = w_trace s ++ TrainStep epoch :: ZeroGrad :: evs ∧
    Forall batch_call evs ∧
    backward_calls evs = batch_loss <$> bls.
Proof.
  intros Hrun. unfold train_step in Hrun.
  apply bind_inr in Hrun as (? & s1 & Hs1 & Hrun). apply emit_inr in Hs1.
  apply bind_inr in Hrun as (? & s2 & Hs2 & Hrun). injection Hs2 as _ Hs2.
  apply bind_inr in Hrun as (? & s3 & Hs3 & Hrun). injection Hs3 as _ Hs3.
  apply bind_inr in Hrun as (ds & s4 & Hs4 & Hrun).
  apply enumerate_inr in Hs4 as (Hds & Ht4 & Hr4 & _ & Htr4 & _).
  apply bind_inr in Hrun as ([[kl recs] surv] & s5 & Hloop & Hrun).
  rewrite for_each_mapM in Hloop.
  apply bind_inr in Hloop as (bls & s5' & Hloop & Hret).
  apply ret_inr in Hret as [Hacc ->].
  edestruct (mapM_inr (train_batch model)
    (λ s, w_training s = true ∧ w_results s = w_results s4)
    (λ data bl, (∃ w h estimate,
                   losses_of_forward model data w true h bl estimate) ∧
                losses_checked model bl)
    (λ e, match e with Backward l => Some l | _ => None end)
    (λ bl, [batch_loss bl]))
    as (Hbls & [_ Hr5] & evs & Ht5 & Hback); [| |exact Hloop|].
  { intros data s0 bl s0' [Htr Hr] Hbatch.
    pose proof (train_batch_steps model data true (w_results s4) s0
                  (conj Htr Hr)) as [HI _].
    rewrite Hbatch in HI.
    apply train_batch_inr in Hbatch as ((est & Hfw) & Hchk & Ht).
    rewrite Htr in Hfw. split; [split; [eauto|done]|].
    split; [done|]. eexists. split; [done|]. done. }
  { subst. done. }
  assert (Hall : Forall batch_call evs).
  { destruct (steps_mapM (λ _, True) batch_call (train_batch model) ds)
      with (s := s4) as (_ & evs' & Ht & Hall); [|done|].
    - intros data s0 _.
      by destruct (train_batch_steps model data (w_training s0)
                     (w_results s0) s0) as [_ ?].
    - rewrite Hloop in Ht. cbn in Ht. rewrite Ht5 in Ht.
      by apply app_inv_head in Ht as <-. }
  apply Forall2_and_r in Hbls as [Hfw Hchk].
  run_inv Hrun. simplify_eq. cbn in *.
  repeat match goal with
         | Hx : <[_:=_]> _ !! _ = Some _ |- _ =>
             rewrite lookup_insert_eq in Hx; simplify_eq
         end.
  cbn in *.
  match goal with
  | Hel : results_history _ !! epoch = Some ?el |- _ =>
      exists bls, el, evs; rewrite Hr5, Hr4 in Hel
  end.
  rewrite !with_epoch_twice, Hr5, Hr4, Ht5, Ht4. cbn in *.
  repeat split; try done.
  all: try (rewrite Hacc; by apply sums_of_fold).
  all: try (by rewrite <- !app_assoc).
Qed.


Lemma fold_valid_update items acc :
  fold_left valid_update items acc
  = ValidLocals
      (event_indicator_list acc ++ (item_event_indicator <$> items))
      (event_time_list acc ++ (item_event_time <$> items))
      (estimate_list acc ++ (item_estimate <$> items))
      (fold_left accumulate (item_losses <$> items) (valid_sums acc)).
Proof.
  revert acc. induction items as [|it items IH]; intros acc; cbn.
  - rewrite !app_nil_r. by destruct acc.
  - rewrite IH. cbn. by rewrite <- !app_assoc.
Qed.

Lemma valid_batch_steps model data w g a r :
  steps (λ s, w_weights s = w ∧ w_grad s = g ∧ w_adam s = a ∧
              w_training s = false ∧ w_results s = r)
        (λ e, e = Forward false false)
        (valid_batch model data).
Proof. unfold valid_batch. steps_go. all: steps_call. Qed.

Lemma torch_cat_inr ts s t s' :
  torch_cat ts s = (inr t, s') → cat ts = Some t ∧ s' = s.
Proof.
  unfold torch_cat. destruct (cat ts); intros [= <- <-]; done.
Qed.

Lemma valid_step_inr model vl epoch s r s' :
  valid_step model vl epoch s = (inr r, s') →
  ∃ items el ei et est evs,
    Forall2 (λ data it,
               (∃ h, losses_of_forward model data (w_weights s) false h
                       (item_losses it) (item_estimate it)) ∧
               data !! "event_indicator" = Some (item_event_indicator it) ∧
               data !! "event_time" = Some (item_event_time it))
            (loaded vl s) items ∧
    Forall (losses_checked model) (item_losses <$> items) ∧
    cat (item_event_indicator <$> items) = Some ei ∧
    cat (item_event_time <$> items) = Some et ∧
    cat (item_estimate <$> items) = Some est ∧
    sums_of model (item_losses <$> items) r.1 ∧
    r.2 = concordance_index ei et est ∧
    results_history (w_results s) !! epoch = Some el ∧
    w_results s' = with_epoch epoch
                     (EpochLog (log_train el)
                        (<["metric" := LogMetric r.2]>
                           (write_losses model r.1 (log_valid el))))
                     (w_results s) ∧
    w_trace s' = w_trace s ++ ValidStep epoch :: evs
                           ++ [ConcordanceIndex ei et est] ∧
    Forall (λ e, e = Forward false false) evs.
Proof.
  intros Hrun. unfold valid_step in Hrun.
  apply bind_inr in Hrun as (? & s1 & Hs1 & Hrun). apply emit_inr in Hs1.
  apply bind_inr in Hrun as (? & s2 & Hs2 & Hrun). injection Hs2 as _ Hs2.
  apply bind_inr in Hrun as (ds & s3 & Hs3 & Hrun).
  apply enumerate_inr in Hs3 as (Hds & Ht3 & Hr3 & Hw3 & Htr3 & Hg3 & Ha3 & _).
  apply bind_inr in Hrun as (acc & s4 & Hloop & Hrun).
  rewrite for_each_mapM in Hloop.
  apply bind_inr in Hloop as (items & s4' & Hloop & Hret).
  apply ret_inr in Hret as [Hacc ->].
  rewrite fold_valid_update in Hacc. cbn in Hacc.
  set (I := λ s0 : world,
         w_weights s0 = w_weights s ∧ w_grad s0 = w_grad s3 ∧
         w_adam s0 = w_adam s3 ∧ w_training s0 = false ∧
         w_results s0 = w_results s).
  assert (HI3 : I s3) by (subst; by repeat split).
  edestruct (mapM_inr (valid_batch model) I
    (λ data it,
       ((∃ h, losses_of_forward model data (w_weights s) false h
                (item_losses it) (item_estimate it)) ∧
        data !! "event_indicator" = Some (item_event_indicator it) ∧
        data !! "event_time" = Some (item_event_time it)) ∧
       losses_checked model (item_losses it))
    (λ _ : event, @None unit) (λ _, []))
    as (Hitems & HI4 & _); [|exact HI3|exact Hloop|].
  { intros data s0 it s0' HI0 Hbatch.
    pose proof (valid_batch_steps model data _ _ _ _ s0 HI0)
      as (HI0' & evs & Ht & _).
    rewrite Hbatch in HI0', Ht.
    apply valid_batch_inr in Hbatch as (Hfw & Hchk & Hei & Het).
    destruct HI0 as (Hw & _ & _ & Htr & _). rewrite Hw, Htr in Hfw.
    split; [eauto|]. split; [done|].
    exists evs. split; [done|]. clear. by induction evs. }
  assert (∃ evs, w_trace s4' = w_trace s3 ++ evs ∧
                 Forall (λ e, e = Forward false false) evs)
    as (evs & Ht4 & Hall).
  { destruct (steps_mapM I (λ e, e = Forward false false)
                (valid_batch model) ds) with (s := s3)
      as (_ & evs & Ht & Hall); [|done|].
    - intros data. apply valid_batch_steps.
    - rewrite Hloop in Ht. eauto. }
  apply Forall2_and_r in Hitems as [Hfw Hchk].
  destruct HI4 as (_ & _ & _ & _ & Hr4).
  rewrite Hacc in Hrun. cbn [valid_sums event_indicator_list
    event_time_list estimate_list] in Hrun.
  pose proof (sums_of_fold model (item_losses <$> items)) as Hsums.
  destruct (fold_left accumulate _ _) as [[kl recs] surv].
  unfold call_concordance_index in Hrun.
  run_inv Hrun.
  repeat match goal with
         | Hc : torch_cat _ _ = _ |- _ =>
             apply torch_cat_inr in Hc as [? ?]
         end.
  simplify_eq. cbn in *.
  repeat match goal with
         | Hx : <[_:=_]> _ !! _ = Some _ |- _ =>
             rewrite lookup_insert_eq in Hx; simplify_eq
         end.
  cbn in *.
  assert (Hchk' : Forall (losses_checked model) (item_losses <$> items)).
  { by apply Forall_fmap. }
  match goal with
  | Hel : results_history _ !! epoch = Some ?el,
    Hei : cat (item_event_indicator <$> _) = Some ?ei,
    Het : cat (item_event_time <$> _) = Some ?et,
    Hest : cat (item_estimate <$> _) = Some ?est |- _ =>
      exists items, el, ei, et, est, evs; rewrite Hr4 in Hel
  end.
  rewrite !with_epoch_twice, Hr4, Ht4, Ht3.
  repeat split; try done; try (by apply Hsums).
  by rewrite <- !app_assoc.
Qed.

End Steps.

(** ** Epochs and the whole of [fit] *)

Section Epochs.
Context `{Framework}.

Lemma batch_call_projections evs :
  Forall batch_call evs →
  step_calls evs = [] ∧ concordance_calls evs = [] ∧ output_files evs = [] ∧
  Forall training_call evs.
Proof.
  induction 1 as [|e evs He _ (IH1 & IH2 & IH3 & IH4)]; [done|].
  destruct e; try done; cbn; by repeat split; try constructor.
Qed.

Lemma forward_projections evs :
  Forall (λ e, e = Forward false false) evs →
  step_calls evs = [] ∧ concordance_calls evs = [] ∧ output_files evs = [] ∧
  backward_calls evs = [] ∧ Forall training_call evs.
Proof.
  induction 1 as [|e evs -> _ (IH1 & IH2 & IH3 & IH4 & IH5)]; [done|].
  cbn. by repeat split; try constructor.
Qed.

Lemma write_losses_logged model bls acc d :
  sums_of model bls acc → logged_sums model bls (write_losses model acc d).
Proof.
  destruct acc as [[kl recs] surv]. intros (Hkl & Hlen & Hrecs & Hsurv).
  cbn in *. subst. unfold write_losses. cbn.
  split.
  { do 2 (rewrite lookup_insert_ne by done). by rewrite lookup_insert_eq. }
  split; [by rewrite lookup_insert_eq|].
  exists (py_dict (zip (input_types_vae model) recs)).
  split.
  { rewrite lookup_insert_ne by done. by rewrite lookup_insert_eq. }
  split; [by apply py_dict_dom|].
  intros t v Ht. apply py_dict_lookup in Ht as (i & Hi & Hv).
  exists i. split; [done|].
  rewrite Hrecs in Hv by (by eapply lookup_lt_Some). by injection Hv.
Qed.

Lemma run_epoch_inr model tl vl epoch s u s' :
  run_epoch model tl vl epoch s = (inr u, s') →
  ∃ rt s1 rv,
    train_step model tl epoch (enter_epoch epoch s) = (inr rt, s1) ∧
    valid_step model vl epoch s1 = (inr rv, s').
Proof.
  intros Hrun. unfold run_epoch in Hrun.
  apply bind_inr in Hrun as (r & s0 & [= <- <-] & Hrun).
  apply bind_inr in Hrun as (? & s0 & Hs0 & Hrun).
  apply bind_inr in Hrun as (rt & s1 & Ht & Hrun).
  apply bind_inr in Hrun as (rv & s2 & Hv & Hrun).
  apply ret_inr in Hrun as [_ ->].
  exists rt, s1, rv. split; [|done].
  unfold enter_epoch.
  destruct (results_history (w_results s) !! epoch);
    unfold put_results, mret, M_ret in Hs0; by simplify_eq.
Qed.

(** What a whole epoch does, from a state without an entry for it. *)
Lemma run_epoch_fresh model tl vl epoch s u s' :
  results_history (w_results s) !! epoch = None →
  run_epoch model tl vl epoch s = (inr u, s') →
  ∃ s1 bls items ei et est evt evv el,
    train_losses model (loaded tl s) bls ∧
    valid_items model (w_weights s1) (loaded vl s1) items ∧
    cat (item_event_indicator <$> items) = Some ei ∧
    cat (item_event_time <$> items) = Some et ∧
    cat (item_estimate <$> items) = Some est ∧
    epoch_entry model bls items (concordance_index ei et est) el ∧
    w_results s' = with_epoch epoch el (w_results s) ∧
    w_trace s' = w_trace s ++ (TrainStep epoch :: ZeroGrad :: evt)
                   ++ (ValidStep epoch :: evv)
                   ++ [ConcordanceIndex ei et est] ∧
    Forall batch_call evt ∧
    Forall (λ e, e = Forward false false) evv ∧
    backward_calls evt = batch_loss <$> bls.
Proof.
  intros Hnone Hrun.
  apply run_epoch_inr in Hrun as (rt & s1 & rv & Ht & Hv).
  unfold enter_epoch in Ht. rewrite Hnone in Ht.
  apply train_step_inr in Ht
    as (bls & el & evt & Hbls & Hchk & Hsums & Hel & Hr1 & Ht1 & Hevt & Hback).
  apply valid_step_inr in Hv
    as (items & el' & ei & et & est & evv & Hitems & Hchk' & ? & ? & ?
        & Hsums' & Hm & Hel' & Hr2 & Ht2 & Hevv).
  cbn in Hel, Hr1, Ht1. rewrite lookup_insert_eq in Hel. injection Hel as <-.
  rewrite Hr1 in Hel', Hr2. rewrite with_epoch_lookup in Hel'.
  injection Hel' as <-. rewrite !with_epoch_twice in Hr2. cbn in Hr2.
  rewrite Hm in Hr2.
  eexists s1, bls, items, ei, et, est, evt, evv, _.
  repeat split; try done.
  - exists rt, rv.1. by split_and!.
  - rewrite Ht2, Ht1. by rewrite <- !app_assoc.
Qed.


Lemma epoch_events epoch evt evv ei et est :
  Forall batch_call evt →
  Forall (λ e, e = Forward false false) evv →
  let evs := (TrainStep epoch :: ZeroGrad :: evt) ++ (ValidStep epoch :: evv)
               ++ [ConcordanceIndex ei et est] in
  step_calls evs = [(Train, epoch); (Valid, epoch)] ∧
  concordance_calls evs = [(ei, et, est)] ∧
  backward_calls evs = backward_calls evt ∧
  Forall training_call evs.
Proof.
  intros Hevt Hevv evs. subst evs.
  apply batch_call_projections in Hevt as (Hs1 & Hc1 & _ & Ht1).
  apply forward_projections in Hevv as (Hs2 & Hc2 & _ & Hb2 & Ht2).
  unfold step_calls, concordance_calls, backward_calls in *.
  rewrite !omap_app. cbn. rewrite Hs1, Hs2, Hc1, Hc2, Hb2. cbn.
  rewrite app_nil_r. split_and!; try done.
  repeat first [ apply Forall_cons; split | apply Forall_app; split ];
    done.
Qed.

Lemma epochs_inr model tl vl es : ∀ s u s',
  NoDup es →
  (∀ e, e ∈ es → results_history (w_results s) !! e = None) →
  for_each (λ epoch _, run_epoch model tl vl epoch) es tt s = (inr u, s') →
  ∃ evs,
    w_trace s' = w_trace s ++ evs ∧
    Forall training_call evs ∧
    step_calls evs = es ≫= (λ e, [(Train, e); (Valid, e)]) ∧
    length (concordance_calls evs) = length es ∧
    results_params (w_results s') = results_params (w_results s) ∧
    (∀ e, e ∉ es →
       results_history (w_results s') !! e
       = results_history (w_results s) !! e) ∧
    (∀ e, e ∈ es → ∃ el bls items ei et est,
       results_history (w_results s') !! e = Some el ∧
       epoch_entry model bls items (concordance_index ei et est) el ∧
       (ei, et, est) ∈ concordance_calls evs).
Proof.
  induction es as [|epoch es IH]; intros s u s' Hnodup Hfresh Hrun.
  - apply ret_inr in Hrun as [_ ->]. exists [].
    rewrite app_nil_r. split_and!; try done. by intros e ?%elem_of_nil.
  - cbn [for_each] in Hrun.
    apply bind_inr in Hrun as ([] & s1 & Hepoch & Hrun).
    apply NoDup_cons in Hnodup as [Hnotin Hnodup].
    apply run_epoch_fresh in Hepoch
      as (s0 & bls & items & ei & et & est & evt & evv & el & _ & _ & _ & _
          & _ & Hentry & Hr1 & Ht1 & Hevt & Hevv & _);
      [|apply Hfresh; by left].
    destruct (epoch_events epoch evt evv ei et est Hevt Hevv)
      as (Hsc & Hcc & _ & Htc).
    apply IH in Hrun as (evs & Ht & Htc' & Hsc' & Hcc' & Hp & Hout & Hin);
      [|done|].
    2:{ intros e He. rewrite Hr1. cbn. rewrite lookup_insert_ne.
        - apply Hfresh. by right.
        - intros ->. done. }
    exists (((TrainStep epoch :: ZeroGrad :: evt) ++ (ValidStep epoch :: evv)
               ++ [ConcordanceIndex ei et est]) ++ evs).
    split; [by rewrite Ht, Ht1, <- app_assoc|].
    split; [by apply Forall_app|].
    unfold step_calls, concordance_calls in *.
    rewrite 2!(omap_app _ _ evs), Hsc, Hcc, Hsc'. rewrite length_app, Hcc'.
    split_and!; try done.
    + by rewrite Hp, Hr1.
    + intros e He. apply not_elem_of_cons in He as [Hne He].
      rewrite Hout, Hr1 by done. cbn. by rewrite lookup_insert_ne.
    + intros e [->|He]%elem_of_cons.
      * exists el, bls, items, ei, et, est.
        rewrite Hout, Hr1 by done. split; [apply with_epoch_lookup|].
        split; [done|]. apply elem_of_app. left. by left.
      * destruct (Hin e He) as (el' & bls' & items' & ei' & et' & est'
                                & ? & ? & ?).
        exists el', bls', items', ei', et', est'. split_and!; try done.
        apply elem_of_app. by right.
Qed.

Lemma fit_inr model tl vl params s r s' :
  fit model tl vl params s = (inr r, s') →
  r = PyNone ∧
  ∃ evs,
    w_trace s' = w_trace s ++ evs
                   ++ [JsonDump (resultsprefix params +:+ ".json")
                                (w_results s')] ∧
    Forall training_call evs ∧
    step_calls evs
    = py_range (epochs params) ≫= (λ e, [(Train, e); (Valid, e)]) ∧
    length (concordance_calls evs) = length (py_range (epochs params)) ∧
    results_params (w_results s')
    = List.filter (λ kv, negb (String.prefix "_" kv.1)) (vars_items params) ∧
    dom (results_history (w_results s'))
    = list_to_set (py_range (epochs params)) ∧
    (∀ e, 0 ≤ e < epochs params → ∃ el bls items ei et est,
       results_history (w_results s') !! e = Some el ∧
       epoch_entry model bls items (concordance_index ei et est) el ∧
       (ei, et, est) ∈ concordance_calls evs).
Proof.
  intros Hrun. unfold fit in Hrun.
  apply bind_inr in Hrun as (? & s1 & [= _ <-] & Hrun).
  apply bind_inr in Hrun as (? & s2 & [= _ <-] & Hrun).
  apply bind_inr in Hrun as (? & s3 & Hloop & Hrun).
  apply bind_inr in Hrun as (r3 & s4 & [= <- <-] & Hrun).
  apply bind_inr in Hrun as (? & s5 & [= _ <-] & Hrun).
  apply ret_inr in Hrun as [-> ->]. split; [done|].
  apply epochs_inr in Hloop
    as (evs & Ht & Htc & Hsc & Hcc & Hp & Hout & Hin).
  - exists evs. cbn in *. rewrite Ht, <- app_assoc.
    split_and!; try done.
    + apply set_eq. intros e. rewrite elem_of_dom, elem_of_list_to_set.
      split.
      * intros Hsome. destruct (decide (e ∈ py_range (epochs params)));
          [done|]. rewrite Hout in Hsome by done.
        rewrite lookup_empty in Hsome. by destruct Hsome.
      * intros He. destruct (Hin e He) as (el & ? & ? & ? & ? & ? & -> & _).
        done.
    + intros e He. apply Hin. apply elem_of_seqZ. lia.
  - apply NoDup_seqZ.
  - intros e _. cbn. apply lookup_empty.
Qed.

End Epochs.

(** ** Runs that raise, and what a validation step leaves alone *)

Section Failures.
Context `{Framework}.

Lemma get_inputs_run data types xs s :
  Forall2 (λ t x, data !! ("X_" +:+ t) = Some x) types xs →
  get_inputs data types s = (inr xs, s).
Proof.
  unfold get_inputs. induction 1 as [|t x types xs Hx _ IH]; [done|].
  cbn [mapM]. rewrite bind_run. unfold getitem at 1. rewrite Hx. cbn.
  rewrite bind_run, IH. done.
Qed.

Lemma assert_each_run ts s :
  (Forall (λ t, isnan_any t = false) ts ∧
   ∃ us, mapM assert_not_nan ts s = (inr us, s)) ∨
  (Exists (λ t, isnan_any t = true) ts ∧
   mapM assert_not_nan ts s = (inl AssertionError, s)).
Proof.
  induction ts as [|t ts IH].
  - left. split; [constructor|]. by exists [].
  - cbn [mapM]. rewrite bind_run. unfold assert_not_nan at 1 3.
    destruct (isnan_any t) eqn:Ht; cbn.
    + right. split; [by left|done].
    + rewrite bind_run.
      destruct IH as [[Hall [us ->]]|[Hex ->]].
      * left. split; [by constructor|]. by eexists.
      * right. split; [by right|done].
Qed.




Lemma train_loop_steps model ds acc r :
  steps (λ s, w_results s = r) batch_call
    (for_each (λ data acc, bl ← train_batch model data;
                           mret (accumulate acc bl)) ds acc).
Proof.
  apply steps_for_each. intros data acc'. unfold train_batch.
  steps_go. all: steps_call.
Qed.

Lemma valid_loop_steps model ds acc r :
  steps (λ s, w_results s = r) batch_call
    (for_each (λ data acc, it ← valid_batch model data;
                           mret (valid_update acc it)) ds acc).
Proof.
  apply steps_for_each. intros data acc'. unfold valid_batch.
  steps_go. all: steps_call.
Qed.

Lemma log_write_second epoch ph key v el r s :
  w_results s = with_epoch epoch el r →
  ∃ el', log_write epoch ph key v s
         = (inr tt, set_results (with_epoch epoch el' r) s).
Proof.
  intros Hr. unfold log_write. rewrite Hr, with_epoch_lookup.
  eexists. unfold with_epoch. cbn. by rewrite insert_insert_eq.
Qed.

Lemma log_write_inl epoch ph key v s e s' :
  log_write epoch ph key v s = (inl e, s') → s' = s.
Proof.
  unfold log_write. destruct (results_history (w_results s) !! epoch);
    by intros [= _ <-].
Qed.

(** Once the first of the assignments that end a step has found the entry
    of the epoch, the next ones find it too. *)
Ltac next_write H :=
  let Hw := fresh "Hw" in
  apply bind_inl in H as [H|(? & ? & Hw & H)];
    [ exfalso;
      match type of H with
      | log_write ?epoch ?ph ?key ?v ?s0 = _ =>
          edestruct (log_write_second epoch ph key v) with (s := s0)
            as [? Heq]; [cbn; reflexivity|];
          rewrite Heq in H; discriminate
      end
    | match type of Hw with
      | log_write ?epoch ?ph ?key ?v ?s0 = _ =>
          edestruct (log_write_second epoch ph key v) with (s := s0)
            as [? Heq]; [cbn; reflexivity|];
          rewrite Heq in Hw; injection Hw as _ <-; clear Heq
      end ].

Lemma train_step_inl model tl epoch s e s' :
  train_step model tl epoch s = (inl e, s') → w_results s' = w_results s.
Proof.
  intros Hrun. unfold train_step in Hrun.
  apply bind_inl in Hrun as [Hrun|(? & s1 & Hs1 & Hrun)]; [done|].
  apply emit_inr in Hs1.
  apply bind_inl in Hrun as [Hrun|(? & s2 & Hs2 & Hrun)]; [done|].
  injection Hs2 as _ Hs2.
  apply bind_inl in Hrun as [Hrun|(? & s3 & Hs3 & Hrun)]; [done|].
  injection Hs3 as _ Hs3.
  apply bind_inl in Hrun as [Hrun|(ds & s4 & Hs4 & Hrun)].
  { unfold enumerate in Hrun. by destruct (batches _ _). }
  apply enumerate_inr in Hs4 as (_ & _ & Hr4 & _).
  assert (Hr : w_results s4 = w_results s) by (subst; done).
  clear Hs1 Hs2 Hs3 Hr4.
  apply bind_inl in Hrun as [Hrun|([[kl recs] surv] & s5 & Hloop & Hrun)].
  { destruct (train_loop_steps model ds
                (PyInt 0, zero_losses model, PyInt 0) (w_results s4) s4
                eq_refl) as [Hres _].
    rewrite Hrun in Hres. cbn in Hres. congruence. }
  assert (Hr5 : w_results s5 = w_results s).
  { destruct (train_loop_steps model ds
                (PyInt 0, zero_losses model, PyInt 0) (w_results s4) s4
                eq_refl) as [Hres _].
    rewrite Hloop in Hres. cbn in Hres. congruence. }
  apply bind_inl in Hrun as [Hrun|(? & s6 & Hw1 & Hrun)].
  { apply log_write_inl in Hrun as ->. done. }
  apply log_write_inr in Hw1 as (el & Hel & ->).
  next_write Hrun. next_write Hrun. done.
Qed.

Lemma valid_step_inl model vl epoch s e s' :
  valid_step model vl epoch s = (inl e, s') → w_results s' = w_results s.
Proof.
  intros Hrun. unfold valid_step in Hrun.
  apply bind_inl in Hrun as [Hrun|(? & s1 & Hs1 & Hrun)]; [done|].
  apply emit_inr in Hs1.
  apply bind_inl in Hrun as [Hrun|(? & s2 & Hs2 & Hrun)]; [done|].
  injection Hs2 as _ Hs2.
  apply bind_inl in Hrun as [Hrun|(ds & s3 & Hs3 & Hrun)].
  { unfold enumerate in Hrun. by destruct (batches _ _). }
  apply enumerate_inr in Hs3 as (_ & _ & Hr3 & _).
  assert (Hr : w_results s3 = w_results s) by (subst; done).
  clear Hs1 Hs2 Hr3.
  apply bind_inl in Hrun as [Hrun|(acc & s4 & Hloop & Hrun)].
  { destruct (valid_loop_steps model ds
                (ValidLocals [] [] [] (PyInt 0, zero_losses model, PyInt 0))
                (w_results s3) s3 eq_refl) as [Hres _].
    rewrite Hrun in Hres. cbn in Hres. congruence. }
  assert (Hr4 : w_results s4 = w_results s).
  { destruct (valid_loop_steps model ds
                (ValidLocals [] [] [] (PyInt 0, zero_losses model, PyInt 0))
                (w_results s3) s3 eq_refl) as [Hres _].
    rewrite Hloop in Hres. cbn in Hres. congruence. }
  destruct (valid_sums acc) as [[kl recs] surv].
  unfold torch_cat, call_concordance_index in Hrun.
  repeat match type of Hrun with
         | context [cat ?ts] => destruct (cat ts)
         end.
  all: repeat (apply bind_inl in Hrun as [Hrun|(? & ? & [= <- <-] & Hrun)];
               [by injection Hrun as _ <-|]).
  all: try (by injection Hrun as _ <-).
  apply bind_inl in Hrun as [Hrun|(? & s6 & Hw1 & Hrun)].
  { apply log_write_inl in Hrun as ->. done. }
  apply log_write_inr in Hw1 as (el & Hel & ->).
  next_write Hrun. next_write Hrun. next_write Hrun. done.
Qed.


Lemma run_epoch_steps model tl vl epoch :
  steps (λ _, True) training_call (run_epoch model tl vl epoch).
Proof.
  unfold run_epoch, train_step, valid_step, train_batch, valid_batch.
  steps_go. all: steps_call.
Qed.

Lemma fit_inl model tl vl params s e s' :
  fit model tl vl params s = (inl e, s') →
  ∃ evs, w_trace s' = w_trace s ++ evs ∧ Forall training_call evs.
Proof.
  intros Hrun. unfold fit in Hrun.
  apply bind_inl in Hrun as [Hrun|(? & s1 & [= _ <-] & Hrun)]; [done|].
  apply bind_inl in Hrun as [Hrun|(? & s2 & [= _ <-] & Hrun)]; [done|].
  apply bind_inl in Hrun as [Hrun|(? & s3 & Hloop & Hrun)].
  - edestruct (steps_for_each (λ _, True) training_call
                 (λ epoch (_ : unit), run_epoch model tl vl epoch))
      as (_ & evs & Ht & Hevs); [| |rewrite Hrun in Ht; eauto].
    + intros epoch _. apply run_epoch_steps.
    + done.
  - apply bind_inl in Hrun as [Hrun|(? & s4 & [= <- <-] & Hrun)]; [done|].
    apply bind_inl in Hrun as [Hrun|(? & s5 & [= _ <-] & Hrun)]; done.
Qed.

Lemma valid_step_steps model vl epoch w g a :
  steps (λ s, w_weights s = w ∧ w_grad s = g ∧ w_adam s = a) inference_only
        (valid_step model vl epoch).
Proof.
  unfold valid_step, valid_batch. steps_go. all: steps_call.
Qed.

End Failures.

(** ** How an exception of a loop body leaves [fit] *)

Section Propagation.
Context `{Framework}.

Lemma mapM_raises {A B} (f : A → M B) before x after s bs s_x e s' :
  mapM f before s = (inr bs, s_x) →
  f x s_x = (inl e, s') →
  mapM f (before ++ x :: after) s = (inl e, s').
Proof.
  revert s bs. induction before as [|y before IH]; intros s bs Hbefore Hx.
  - apply ret_inr in Hbefore as [_ ->]. cbn [app mapM].
    by rewrite bind_run, Hx.
  - cbn [mapM] in Hbefore.
    apply bind_inr in Hbefore as (b & s1 & Hy & Hbefore).
    apply bind_inr in Hbefore as (bs' & s2 & Hbefore & Hret).
    apply ret_inr in Hret as [_ ->].
    cbn [app mapM]. rewrite bind_run, Hy, bind_run.
    by rewrite (IH _ _ Hbefore Hx).
Qed.

Lemma for_each_unit {A} (f : A → M unit) xs s :
  for_each (λ x (_ : unit), f x) xs tt s
  = (_ ← mapM f xs; mret tt) s.
Proof.
  revert s. induction xs as [|x xs IH]; intros s; [done|].
  cbn [for_each mapM]. rewrite !bind_run.
  destruct (f x s) as [[e|[]] s1]; [done|].
  rewrite IH, !bind_run. by destruct (mapM f xs s1) as [[e|bs] s2].
Qed.

Lemma train_step_run model tl epoch s :
  train_step model tl epoch s
  = ('(kl, recs, surv) ←
       for_each (λ data acc, bl ← train_batch model data;
                             mret (accumulate acc bl))
                (loaded tl s) (PyInt 0, zero_losses model, PyInt 0);
     _ ← log_write epoch Train "kl_loss" (LogNum kl);
     _ ← log_write epoch Train "reconstruction_loss"
           (loss_dict (input_types_vae model) recs);
     _ ← log_write epoch Train "survival_loss" (LogNum surv);
     mret (kl, recs, surv)) (train_loop_start tl epoch s).
Proof.
  unfold train_step, train_loop_start, loaded.
  rewrite bind_run. cbn [emit]. rewrite bind_run. cbn [model_train].
  rewrite bind_run. cbn [optimizer_zero_grad]. rewrite bind_run.
  unfold enumerate. cbn [w_hidden add_event set_grad set_training].
  destruct (batches tl (w_hidden s)) as [ds h]. reflexivity.
Qed.



Lemma valid_step_run model vl epoch s :
  valid_step model vl epoch s
  = (acc ← for_each (λ data acc, it ← valid_batch model data;
                                 mret (valid_update acc it))
                    (loaded vl s)
                    (ValidLocals [] [] []
                                 (PyInt 0, zero_losses model, PyInt 0));
     let '(valid_kl_loss, valid_reconstruction_losses,
           valid_survival_loss) := valid_sums acc in
     event_indicator ← torch_cat (event_indicator_list acc);
     event_time ← torch_cat (event_time_list acc);
     estimate ← torch_cat (estimate_list acc);
     valid_metric ← call_concordance_index event_indicator event_time
                                           estimate;
     _ ← log_write epoch Valid "kl_loss" (LogNum valid_kl_loss);
     _ ← log_write epoch Valid "reconstruction_loss"
           (loss_dict (input_types_vae model) valid_reconstruction_losses);
     _ ← log_write epoch Valid "survival_loss" (LogNum valid_survival_loss);
     _ ← log_write epoch Valid "metric" (LogMetric valid_metric);
     mret (valid_kl_loss, valid_reconstruction_losses, valid_survival_loss,
           valid_metric)) (valid_loop_start vl epoch s).
Proof.
  unfold valid_step, valid_loop_start, loaded.
  rewrite bind_run. cbn [emit]. rewrite bind_run. cbn [model_eval].
  rewrite bind_run.
  unfold enumerate. cbn [w_hidden add_event set_training].
  destruct (batches vl (w_hidden s)) as [ds h]. reflexivity.
Qed.


Lemma fit_run_loop model tl vl params s :
  fit model tl vl params s
  = (_ ← mapM (run_epoch model tl vl) (py_range (epochs params));
     r ← get_results;
     _ ← emit (JsonDump (resultsprefix params +:+ ".json") r);
     mret PyNone) (fit_loop_start params s).
Proof.
  unfold fit, fit_loop_start. rewrite bind_run. cbn [optimizer_init].
  rewrite bind_run. cbn [put_results]. rewrite !bind_run, for_each_unit.
  rewrite !bind_run.
  by destruct (mapM (run_epoch model tl vl) (py_range (epochs params)) _) as [[e|?] s1].
Qed.

(** The state that [fit] reaches an epoch in has no entry for it. *)
Lemma reaches_epoch_fresh model tl vl params s epoch s_e :
  reaches_epoch model tl vl params s epoch s_e →
  results_history (w_results s_e) !! epoch = None.
Proof.
  intros (before & after & us & Hrange & Hbefore).
  assert (NoDup (before ++ epoch :: after)) as Hnodup.
  { rewrite <- Hrange. apply NoDup_seqZ. }
  apply NoDup_app in Hnodup as (Hnodup & Hnotin & _).
  assert (for_each (λ e (_ : unit), run_epoch model tl vl e) before tt
            (fit_loop_start params s) = (inr tt, s_e)) as Hloop.
  { by rewrite for_each_unit, bind_run, Hbefore. }
  apply epochs_inr in Hloop as (_ & _ & _ & _ & _ & _ & Hout & _);
    [|done|by intros].
  rewrite Hout; [done|]. intros Hin. apply (Hnotin epoch Hin). by left.
Qed.

(** An exception that a step raises in an epoch that [fit] reaches ends
    [fit]; the state is the one in which the step raised. *)
Lemma fit_raises model tl vl params s epoch s_e e s' :
  reaches_epoch model tl vl params s epoch s_e →
  (train_step model tl epoch (enter_epoch epoch s_e) = (inl e, s') ∨
   ∃ rt s1, train_step model tl epoch (enter_epoch epoch s_e) = (inr rt, s1) ∧
            valid_step model vl epoch s1 = (inl e, s')) →
  fit model tl vl params s = (inl e, s').
Proof.
  intros (before & after & us & Hrange & Hbefore) Hstep.
  assert (run_epoch model tl vl epoch s_e = (inl e, s')) as Hepoch.
  { unfold run_epoch. rewrite bind_run. cbn [get_results]. rewrite bind_run.
    assert ((match results_history (w_results s_e) !! epoch with
             | Some _ => mret ()
             | None =>
                 put_results
                   (Results (results_params (w_results s_e))
                      (<[epoch:=EpochLog ∅ ∅]>
                         (results_history (w_results s_e))))
             end) s_e = (inr tt, enter_epoch epoch s_e)) as ->.
    { unfold enter_epoch.
      by destruct (results_history (w_results s_e) !! epoch). }
    rewrite bind_run.
    destruct Hstep as [->|(rt & s1 & -> & Hvalid)]; [done|].
    by rewrite bind_run, Hvalid. }
  rewrite fit_run_loop, bind_run, Hrange.
  by rewrite (mapM_raises _ _ _ _ _ _ _ _ _ Hbefore Hepoch).
Qed.

Lemma log_write_run epoch ph key v s el :
  results_history (w_results s) !! epoch = Some el →
  log_write epoch ph key v s
  = (inr tt,
     set_results
       (with_epoch epoch (set_log ph (<[key := v]> (log_of ph el)) el)
                   (w_results s)) s).
Proof. intros Hel. unfold log_write. by rewrite Hel. Qed.

(** A training step over no batch returns, once the entry of its epoch is
    there. *)
Lemma train_step_empty model tl epoch s :
  loaded tl s = [] →
  is_Some (results_history (w_results s) !! epoch) →
  ∃ rt s1, train_step model tl epoch s = (inr rt, s1).
Proof.
  intros Hnil [el Hel]. rewrite train_step_run, Hnil, bind_run.
  cbn [for_each mret M_ret].
  assert (results_history (w_results (train_loop_start tl epoch s)) !! epoch
          = Some el) as Hel0.
  { unfold train_loop_start, enumerate. cbn.
    by destruct (batches tl (w_hidden s)). }
  rewrite bind_run, (log_write_run _ _ _ _ _ _ Hel0).
  rewrite bind_run. erewrite log_write_run by apply with_epoch_lookup.
  rewrite bind_run. erewrite log_write_run by apply with_epoch_lookup.
  by eauto.
Qed.

End Propagation.

(** ** The script [main.py] *)

Section Main.
Context `{Framework}.

Lemma str_option_run given s :
  (∃ value, str_option given ["pfs"; "os"] "pfs" s = (inr value, s) ∧
            endpoint_accepted given value) ∨
  (str_option given ["pfs"; "os"] "pfs" s = (inl (SystemExit 2), s) ∧
   ∃ text, given = Some text ∧ text ≠ "pfs" ∧ text ≠ "os").
Proof.
  destruct given as [text|]; cbn; [|left; by eexists].
  case_bool_decide as Hin.
  - left. exists text. split; [done|]. split; [done|]. set_solver.
  - right. split; [done|]. exists text. set_solver.
Qed.

Lemma int_option_run given n s :
  (∃ value, int_option given n s = (inr value, s) ∧
            int_accepted given n value) ∨
  (int_option given n s = (inl (SystemExit 2), s) ∧
   ∃ text, given = Some text ∧
           ∀ value, py_int text = Some value → ¬ (0 ≤ value < n)).
Proof.
  destruct given as [text|]; cbn; [|left; by eexists].
  destruct (py_int text) as [value|] eqn:Hint.
  - case_bool_decide as Hin.
    + left. exists value. split; [done|]. split; [done|].
      unfold py_range in Hin. apply elem_of_seqZ in Hin. lia.
    + right. split; [done|]. exists text. split; [done|].
      intros v Hv Hrange. simplify_eq. apply Hin. apply elem_of_seqZ. lia.
  - right. split; [done|]. exists text. split; [done|].
    intros v Hv. congruence.
Qed.

Lemma parse_args_inr argv s args s' :
  parse_args argv s = (inr args, s') → s' = s ∧ accepted argv args.
Proof.
  unfold parse_args. rewrite bind_run.
  destruct (str_option_run (opt_endpoint argv) s)
    as [(e & -> & He)|[-> _]]; [|done].
  rewrite bind_run.
  destruct (int_option_run (opt_shuffle argv) 10 s)
    as [(sh & -> & Hsh)|[-> _]]; [|done].
  rewrite bind_run.
  destruct (int_option_run (opt_fold argv) 5 s)
    as [(f & -> & Hf)|[-> _]]; [|done].
  by intros [= <- <-].
Qed.

Lemma parse_args_accepted argv s args :
  accepted argv args → parse_args argv s = (inr args, s).
Proof.
  destruct args as [e sh f]. intros (He & Hsh & Hf). cbn in *.
  unfold parse_args. rewrite bind_run.
  assert (str_option (opt_endpoint argv) ["pfs"; "os"] "pfs" s = (inr e, s))
    as ->.
  { destruct (opt_endpoint argv) as [text|]; cbn in *; [|by subst].
    destruct He as [-> He]. rewrite bool_decide_true; [done|set_solver]. }
  rewrite bind_run.
  assert (∀ given n v, int_accepted given n v →
                       int_option given n s = (inr v, s)) as Hint.
  { intros [text|] n v; cbn; [|by intros ->]. intros [-> Hv].
    rewrite bool_decide_true; [done|]. apply elem_of_seqZ. lia. }
  rewrite (Hint _ _ _ Hsh), bind_run, (Hint _ _ _ Hf). done.
Qed.

Lemma parse_args_inl argv s e s' :
  parse_args argv s = (inl e, s') →
  e = SystemExit 2 ∧ s' = s ∧
  ((∃ text, opt_endpoint argv = Some text ∧ text ≠ "pfs" ∧ text ≠ "os") ∨
   (∃ text, opt_shuffle argv = Some text ∧
            ∀ value, py_int text = Some value → ¬ (0 ≤ value < 10)) ∨
   (∃ text, opt_fold argv = Some text ∧
            ∀ value, py_int text = Some value → ¬ (0 ≤ value < 5))).
Proof.
  unfold parse_args. rewrite bind_run.
  destruct (str_option_run (opt_endpoint argv) s)
    as [(v & -> & He)|[-> Hbad]]; [|intros [= <- <-]; eauto].
  rewrite bind_run.
  destruct (int_option_run (opt_shuffle argv) 10 s)
    as [(sh & -> & Hsh)|[-> Hbad]]; [|intros [= <- <-]; eauto].
  rewrite bind_run.
  destruct (int_option_run (opt_fold argv) 5 s)
    as [(f & -> & Hf)|[-> Hbad]]; [|intros [= <- <-]; eauto 6].
  done.
Qed.


(** What [main] does once the arguments are accepted: the data calls, then
    [fit] and the two reports on the model and loaders built from them. *)
Lemma main_accepted argv s args :
  accepted argv args →
  let params := specify_params_here (args_endpoint args) (args_shuffle args)
                                    (args_fold args) in
  ∃ model tl s1,
    w_trace s1 = w_trace s ++ data_calls params ∧
    main argv s
    = (_ ← fit model tl (validloader_of params) params;
       _ ← predict_to_csv model (validloader_of params)
                          (resultsprefix params +:+ ".csv");
       _ ← plot_results_to_pdf (resultsprefix params +:+ ".json")
                               (resultsprefix params +:+ ".pdf");
       mret tt) s1.
Proof.
  intros Hacc params. unfold main.
  rewrite bind_run, (parse_args_accepted _ _ _ Hacc). fold params.
  rewrite bind_run. cbn [emit].
  rewrite bind_run. unfold call_parse_all. rewrite bind_run. cbn [emit mret M_ret].
  rewrite bind_run. unfold call_kfold_split. rewrite bind_run.
  cbn [emit mret M_ret].
  unfold validloader_of.
  destruct (kfold_split _ _ _) as [train valid].
  destruct (scale_impute train valid) as [train_scaled valid_scaled].
  rewrite bind_run. unfold call_new_model.
  destruct (new_model _ _ _ _ _ _ _ _) as [[[model w] g] h].
  eexists model, _, _. split; [|reflexivity].
  cbn. by rewrite <- !app_assoc.
Qed.

Lemma fit_steps model tl vl params :
  steps (λ _, True) loads_no_data (fit model tl vl params).
Proof.
  unfold fit, run_epoch, train_step, valid_step, train_batch, valid_batch.
  steps_go. all: steps_call.
Qed.

Lemma main_inr argv s u s' :
  main argv s = (inr u, s') →
  ∃ args, accepted argv args ∧
    let params := specify_params_here (args_endpoint args) (args_shuffle args)
                                      (args_fold args) in
    ∃ evs,
      w_trace s' = w_trace s ++ data_calls params ++ evs
                     ++ JsonDump (resultsprefix params +:+ ".json")
                                 (w_results s')
                     :: report_calls params ∧
      Forall training_call evs ∧
      results_params (w_results s')
      = List.filter (λ kv, negb (String.prefix "_" kv.1))
                    (vars_items params) ∧
      dom (results_history (w_results s'))
      = list_to_set (py_range (epochs params)).
Proof.
  intros Hrun.
  assert (∃ args, parse_args argv s = (inr args, s)) as [args Hparse].
  { unfold main in Hrun. apply bind_inr in Hrun as (args & s0 & Hp & _).
    apply parse_args_inr in Hp as Hp'. destruct Hp' as [-> _]. eauto. }
  apply parse_args_inr in Hparse as [_ Hacc].
  exists args. split; [done|]. intros params.
  destruct (main_accepted argv s args Hacc)
    as (model & tl & s1 & Ht1 & Hmain).
  fold params in Ht1, Hmain. rewrite Hmain in Hrun.
  apply bind_inr in Hrun as (r & s2 & Hfit & Hrun).
  apply fit_inr in Hfit
    as (_ & evs & Ht2 & Hevs & _ & _ & Hparams & Hdom & _).
  apply bind_inr in Hrun as (? & s3 & [= _ <-] & Hrun).
  apply bind_inr in Hrun as (? & s4 & [= _ <-] & Hrun).
  apply ret_inr in Hrun as [_ ->].
  exists evs. cbn. rewrite Ht2, Ht1. split_and!; try done.
  unfold report_calls. by rewrite <- !app_assoc.
Qed.

Lemma main_run_accepted argv s args :
  accepted argv args →
  let params := specify_params_here (args_endpoint args) (args_shuffle args)
                                    (args_fold args) in
  main argv s
  = (model ← call_new_model params;
     _ ← fit model (trainloader_of params) (validloader_of params) params;
     _ ← predict_to_csv model (validloader_of params)
                        (resultsprefix params +:+ ".csv");
     _ ← plot_results_to_pdf (resultsprefix params +:+ ".json")
                             (resultsprefix params +:+ ".pdf");
     mret tt) (data_loaded params s).
Proof.
  intros Hacc params. unfold main.
  rewrite bind_run, (parse_args_accepted _ _ _ Hacc). fold params.
  rewrite bind_run. cbn [emit].
  rewrite bind_run. unfold call_parse_all. rewrite bind_run.
  cbn [emit mret M_ret].
  rewrite bind_run. unfold call_kfold_split. rewrite bind_run.
  cbn [emit mret M_ret].
  unfold validloader_of, trainloader_of.
  destruct (kfold_split _ _ _) as [train valid].
  destruct (scale_impute train valid) as [train_scaled valid_scaled].
  reflexivity.
Qed.

End Main.

(** ** Floats that are not negative *)

Section Floats.





















End Floats.

(** ** Sums, as the specification words them *)

Section Sums.
Context `{Framework}.



Lemma fold_py_add xs a :
  fold_left py_add (PyFloat <$> xs) (PyFloat a)
  = PyFloat (fold_left PrimFloat.add xs a).
Proof. revert a. induction xs as [|x xs IH]; intros a; cbn; [done|apply IH]. Qed.

Lemma py_sum_floats xs : py_sum (PyFloat <$> xs) = sum_from_zero xs.
Proof.
  destruct xs as [|x xs]; [done|]. unfold py_sum. cbn. apply fold_py_add.
Qed.

Lemma total_sum_from_zero kind bls :
  total kind bls = sum_from_zero ((λ bl, item (kind bl)) <$> bls).
Proof.
  unfold total. rewrite <- py_sum_floats. f_equal.
  by rewrite <- list_fmap_compose.
Qed.

Lemma total_reconstruction_sum_from_zero i bls :
  total_reconstruction i bls
  = sum_from_zero
      (omap (λ bl, item <$> batch_reconstruction_losses bl !! i) bls).
Proof.
  unfold total_reconstruction. rewrite <- py_sum_floats. f_equal.
  induction bls as [|bl bls IH]; [done|]. cbn.
  destruct (batch_reconstruction_losses bl !! i); cbn; by rewrite IH.
Qed.

Lemma logged_sums_totals model bls d :
  logged_sums model bls d → logged_totals model bls d.
Proof.
  intros (Hkl & Hsurv & per_type & Hrec & Hdom & Hall).
  split; [by rewrite Hkl, total_sum_from_zero|].
  split; [by rewrite Hsurv, total_sum_from_zero|].
  exists per_type. split; [done|]. split; [done|].
  intros t v Ht. destruct (Hall t v Ht) as (i & Hi & ->).
  exists i. split; [done|]. apply total_reconstruction_sum_from_zero.
Qed.

(** *** No NaN among sums of values that are not negative *)











End Sums.

(** ** The properties of the specification *)

Section Claims.
Context `{Framework}.

Lemma logged_sums_metric model bls m d :
  logged_sums model bls d →
  logged_sums model bls (<["metric" := LogMetric m]> d).
Proof.
  intros (Hkl & Hsurv & per_type & Hrec & Hdom).
  split; [by rewrite lookup_insert_ne|].
  split; [by rewrite lookup_insert_ne|].
  exists per_type. by rewrite lookup_insert_ne.
Qed.

Lemma logged_sums_nil model d : logged_sums model [] d → logged_zero d.
Proof.
  intros (Hkl & Hsurv & per_type & Hrec & _ & Hall).
  split; [done|]. split; [done|].
  intros per_type' t v Hrec' Ht. rewrite Hrec in Hrec'.
  injection Hrec' as <-. by destruct (Hall t v Ht) as (i & _ & ->).
Qed.

Lemma write_losses_dom model acc :
  dom (write_losses model acc ∅)
  = {["kl_loss"; "reconstruction_loss"; "survival_loss"]}.
Proof.
  unfold write_losses. rewrite !dom_insert_L, dom_empty_L. set_solver.
Qed.

Lemma epoch_entry_logged model bls items m el :
  epoch_entry model bls items m el →
  logged_sums model bls (log_train el) ∧
  logged_sums model (item_losses <$> items) (log_valid el) ∧
  dom (log_train el) = {["kl_loss"; "reconstruction_loss"; "survival_loss"]} ∧
  dom (log_valid el)
  = {["kl_loss"; "reconstruction_loss"; "survival_loss"; "metric"]} ∧
  log_valid el !! "metric" = Some (LogMetric m).
Proof.
  intros (rt & rv & _ & _ & Hrt & Hrv & -> & ->).
  split_and!.
  - by apply write_losses_logged.
  - by apply logged_sums_metric, write_losses_logged.
  - apply write_losses_dom.
  - rewrite dom_insert_L, write_losses_dom. set_solver.
  - apply lookup_insert_eq.
Qed.

Lemma train_batch_grad model data s bl s' :
  train_batch model data s = (inr bl, s') →
  w_grad s' = backward (w_grad s) (batch_loss bl).
Proof.
  intros Hrun. pose proof Hrun as Hspec.
  apply train_batch_inr in Hspec as (_ & _ & Ht).
  unfold train_batch in Hrun. run_inv Hrun.
  match goal with
  | Hs : optimizer_step _ = _ |- _ =>
      apply optimizer_step_inr in Hs as (_ & Hg & _)
  end.
  simplify_eq. rewrite Hg. done.
Qed.

(** The buffers that the optimizer reads in a loop over batches: nothing
    resets them between two batches. *)
Lemma train_loop_accumulates model ds : ∀ s bls s',
  mapM (train_batch model) ds s = (inr bls, s') →
  ∃ evs, w_trace s' = w_trace s ++ evs ∧
         backward_calls evs = batch_loss <$> bls ∧
         optimizer_calls evs = accumulated (w_grad s) (batch_loss <$> bls).
Proof.
  induction ds as [|data ds IH]; intros s bls s' Hrun; cbn [mapM] in Hrun.
  - apply ret_inr in Hrun as [-> ->]. exists []. by rewrite app_nil_r.
  - apply bind_inr in Hrun as (bl & s1 & Hbatch & Hrun).
    apply bind_inr in Hrun as (bls' & s2 & Hrest & Hrun).
    apply ret_inr in Hrun as [-> ->].
    pose proof (train_batch_grad _ _ _ _ _ Hbatch) as Hg.
    apply train_batch_inr in Hbatch as (_ & _ & Ht1).
    apply IH in Hrest as (evs & Ht2 & Hback & Hcalls).
    eexists. split; [by rewrite Ht2, Ht1, <- app_assoc|].
    unfold optimizer_calls, backward_calls in *.
    rewrite !omap_app, Hcalls, Hback, Hg. done.
Qed.

(** In a training step that completes, the optimizer.step of the k-th batch
    reads buffers that hold the gradients of the losses of the batches 1 to
    k, zeroed once before the first. *)
Lemma train_step_accumulates model tl epoch s r s' :
  train_step model tl epoch s = (inr r, s') →
  ∃ bls evs,
    w_trace s' = w_trace s ++ evs ∧
    train_losses model (loaded tl s) bls ∧
    backward_calls evs = batch_loss <$> bls ∧
    optimizer_calls evs = accumulated zero_grad (batch_loss <$> bls).
Proof.
  intros Hrun. pose proof Hrun as Hspec.
  apply train_step_inr in Hspec
    as (bls & el & evs & Hbls & _ & _ & _ & _ & Ht & _ & Hback).
  exists bls, (TrainStep epoch :: ZeroGrad :: evs).
  split; [done|]. split; [done|]. split; [done|].
  unfold train_step in Hrun.
  apply bind_inr in Hrun as (? & s1 & Hs1 & Hrun). apply emit_inr in Hs1.
  apply bind_inr in Hrun as (? & s2 & Hs2 & Hrun). injection Hs2 as _ Hs2.
  apply bind_inr in Hrun as (? & s3 & Hs3 & Hrun). injection Hs3 as _ Hs3.
  apply bind_inr in Hrun as (ds & s4 & Hs4 & Hrun).
  apply enumerate_inr in Hs4 as (_ & Ht4 & _ & _ & _ & Hg4 & _).
  apply bind_inr in Hrun as ([[kl recs] surv] & s5 & Hloop & Hrun).
  rewrite for_each_mapM in Hloop.
  apply bind_inr in Hloop as (bls' & s5' & Hloop & Hret).
  apply ret_inr in Hret as [_ ->].
  apply train_loop_accumulates in Hloop as (evs' & Ht5 & Hback' & Hcalls).
  assert (w_trace s' = w_trace s5') as Hsame.
  { run_inv Hrun. by simplify_eq. }
  assert (w_grad s4 = zero_grad) as Hzero by (subst; done).
  assert (w_trace s4 = w_trace s ++ [TrainStep epoch; ZeroGrad]) as Hs4.
  { subst. rewrite Ht4. cbn. by rewrite <- app_assoc. }
  rewrite Hsame, Ht5, Hs4, <- app_assoc in Ht. apply app_inv_head in Ht.
  cbn in Ht. injection Ht as ->.
  rewrite Hzero in Hcalls. cbn. rewrite <- Hback, Hback'. exact Hcalls.
Qed.


(** C3: after a fit that returns, results['history'][e] exists for every
    epoch e of range(params.epochs); its 'train' dictionary has exactly the
    keys 'kl_loss', 'reconstruction_loss' and 'survival_loss', the second
    one holding a dictionary with one entry per input type of the VAE; its
    'valid' dictionary has these keys and 'metric', which holds the value of
    a ConcordanceIndex call of the run; and the steps were entered in the
    order train 0, valid 0, train 1, valid 1, ... *)
Theorem fit_records_history model tl vl params s r s' :
  fit model tl vl params s = (inr r, s') →
  ∃ evs,
    w_trace s' = w_trace s ++ evs ∧
    step_calls evs
    = py_range (epochs params) ≫= (λ e, [(Train, e); (Valid, e)]) ∧
    ∀ e, 0 ≤ e < epochs params →
      ∃ el bls items ei et est,
        results_history (w_results s') !! e = Some el ∧
        dom (log_train el)
        = {["kl_loss"; "reconstruction_loss"; "survival_loss"]} ∧
        logged_sums model bls (log_train el) ∧
        dom (log_valid el)
        = {["kl_loss"; "reconstruction_loss"; "survival_loss"; "metric"]} ∧
        logged_sums model items (log_valid el) ∧
        log_valid el !! "metric"
        = Some (LogMetric (concordance_index ei et est)) ∧
        (ei, et, est) ∈ concordance_calls evs.
Proof.
  intros Hrun.
  apply fit_inr in Hrun as (_ & evs & Ht & _ & Hsteps & _ & _ & _ & Hin).
  eexists. split; [exact Ht|].
  unfold step_calls, concordance_calls in *. rewrite !omap_app. cbn.
  rewrite !app_nil_r. split; [done|].
  intros e He.
  destruct (Hin e He) as (el & bls & items & ei & et & est & Hel & Hentry & Hc).
  apply epoch_entry_logged in Hentry as (? & ? & ? & ? & ?).
  exists el, bls, (item_losses <$> items), ei, et, est. by split_and!.
Qed.


(** C4: in an epoch that completes, ConcordanceIndex is called exactly
    once, on torch.cat of the event indicators, of the event times and of
    the flattened risk predictions of the validation batches, in the order
    in which the validation loader yields them; its value is what the
    epoch's 'metric' holds. *)
Theorem metric_once_per_epoch model tl vl epoch s u s' :
  run_epoch model tl vl epoch s = (inr u, s') →
  ∃ s1 items ei et est evs el,
    (∃ rt, train_step model tl epoch (enter_epoch epoch s) = (inr rt, s1)) ∧
    valid_items model (w_weights s1) (loaded vl s1) items ∧
    cat (item_event_indicator <$> items) = Some ei ∧
    cat (item_event_time <$> items) = Some et ∧
    cat (item_estimate <$> items) = Some est ∧
    w_trace s' = w_trace s ++ evs ∧
    concordance_calls evs = [(ei, et, est)] ∧
    results_history (w_results s') !! epoch = Some el ∧
    log_valid el !! "metric" = Some (LogMetric (concordance_index ei et est)).
Proof.
  intros Hrun. apply run_epoch_inr in Hrun as (rt & s1 & rv & Ht & Hv).
  pose proof Ht as Ht'.
  apply train_step_inr in Ht'
    as (bls & el & evt & _ & _ & _ & _ & _ & Ht1 & Hevt & _).
  apply valid_step_inr in Hv
    as (items & el' & ei & et & est & evv & Hitems & _ & Hei & Het & Hest
        & _ & Hm & _ & Hr2 & Ht2 & Hevv).
  destruct (epoch_events epoch evt evv ei et est Hevt Hevv)
    as (_ & Hcc & _).
  exists s1, items, ei, et, est,
    ((TrainStep epoch :: ZeroGrad :: evt) ++ (ValidStep epoch :: evv)
       ++ [ConcordanceIndex ei et est]).
  eexists. split; [eauto|]. do 4 (split; [done|]).
  split; [|split; [exact Hcc|split]].
  - rewrite Ht2, Ht1. replace (w_trace (enter_epoch epoch s)) with (w_trace s).
    + by rewrite <- app_assoc.
    + unfold enter_epoch. by destruct (_ !! _).
  - rewrite Hr2. apply with_epoch_lookup.
  - cbn. rewrite Hm. apply lookup_insert_eq.
Qed.

(** C5: when the training step and then the validation step of an epoch
    complete, what results['history'][epoch] holds under 'kl_loss',
    'survival_loss' and, per input type, under 'reconstruction_loss' is, for
    'train' and for 'valid', the sum over the batches of that step of the
    .item() of the corresponding loss of the batch: the int 0 when there is
    no batch, and ((0.0 + x1) + x2) + ... otherwise. A training step over a
    loader that yields no batch completes and logs the int 0 for each loss.
    A validation step over such a loader logs 0 for each loss if it
    completes; where torch.cat raises on an empty list, as PyTorch's does,
    it raises RuntimeError there and logs nothing. *)
Theorem logged_losses_are_sums model tl vl epoch :
  (∀ s rt s1 rv s2,
     train_step model tl epoch s = (inr rt, s1) →
     valid_step model vl epoch s1 = (inr rv, s2) →
     ∃ bls items el,
       train_losses model (loaded tl s) bls ∧
       valid_items model (w_weights s1) (loaded vl s1) items ∧
       results_history (w_results s2) !! epoch = Some el ∧
       logged_totals model bls (log_train el) ∧
       logged_totals model (item_losses <$> items) (log_valid el)) ∧
  (∀ s,
     loaded tl s = [] →
     is_Some (results_history (w_results s) !! epoch) →
     ∃ rt s1 el,
       train_step model tl epoch s = (inr rt, s1) ∧
       results_history (w_results s1) !! epoch = Some el ∧
       logged_zero (log_train el)) ∧
  (∀ s,
     loaded vl s = [] →
     (∀ rv s2,
        valid_step model vl epoch s = (inr rv, s2) →
        ∃ el, results_history (w_results s2) !! epoch = Some el ∧
              logged_zero (log_valid el)) ∧
     (cat [] = None →
      valid_step model vl epoch s
      = (inl RuntimeError, valid_loop_start vl epoch s) ∧
      w_results (valid_loop_start vl epoch s) = w_results s)).
Proof.
  split_and!.
  - intros s rt s1 rv s2 Ht Hv.
    apply train_step_inr in Ht
      as (bls & el & evt & Hbls & _ & Hsums & _ & Hr1 & _).
    apply valid_step_inr in Hv
      as (items & el' & ei & et & est & evv & Hitems & _ & _ & _ & _
          & Hsums' & _ & Hel' & Hr2 & _).
    rewrite Hr1, with_epoch_lookup in Hel'. injection Hel' as <-.
    eexists bls, items, _. split; [done|]. split; [done|].
    split; [rewrite Hr2; apply with_epoch_lookup|]. cbn. split.
    + by apply logged_sums_totals, write_losses_logged.
    + by apply logged_sums_totals, logged_sums_metric, write_losses_logged.
  - intros s Hnil Hsome.
    destruct (train_step_empty model tl epoch s Hnil Hsome) as (rt & s1 & Ht).
    exists rt, s1. pose proof Ht as Hrun.
    apply train_step_inr in Ht
      as (bls & el & evt & Hbls & _ & Hsums & _ & Hr1 & _).
    rewrite Hnil in Hbls. apply Forall2_nil_inv_l in Hbls. subst bls.
    eexists. split; [done|]. split; [rewrite Hr1; apply with_epoch_lookup|].
    cbn. eapply logged_sums_nil. by apply write_losses_logged.
  - intros s Hnil. split.
    + intros rv s2 Hv.
      apply valid_step_inr in Hv
        as (items & el & ei & et & est & evv & Hitems & _ & _ & _ & _
            & Hsums & _ & _ & Hr2 & _).
      rewrite Hnil in Hitems. apply Forall2_nil_inv_l in Hitems.
      subst items.
      eexists. split; [rewrite Hr2; apply with_epoch_lookup|]. cbn.
      eapply logged_sums_nil.
      by apply logged_sums_metric, write_losses_logged.
    + intros Hcat. split.
      * rewrite valid_step_run, Hnil, bind_run. cbn [for_each mret M_ret].
        cbn. rewrite bind_run. unfold torch_cat. by rewrite Hcat.
      * unfold valid_loop_start, enumerate. cbn.
        by destruct (batches vl (w_hidden s)).
Qed.

(** C6: a run of main that completes writes exactly three files, in this
    order: fit dumps results (the attributes of params whose names do not
    start with an underscore, and the history of every epoch) to
    '<prefix>.json', then predict_to_csv is given the validation loader and
    '<prefix>.csv', then
    plot_results_to_pdf is given '<prefix>.json' and '<prefix>.pdf'. *)
Theorem main_outputs argv s u s' :
  main argv s = (inr u, s') →
  ∃ args evs,
    accepted argv args ∧
    let params := specify_params_here (args_endpoint args) (args_shuffle args)
                                      (args_fold args) in
    w_trace s' = w_trace s ++ evs
                   ++ [JsonDump (resultsprefix params +:+ ".json")
                                (w_results s');
                       PredictToCsv (validloader_of params)
                                    (resultsprefix params +:+ ".csv");
                       PlotResultsToPdf (resultsprefix params +:+ ".json")
                                        (resultsprefix params +:+ ".pdf")] ∧
    output_files evs = [] ∧
    results_params (w_results s')
    = List.filter (λ kv, negb (String.prefix "_" kv.1)) (vars_items params) ∧
    dom (results_history (w_results s'))
    = list_to_set (py_range (epochs params)).
Proof.
  intros Hrun.
  apply main_inr in Hrun as (args & Hacc & evs & Ht & Hevs & Hp & Hdom).
  exists args,
    (data_calls (specify_params_here (args_endpoint args) (args_shuffle args)
                                     (args_fold args)) ++ evs).
  split; [done|]. cbn zeta.
  split; [by rewrite Ht, <- !app_assoc|]. split; [|done].
  unfold output_files. rewrite omap_app. cbn.
  clear -Hevs. induction Hevs as [|e evs He _ IH]; [done|].
  destruct e; try done.
Qed.


(** C7: an option value outside its choices (--endpoint outside 'pfs' and
    'os', --shuffle outside 0..9, --fold outside 0..4) makes main exit with
    status 2 at argument parsing, in an unchanged state: no data has been
    loaded and nothing has been trained. A run that gets past the parsing
    has arguments within the choices; it then loads the data once and
    splits it once, with kfold_split on the full parsed dataframe and the
    shuffle and fold that params holds for the arguments; and the loaders
    that fit and predict_to_csv are given are built from the two parts of
    that split, scaled: the train loader from the first, the validation
    loader from the second. *)
Theorem main_checks_arguments argv s :
  (∀ text, opt_endpoint argv = Some text → text ≠ "pfs" → text ≠ "os" →
     main argv s = (inl (SystemExit 2), s)) ∧
  (∀ text value, opt_shuffle argv = Some text → py_int text = Some value →
     ¬ (0 ≤ value < 10) → main argv s = (inl (SystemExit 2), s)) ∧
  (∀ text value, opt_fold argv = Some text → py_int text = Some value →
     ¬ (0 ≤ value < 5) → main argv s = (inl (SystemExit 2), s)) ∧
  (∀ u s', main argv s = (inr u, s') → ∃ args, accepted argv args) ∧
  (∀ args, accepted argv args →
     ∃ evs,
       w_trace (main argv s).2
       = w_trace s
           ++ data_calls (specify_params_here (args_endpoint args)
                            (args_shuffle args) (args_fold args))
           ++ evs ∧
       Forall loads_no_data evs) ∧
  (∀ args, accepted argv args →
     let params := specify_params_here (args_endpoint args)
                     (args_shuffle args) (args_fold args) in
     ∃ train valid train_scaled valid_scaled,
       kfold_split (parse_all (endpoint params)) (shuffle params)
                   (fold params) = (train, valid) ∧
       scale_impute train valid = (train_scaled, valid_scaled) ∧
       main argv s
       = (model ← call_new_model params;
          _ ← fit model
                (new_loader (new_dataset train_scaled
                                         (input_types_all params))
                            (batch_size params) true)
                (new_loader (new_dataset valid_scaled
                                         (input_types_all params))
                            128 false)
                params;
          _ ← predict_to_csv model
                (new_loader (new_dataset valid_scaled
                                         (input_types_all params))
                            128 false)
                (resultsprefix params +:+ ".csv");
          _ ← plot_results_to_pdf (resultsprefix params +:+ ".json")
                                  (resultsprefix params +:+ ".pdf");
          mret tt)
         (add_event
            (KFoldSplit (parse_all (endpoint params)) (shuffle params)
                        (fold params))
            (add_event (ParseAll (endpoint params))
               (add_event (MakeDirs (dirname (resultsprefix params))) s)))).
Proof.
  assert (Hreject : (∀ args, ¬ accepted argv args) →
                    main argv s = (inl (SystemExit 2), s)).
  { intros Hnone. unfold main. rewrite bind_run.
    destruct (parse_args argv s) as [[e|args] s0] eqn:Hparse.
    - by apply parse_args_inl in Hparse as (-> & -> & _).
    - apply parse_args_inr in Hparse as [_ Hacc]. by destruct (Hnone args). }
  split_and!.
  - intros text Hgiven Hpfs Hos. apply Hreject.
    intros args (He & _ & _). rewrite Hgiven in He. cbn in He.
    destruct He as [-> [?|?]]; done.
  - intros text value Hgiven Hint Hout. apply Hreject.
    intros args (_ & Hs & _). rewrite Hgiven in Hs. cbn in Hs.
    destruct Hs as [Hs ?]. rewrite Hint in Hs. injection Hs as ->. done.
  - intros text value Hgiven Hint Hout. apply Hreject.
    intros args (_ & _ & Hf). rewrite Hgiven in Hf. cbn in Hf.
    destruct Hf as [Hf ?]. rewrite Hint in Hf. injection Hf as ->. done.
  - intros u s' Hrun. apply main_inr in Hrun as (args & Hacc & _). eauto.
  - intros args Hacc.
    destruct (main_accepted argv s args Hacc)
      as (model & tl & s1 & Ht1 & ->).
    match goal with
    | |- context [(?m s1).2] =>
        assert (steps (λ _, True) loads_no_data m) as Hsteps
    end.
    { apply steps_bind; [apply fit_steps|intros ?]. steps_go.
      all: steps_call. }
    destruct (Hsteps s1 I) as (_ & evs & Ht & Hevs).
    exists evs. by rewrite Ht, Ht1, <- app_assoc.
  - intros args Hacc. cbv zeta.
    rewrite (main_run_accepted argv s args Hacc). cbv zeta.
    unfold trainloader_of, validloader_of.
    destruct (kfold_split _ _ _) as [train valid].
    destruct (scale_impute train valid) as [train_scaled valid_scaled]
      eqn:Hscaled.
    exists train, valid, train_scaled, valid_scaled.
    split; [done|]. split; [done|]. reflexivity.
Qed.

(** C8: whatever a validation step does, and whether it returns or raises,
    it leaves the weights of the model, the state of the optimizer and the
    .grad buffers as they were: it calls neither zero_grad, backward nor
    optimizer.step, and every model.forward of it runs with gradients
    disabled. *)
Theorem valid_step_changes_no_parameter model vl epoch s :
  w_weights (valid_step model vl epoch s).2 = w_weights s ∧
  w_adam (valid_step model vl epoch s).2 = w_adam s ∧
  w_grad (valid_step model vl epoch s).2 = w_grad s ∧
  ∃ evs,
    w_trace (valid_step model vl epoch s).2 = w_trace s ++ evs ∧
    Forall inference_only evs.
Proof.
  destruct (valid_step_steps model vl epoch (w_weights s) (w_grad s)
              (w_adam s) s) as ((Hw & Hg & Ha) & Hevs); [done|].
  by split_and!.
Qed.


(** C10: when fit returns, it returns None, not the results dictionary;
    what it built is only in the file: the last thing it does is
    json.dump(results, f) on '<params.resultsprefix>.json', results holding
    the history of every epoch, and it writes no other file. *)
Theorem fit_returns_none model tl vl params s r s' :
  fit model tl vl params s = (inr r, s') →
  r = PyNone ∧
  ∃ evs,
    w_trace s' = w_trace s ++ evs
                   ++ [JsonDump (resultsprefix params +:+ ".json")
                                (w_results s')] ∧
    output_files evs = [] ∧
    dom (results_history (w_results s'))
    = list_to_set (py_range (epochs params)).
Proof.
  intros Hrun.
  apply fit_inr in Hrun as (-> & evs & Ht & Hevs & _ & _ & _ & Hdom & _).
  split; [done|]. exists evs. split; [done|]. split; [|done].
  clear -Hevs. induction Hevs as [|ev evs He _ IH]; [done|].
  destruct ev; try done.
Qed.

End Claims.

(** ** Further properties of [fit.py] and [main.py] *)

Section Batches.
Context `{Framework}.

Lemma get_inputs_cases data types s :
  (∃ xs, get_inputs data types s = (inr xs, s) ∧
         Forall2 (λ t x, data !! ("X_" +:+ t) = Some x) types xs) ∨
  (get_inputs data types s = (inl KeyError, s) ∧
   Exists (λ t, data !! ("X_" +:+ t) = None) types).
Proof.
  unfold get_inputs. induction types as [|t types IH].
  - left. exists []. by split.
  - cbn [mapM]. rewrite bind_run. unfold getitem at 1 3.
    destruct (data !! ("X_" +:+ t)) as [x|] eqn:Hx; cbn.
    + rewrite bind_run. destruct IH as [(xs & -> & Hxs)|[-> Hex]].
      * left. exists (x :: xs). split; [done|]. by constructor.
      * right. split; [done|]. by right.
    + right. split; [done|]. by left.
Qed.

Lemma get_inputs_missing data types s t :
  t ∈ types → data !! ("X_" +:+ t) = None →
  get_inputs data types s = (inl KeyError, s).
Proof.
  intros Hin Hnone.
  destruct (get_inputs_cases data types s) as [(xs & _ & Hxs)|[-> _]]; [|done].
  exfalso. apply list_elem_of_lookup in Hin as [i Hi].
  destruct (Forall2_lookup_l _ _ _ _ _ Hxs Hi) as (x & _ & Hx). congruence.
Qed.

Lemma set_grad_enabled_restore s :
  set_grad_enabled (w_grad_enabled s) (set_grad_enabled false s) = s.
Proof. by destruct s. Qed.

(** An exception of the loop body of [train_step] leaves the parameters as
    they were; it comes before [backward], or from it when gradients are
    disabled. *)
Lemma train_batch_inl model data s e s' :
  train_batch model data s = (inl e, s') →
  w_weights s' = w_weights s ∧ w_grad s' = w_grad s ∧ w_adam s' = w_adam s ∧
  w_results s' = w_results s ∧ w_training s' = w_training s ∧
  w_grad_enabled s' = w_grad_enabled s ∧
  (s' = s ∨
   w_trace s' = w_trace s ++ [Forward (w_training s) (w_grad_enabled s)] ∨
   (e = RuntimeError ∧ w_grad_enabled s = false ∧
    is_Some (data !! "event_indicator") ∧ is_Some (data !! "event_time") ∧
    ∃ loss, w_trace s' = w_trace s
              ++ [Forward (w_training s) (w_grad_enabled s);
                  Backward loss])).
Proof.
  unfold train_batch. rewrite bind_run.
  destruct (get_inputs_cases data (input_types_vae model) s)
    as [(iv & -> & Hiv)|[-> _]];
    [|intros [= <- <-]; split_and!; auto].
  rewrite bind_run.
  destruct (get_inputs_cases data (input_types_subtask model) s)
    as [(it & -> & Hit)|[-> _]];
    [|intros [= <- <-]; split_and!; auto].
  rewrite bind_run. unfold model_forward at 1.
  destruct (forward _ _ _ iv it) as [[[[outputs mu] logvar] riskpred] h'].
  set (s1 := add_event _ _).
  assert (Hs1 : w_weights s1 = w_weights s ∧ w_grad s1 = w_grad s ∧
                w_adam s1 = w_adam s ∧ w_results s1 = w_results s ∧
                w_training s1 = w_training s ∧
                w_grad_enabled s1 = w_grad_enabled s ∧
                w_trace s1 = w_trace s
                  ++ [Forward (w_training s) (w_grad_enabled s)]).
  { subst s1. by split_and!. }
  clearbody s1. destruct Hs1 as (Hw & Hg & Ha & Hr & Htr & Hge & Ht).
  rewrite bind_run. unfold py_assert at 1.
  case_bool_decide; cbn; [|intros [= <- <-]; split_and!; auto].
  rewrite bind_run. unfold assert_not_nan at 1.
  destruct (isnan_any (kl_divergence mu logvar)); cbn;
    [intros [= <- <-]; split_and!; auto|].
  rewrite bind_run.
  match goal with
  | |- context [mapM assert_not_nan ?ts s1] =>
      destruct (assert_each_run ts s1) as [[_ [us ->]]|[_ ->]];
        [|intros [= <- <-]; split_and!; auto]
  end.
  rewrite bind_run. unfold getitem at 1.
  destruct (data !! "event_indicator") as [ei|]; cbn;
    [|intros [= <- <-]; split_and!; auto].
  rewrite bind_run. unfold getitem at 1.
  destruct (data !! "event_time") as [et|]; cbn;
    [|intros [= <- <-]; split_and!; auto].
  rewrite bind_run. unfold assert_not_nan at 1.
  destruct (isnan_any _); cbn; [intros [= <- <-]; split_and!; auto|].
  rewrite bind_run. unfold tensor_backward at 1.
  destruct (w_grad_enabled s1) eqn:Hge1.
  - rewrite bind_run. unfold optimizer_step at 1.
    destruct (adam_step _ _ _). done.
  - intros [= <- <-]. cbn. split_and!; try done; try congruence.
    right. right. split_and!; try done; try congruence.
    eexists. rewrite Ht, <- app_assoc. done.
Qed.

End Batches.

Section BatchTheorems.
Context `{Framework}.

Lemma valid_batch_missing_input model data s t :
  t ∈ input_types_vae model ++ input_types_subtask model →
  data !! ("X_" +:+ t) = None →
  valid_batch model data s = (inl KeyError, s).
Proof.
  intros Hin Hnone. unfold valid_batch.
  rewrite bind_run. unfold getitem at 1.
  destruct (data !! "event_indicator"); cbn; [|done].
  rewrite bind_run. unfold getitem at 1.
  destruct (data !! "event_time"); cbn; [|done].
  rewrite bind_run. unfold with_no_grad. rewrite bind_run.
  destruct (get_inputs_cases data (input_types_vae model)
              (set_grad_enabled false s)) as [(iv & -> & Hiv)|[-> _]].
  - rewrite bind_run.
    apply elem_of_app in Hin as [Hin|Hin].
    + exfalso. apply list_elem_of_lookup in Hin as [i Hi].
      destruct (Forall2_lookup_l _ _ _ _ _ Hiv Hi) as (x & _ & Hx).
      congruence.
    + rewrite (get_inputs_missing _ _ _ _ Hin Hnone).
      by rewrite set_grad_enabled_restore.
  - by rewrite set_grad_enabled_restore.
Qed.

(** X1: a batch that lacks the column of an input type of the model makes
    the loop body of either step raise KeyError before the model is called:
    the state is as it was. *)
Theorem batch_without_input_raises_key_error model data s t :
  t ∈ input_types_vae model ++ input_types_subtask model →
  data !! ("X_" +:+ t) = None →
  train_batch model data s = (inl KeyError, s) ∧
  valid_batch model data s = (inl KeyError, s).
Proof.
  intros Hin Hnone. split; [|by eapply valid_batch_missing_input].
  unfold train_batch. rewrite bind_run.
  destruct (get_inputs_cases data (input_types_vae model) s)
    as [(iv & -> & Hiv)|[-> _]]; [|done].
  rewrite bind_run.
  apply elem_of_app in Hin as [Hin|Hin].
  - exfalso. apply list_elem_of_lookup in Hin as [i Hi].
    destruct (Forall2_lookup_l _ _ _ _ _ Hiv Hi) as (x & _ & Hx). congruence.
  - by rewrite (get_inputs_missing _ _ _ _ Hin Hnone).
Qed.

(** X2: a batch without 'event_indicator' or 'event_time' makes the loop
    body of valid_step raise KeyError at once, in an unchanged state. The
    loop body of train_step reads the two columns only after the model ran:
    it raises too, before backward, so that the weights, the optimizer and
    the .grad buffers are as they were. *)
Theorem batch_without_survival_columns model data s :
  data !! "event_indicator" = None ∨ data !! "event_time" = None →
  valid_batch model data s = (inl KeyError, s) ∧
  ∃ e s', train_batch model data s = (inl e, s') ∧
          w_weights s' = w_weights s ∧ w_adam s' = w_adam s ∧
          w_grad s' = w_grad s ∧ backward_calls (w_trace s')
                                 = backward_calls (w_trace s).
Proof.
  intros Hnone. split.
  - unfold valid_batch. rewrite bind_run. unfold getitem at 1.
    destruct (data !! "event_indicator"); cbn; [|done].
    rewrite bind_run. unfold getitem at 1.
    destruct (data !! "event_time"); cbn; [|done].
    by destruct Hnone.
  - destruct (train_batch model data s) as [[e|bl] s'] eqn:Hrun.
    + exists e, s'. split; [done|].
      apply train_batch_inl in Hrun as (? & ? & ? & _ & _ & _ & Ht).
      split_and!; try done.
      destruct Ht as [-> | [-> | (_ & _ & [? Hei] & [? Het] & _)]];
        [done| |destruct Hnone; congruence].
      unfold backward_calls. rewrite omap_app. cbn. by rewrite app_nil_r.
    + exfalso.
      apply train_batch_inr in Hrun as ((est & Hfw) & _).
      destruct Hfw as (? & ? & ? & ? & ? & ? & ? & ei & et & _ & _ & _ & _
                       & Hei & Het & _).
      destruct Hnone; congruence.
Qed.

(** X3: a batch that fails a check of the loop body of train_step (the
    number of outputs, or a NaN loss) makes it raise AssertionError after
    the one model.forward call and before loss.backward(): the weights, the
    optimizer, the .grad buffers and results are as they were before the
    batch, and neither backward nor optimizer.step has been called. *)
Theorem failed_check_precedes_backward model data s :
  check_fails model data s →
  ∃ s', train_batch model data s = (inl AssertionError, s') ∧
        w_weights s' = w_weights s ∧ w_grad s' = w_grad s ∧
        w_adam s' = w_adam s ∧ w_results s' = w_results s ∧
        w_trace s' = w_trace s
                       ++ [Forward (w_training s) (w_grad_enabled s)].
Proof.
  intros (inputs_vae & inputs_task & outputs & mu & logvar & riskpred & h'
          & Hvae & Htask & Hfw & Hbad).
  exists (add_event (Forward (w_training s) (w_grad_enabled s))
                    (set_hidden h' s)).
  split; [|by split_and!].
  unfold train_batch.
  rewrite bind_run, (get_inputs_run _ _ _ _ Hvae).
  rewrite bind_run, (get_inputs_run _ _ _ _ Htask).
  rewrite bind_run. unfold model_forward at 1. rewrite Hfw.
  rewrite bind_run. unfold py_assert at 1.
  case_bool_decide as Hlen; [|done]. cbn.
  rewrite bind_run. unfold assert_not_nan at 1.
  destruct (isnan_any (kl_divergence mu logvar)) eqn:Hkl; [done|]. cbn.
  unfold reconstruction_loss_funcs.
  rewrite zip_with3_mse
    by (rewrite <- (Forall2_length _ _ _ Hvae) in *; done).
  rewrite bind_run.
  destruct (assert_each_run (zip_with mse_loss outputs inputs_vae)
              (add_event (Forward (w_training s) (w_grad_enabled s))
                         (set_hidden h' s)))
    as [[Hall [us ->]]|[Hex ->]]; [|done].
  destruct Hbad as [?|[?|[Hex|(ei & et & Hei & Het & Hnan)]]];
    [done|congruence| |].
  { exfalso. apply Exists_exists in Hex as (t & Ht & Hnan).
    rewrite Forall_forall in Hall. apply Hall in Ht. congruence. }
  rewrite bind_run. unfold getitem at 1. rewrite Hei. cbn.
  rewrite bind_run. unfold getitem at 1. rewrite Het. cbn.
  rewrite bind_run. unfold assert_not_nan at 1. rewrite Hnan. done.
Qed.

End BatchTheorems.

Section Modes.
Context `{Framework}.

Lemma steps_with_no_grad_restores {A} (I : world → Prop) Q (body : M A) ge :
  (∀ s b, I s → I (set_grad_enabled b s)) →
  steps (λ s, I s ∧ w_grad_enabled s = false) Q body →
  steps (λ s, I s ∧ w_grad_enabled s = ge) Q (with_no_grad body).
Proof.
  intros Hstable Hbody s [HI Hge]. unfold with_no_grad.
  destruct (Hbody (set_grad_enabled false s)) as ((HI1 & _) & evs & Ht & HQ).
  { split; [by apply Hstable|done]. }
  destruct (body (set_grad_enabled false s)) as [r s1]; simpl in *.
  split; [split; [by apply Hstable|done]|]. eauto.
Qed.

Lemma train_loop_mode model ds acc ge :
  steps (λ s, w_training s = true ∧ w_grad_enabled s = ge)
        (forward_in_mode true ge)
        (for_each (λ data acc, bl ← train_batch model data;
                               mret (accumulate acc bl)) ds acc).
Proof.
  apply steps_for_each. intros data acc'. unfold train_batch.
  steps_go. all: steps_call.
Qed.

Lemma valid_loop_mode model ds acc ge :
  steps (λ s, w_training s = false ∧ w_grad_enabled s = ge)
        (forward_in_mode false false)
        (for_each (λ data acc, it ← valid_batch model data;
                               mret (valid_update acc it)) ds acc).
Proof.
  apply steps_for_each. intros data acc'. unfold valid_batch.
  apply steps_bind; [|intros ?; apply steps_ret].
  apply steps_bind; [steps_go|intros ?].
  apply steps_bind; [steps_go|intros ?].
  apply steps_bind; [|intros ?; steps_go].
  apply steps_with_no_grad_restores; [by intros ? ? ?|].
  steps_go. all: steps_call.
Qed.

Lemma train_step_mode model tl epoch ge :
  steps (λ s, w_grad_enabled s = ge)
        (forward_in_mode true ge) (train_step model tl epoch).
Proof.
  intros s Hge. rewrite train_step_run.
  match goal with
  | |- context [(?m (train_loop_start tl epoch s)).2] =>
      assert (steps (λ s, w_training s = true ∧ w_grad_enabled s = ge)
                    (forward_in_mode true ge) m) as Hsteps
  end.
  { apply steps_bind; [apply train_loop_mode|intros [[? ?] ?]].
    steps_go. all: steps_call. }
  destruct (Hsteps (train_loop_start tl epoch s))
    as ([_ Hge'] & evs & Ht & Hevs).
  { unfold train_loop_start, enumerate. cbn.
    by destruct (batches tl (w_hidden s)). }
  split; [done|]. exists (TrainStep epoch :: ZeroGrad :: evs).
  rewrite Ht. split; [|by repeat constructor].
  unfold train_loop_start, enumerate. cbn.
  destruct (batches tl (w_hidden s)). cbn. by rewrite <- !app_assoc.
Qed.

Lemma train_step_training model tl epoch s :
  w_training (train_step model tl epoch s).2 = true.
Proof.
  rewrite train_step_run.
  match goal with
  | |- context [(?m (train_loop_start tl epoch s)).2] =>
      assert (steps (λ s, w_training s = true) (λ _, True) m) as Hsteps
  end.
  2:{ destruct (Hsteps (train_loop_start tl epoch s)) as (Htr & _); [|done].
      unfold train_loop_start, enumerate. cbn.
      by destruct (batches tl (w_hidden s)). }
  apply steps_bind; [|intros [[? ?] ?]; steps_go; steps_call].
  apply steps_for_each. intros data acc'. unfold train_batch.
  steps_go. all: steps_call.
Qed.

Lemma valid_step_mode model vl epoch ge :
  steps (λ s, w_grad_enabled s = ge)
        (forward_in_mode false false) (valid_step model vl epoch).
Proof.
  intros s Hge. rewrite valid_step_run.
  match goal with
  | |- context [(?m (valid_loop_start vl epoch s)).2] =>
      assert (steps (λ s, w_training s = false ∧ w_grad_enabled s = ge)
                    (forward_in_mode false false) m) as Hsteps
  end.
  { apply steps_bind; [apply valid_loop_mode|intros acc].
    destruct (valid_sums acc) as [[? ?] ?].
    steps_go. all: steps_call. }
  destruct (Hsteps (valid_loop_start vl epoch s))
    as ([_ Hge'] & evs & Ht & Hevs).
  { unfold valid_loop_start, enumerate. cbn.
    by destruct (batches vl (w_hidden s)). }
  split; [done|]. exists (ValidStep epoch :: evs).
  rewrite Ht. split; [|by repeat constructor].
  unfold valid_loop_start, enumerate. cbn.
  destruct (batches vl (w_hidden s)). cbn. by rewrite <- !app_assoc.
Qed.

Lemma valid_step_training model vl epoch s :
  w_training (valid_step model vl epoch s).2 = false.
Proof.
  rewrite valid_step_run.
  match goal with
  | |- context [(?m (valid_loop_start vl epoch s)).2] =>
      assert (steps (λ s0, w_training s0 = false ∧
                           w_grad_enabled s0
                           = w_grad_enabled (valid_loop_start vl epoch s))
                    (forward_in_mode false false) m) as Hsteps
  end.
  { apply steps_bind; [apply valid_loop_mode|intros acc].
    destruct (valid_sums acc) as [[? ?] ?].
    steps_go. all: steps_call. }
  destruct (Hsteps (valid_loop_start vl epoch s)) as ([Htr _] & _); [|done].
  split; [|done]. unfold valid_loop_start, enumerate. cbn.
  by destruct (batches vl (w_hidden s)).
Qed.

(** X5: a training step calls the model in training mode, with gradients
    enabled as they were when the step was called; a validation step calls
    it in evaluation mode with gradients disabled. Whether it returns or
    raises, a step leaves the model in its own mode, and the gradient mode
    as it found it. *)
Theorem steps_call_the_model_in_their_mode model l epoch s :
  (w_training (train_step model l epoch s).2 = true ∧
   w_grad_enabled (train_step model l epoch s).2 = w_grad_enabled s ∧
   ∃ evs, w_trace (train_step model l epoch s).2 = w_trace s ++ evs ∧
          Forall (forward_in_mode true (w_grad_enabled s)) evs) ∧
  (w_training (valid_step model l epoch s).2 = false ∧
   w_grad_enabled (valid_step model l epoch s).2 = w_grad_enabled s ∧
   ∃ evs, w_trace (valid_step model l epoch s).2 = w_trace s ++ evs ∧
          Forall (forward_in_mode false false) evs).
Proof.
  split.
  - split; [apply train_step_training|].
    by apply (train_step_mode model l epoch (w_grad_enabled s) s).
  - split; [apply valid_step_training|].
    by apply (valid_step_mode model l epoch (w_grad_enabled s) s).
Qed.

Lemma run_epoch_mode model tl vl epoch ge :
  steps (λ s, w_grad_enabled s = ge) (λ _, True)
        (run_epoch model tl vl epoch).
Proof.
  assert (∀ {A} Q (m : M A),
            steps (λ s, w_grad_enabled s = ge) Q m →
            steps (λ s, w_grad_enabled s = ge) (λ _, True) m) as Hweak.
  { intros A Q m Hm s Hs. destruct (Hm s Hs) as (? & evs & ? & _).
    split; [done|]. exists evs. split; [done|].
    clear. by induction evs; constructor. }
  unfold run_epoch.
  apply steps_bind; [steps_call|intros r].
  apply steps_bind; [steps_go; steps_call|intros ?].
  apply steps_bind; [eapply Hweak, train_step_mode|intros ?].
  apply steps_bind; [eapply Hweak, valid_step_mode|intros ?].
  apply steps_ret.
Qed.

Lemma epochs_training model tl vl es : ∀ s u s',
  for_each (λ epoch (_ : unit), run_epoch model tl vl epoch) es tt s
  = (inr u, s') →
  es ≠ [] → w_training s' = false.
Proof.
  induction es as [|epoch es IH]; intros s u s' Hrun Hne; [done|].
  cbn [for_each] in Hrun.
  apply bind_inr in Hrun as ([] & s1 & Hepoch & Hrun).
  destruct es as [|epoch' es].
  - apply ret_inr in Hrun as [_ ->].
    apply run_epoch_inr in Hepoch as (rt & s0 & rv & _ & Hv).
    pose proof (valid_step_training model vl epoch s0) as Htr.
    by rewrite Hv in Htr.
  - by eapply IH.
Qed.

(** X6: after a fit that returns, with at least one epoch, the model is in
    evaluation mode, which the last validation step left it in, whatever its
    mode was before; torch.is_grad_enabled() is what it was before the call. *)
Theorem fit_leaves_model_in_eval_mode model tl vl params s r s' :
  fit model tl vl params s = (inr r, s') →
  0 < epochs params →
  w_training s' = false ∧ w_grad_enabled s' = w_grad_enabled s.
Proof.
  intros Hrun Hn. split.
  - unfold fit in Hrun.
    apply bind_inr in Hrun as (? & s1 & [= _ <-] & Hrun).
    apply bind_inr in Hrun as (? & s2 & [= _ <-] & Hrun).
    apply bind_inr in Hrun as (? & s3 & Hloop & Hrun).
    apply bind_inr in Hrun as (r3 & s4 & [= <- <-] & Hrun).
    apply bind_inr in Hrun as (? & s5 & [= _ <-] & Hrun).
    apply ret_inr in Hrun as [-> ->]. cbn.
    eapply epochs_training; [done|].
    unfold py_range. rewrite seqZ_cons by done. done.
  - assert (steps (λ s0, w_grad_enabled s0 = w_grad_enabled s) (λ _, True)
                  (fit model tl vl params)) as Hsteps.
    { unfold fit.
      apply steps_bind; [steps_call|intros ?].
      apply steps_bind; [steps_call|intros ?].
      apply steps_bind; [|intros ?; steps_go; steps_call].
      apply steps_for_each. intros epoch _. apply run_epoch_mode. }
    destruct (Hsteps s eq_refl) as [Hge _]. by rewrite Hrun in Hge.
Qed.

End Modes.

Section History.
Context `{Framework}.

Lemma seqZ_split n before x after :
  seqZ 0 n = before ++ x :: after → 0 ≤ x < n ∧ before = seqZ 0 x.
Proof.
  intros Hsplit.
  assert (seqZ 0 n !! length before = Some x) as Hx.
  { rewrite Hsplit. by apply list_lookup_middle. }
  apply lookup_seqZ in Hx as [Hx Hlt].
  split; [lia|].
  replace n with (x + (n - x)) in Hsplit by lia.
  rewrite seqZ_app in Hsplit by lia.
  symmetry in Hsplit. apply app_inj_1 in Hsplit as [? _]; [done|].
  rewrite length_seqZ. lia.
Qed.

(** X7: when fit gets to an epoch, results['history'] holds entries for the
    epochs before it and for no other: the test of line 122 always finds
    that the entry of the epoch is missing, and line 123 creates it. *)
Theorem fit_finds_no_entry_for_its_epoch model tl vl params s epoch s_e :
  reaches_epoch model tl vl params s epoch s_e →
  0 ≤ epoch < epochs params ∧
  dom (results_history (w_results s_e)) = list_to_set (py_range epoch) ∧
  results_history (w_results s_e) !! epoch = None ∧
  results_history (w_results (enter_epoch epoch s_e)) !! epoch
  = Some (EpochLog ∅ ∅).
Proof.
  intros (before & after & us & Hrange & Hbefore).
  apply seqZ_split in Hrange as [Hepoch ->].
  assert (for_each (λ e (_ : unit), run_epoch model tl vl e) (seqZ 0 epoch) tt
            (fit_loop_start params s) = (inr tt, s_e)) as Hloop.
  { by rewrite for_each_unit, bind_run, Hbefore. }
  apply epochs_inr in Hloop as (evs & _ & _ & _ & _ & _ & Hout & Hin);
    [|apply NoDup_seqZ|by intros].
  assert (results_history (w_results s_e) !! epoch = None) as Hnone.
  { rewrite Hout; [done|]. rewrite elem_of_seqZ. lia. }
  split; [done|]. split; [|split; [done|]].
  - apply set_eq. intros e.
    rewrite elem_of_dom, elem_of_list_to_set. unfold py_range. split.
    + intros Hsome. destruct (decide (e ∈ seqZ 0 epoch)); [done|].
      rewrite Hout in Hsome by done. cbn in Hsome.
      rewrite lookup_empty in Hsome. by destruct Hsome.
    + intros He. destruct (Hin e He) as (el & ? & ? & ? & ? & ? & Hel & _).
      by rewrite Hel.
  - unfold enter_epoch. rewrite Hnone. cbn. apply lookup_insert_eq.
Qed.

Lemma write_losses_other model acc d k :
  k ∉ ["kl_loss"; "reconstruction_loss"; "survival_loss"] →
  write_losses model acc d !! k = d !! k.
Proof.
  intros Hk. unfold write_losses.
  rewrite !lookup_insert_ne; [done|set_solver..].
Qed.

Lemma writes_only_refl epoch ph keys r : writes_only epoch ph keys r r.
Proof.
  split_and!; try done. intros el Hel. exists el. by split_and!.
Qed.

(** X8: whether it returns or raises, a training step changes nothing of
    results but the keys 'kl_loss', 'reconstruction_loss' and
    'survival_loss' of results['history'][epoch]['train'], and a validation
    step nothing but these keys and 'metric' of
    results['history'][epoch]['valid']: the params, the other epochs, the
    dictionary of the other step and any other key stay as they were. *)
Theorem steps_write_their_own_log model l epoch s :
  writes_only epoch Train ["kl_loss"; "reconstruction_loss"; "survival_loss"]
              (w_results s) (w_results (train_step model l epoch s).2) ∧
  writes_only epoch Valid
              ["kl_loss"; "reconstruction_loss"; "survival_loss"; "metric"]
              (w_results s) (w_results (valid_step model l epoch s).2).
Proof.
  split.
  - destruct (train_step model l epoch s) as [[e|r] s'] eqn:Hrun; cbn.
    { apply train_step_inl in Hrun as ->. apply writes_only_refl. }
    apply train_step_inr in Hrun
      as (bls & el & evs & _ & _ & _ & Hel & -> & _).
    split_and!; try done.
    + intros e He. cbn. by rewrite lookup_insert_ne.
    + intros Hnone. congruence.
    + intros el0 Hel0. rewrite Hel in Hel0. injection Hel0 as <-.
      eexists. split; [apply with_epoch_lookup|]. split.
      * intros [|] Hph; done.
      * intros k Hk. cbn. by apply write_losses_other.
  - destruct (valid_step model l epoch s) as [[e|r] s'] eqn:Hrun; cbn.
    { apply valid_step_inl in Hrun as ->. apply writes_only_refl. }
    apply valid_step_inr in Hrun
      as (items & el & ei & et & est & evs & _ & _ & _ & _ & _ & _ & _ & Hel
          & -> & _).
    split_and!; try done.
    + intros e He. cbn. by rewrite lookup_insert_ne.
    + intros Hnone. congruence.
    + intros el0 Hel0. rewrite Hel in Hel0. injection Hel0 as <-.
      eexists. split; [apply with_epoch_lookup|]. split.
      * intros [|] Hph; done.
      * intros k Hk. cbn.
        rewrite lookup_insert_ne by set_solver.
        apply write_losses_other. set_solver.
Qed.

End History.

Section Parameters.
Context `{Framework}.

Lemma train_batch_parameters model data s bl s' :
  train_batch model data s = (inr bl, s') →
  w_grad s' = backward (w_grad s) (batch_loss bl) ∧
  (w_adam s', w_weights s')
  = adam_step (w_adam s) (w_weights s) (backward (w_grad s) (batch_loss bl)) ∧
  w_training s' = w_training s.
Proof.
  intros Hrun. pose proof Hrun as Hspec.
  apply train_batch_inr in Hspec as (_ & _ & Ht).
  unfold train_batch in Hrun. run_inv Hrun.
  match goal with
  | Hs : optimizer_step _ = _ |- _ => unfold optimizer_step in Hs
  end.
  simplify_eq. cbn in *.
  destruct (adam_step _ _ _) as [a' w'] eqn:Hstep. simplify_eq. cbn.
  unfold batch_loss. cbn. done.
Qed.

Lemma train_loop_parameters model ds : ∀ s bls s',
  w_training s = true →
  mapM (train_batch model) ds s = (inr bls, s') →
  train_losses model ds bls ∧
  w_grad s' = fold_left backward (batch_loss <$> bls) (w_grad s) ∧
  (w_adam s', w_weights s')
  = apply_steps (accumulated (w_grad s) (batch_loss <$> bls))
                (w_adam s, w_weights s).
Proof.
  induction ds as [|data ds IH]; intros s bls s' Htr Hrun; cbn [mapM] in Hrun.
  - apply ret_inr in Hrun as [-> ->]. split; [constructor|done].
  - apply bind_inr in Hrun as (bl & s1 & Hbatch & Hrun).
    apply bind_inr in Hrun as (bls' & s2 & Hrest & Hrun).
    apply ret_inr in Hrun as [-> ->].
    pose proof (train_batch_parameters _ _ _ _ _ Hbatch) as (Hg & Haw & Htr1).
    apply train_batch_inr in Hbatch as ((est & Hfw) & _).
    apply IH in Hrest as (Hbls & Hg' & Haw'); [|congruence].
    split; [|split].
    + constructor; [|done]. rewrite Htr in Hfw. eauto.
    + cbn. by rewrite Hg', Hg.
    + cbn. rewrite Haw', Hg. unfold apply_steps. cbn. by rewrite <- Haw.
Qed.

(** X9: what a training step that returns does to the parameters: the .grad
    buffers, zeroed once, have accumulated the gradient of the loss of every
    batch, and optimizer.step has been applied once per batch, in order, to
    the buffers as they were after the backward of that batch. *)
Theorem train_step_updates_parameters model tl epoch s r s' :
  train_step model tl epoch s = (inr r, s') →
  ∃ bls,
    train_losses model (loaded tl s) bls ∧
    w_grad s' = fold_left backward (batch_loss <$> bls) zero_grad ∧
    (w_adam s', w_weights s')
    = apply_steps (accumulated zero_grad (batch_loss <$> bls))
                  (w_adam s, w_weights s).
Proof.
  intros Hrun. rewrite train_step_run in Hrun.
  apply bind_inr in Hrun as ([[kl recs] surv] & s5 & Hloop & Hrun).
  rewrite for_each_mapM in Hloop.
  apply bind_inr in Hloop as (bls & s5' & Hloop & Hret).
  apply ret_inr in Hret as [_ ->].
  apply train_loop_parameters in Hloop as (Hbls & Hg & Haw).
  2:{ unfold train_loop_start, enumerate. cbn.
      by destruct (batches tl (w_hidden s)). }
  assert (w_grad (train_loop_start tl epoch s) = zero_grad ∧
          w_adam (train_loop_start tl epoch s) = w_adam s ∧
          w_weights (train_loop_start tl epoch s) = w_weights s)
    as (Hg0 & Ha0 & Hw0).
  { unfold train_loop_start, enumerate. cbn.
    by destruct (batches tl (w_hidden s)). }
  rewrite Hg0 in Hg, Haw. rewrite Ha0, Hw0 in Haw.
  assert (w_grad s' = w_grad s5' ∧ w_adam s' = w_adam s5' ∧
          w_weights s' = w_weights s5') as (-> & -> & ->).
  { run_inv Hrun. by simplify_eq. }
  by exists bls.
Qed.

(** X10: nothing is rolled back when a batch fails: a training step whose
    loop gets to a batch on which the loop body raises ends there with that
    exception, and the weights, the optimizer and the .grad buffers are what
    the batches before it made them. *)
Theorem train_step_keeps_earlier_updates model tl epoch s data s_k e s' :
  reaches (train_batch model) (loaded tl s) (train_loop_start tl epoch s)
          data s_k →
  train_batch model data s_k = (inl e, s') →
  train_step model tl epoch s = (inl e, s') ∧
  w_weights s' = w_weights s_k ∧ w_adam s' = w_adam s_k ∧
  w_grad s' = w_grad s_k ∧
  ∃ bls, w_grad s_k = fold_left backward (batch_loss <$> bls) zero_grad ∧
         (w_adam s_k, w_weights s_k)
         = apply_steps (accumulated zero_grad (batch_loss <$> bls))
                       (w_adam s, w_weights s).
Proof.
  intros (before & after & bls & Hds & Hbefore) Hraise.
  split.
  { rewrite train_step_run, bind_run, for_each_mapM, bind_run, Hds.
    by rewrite (mapM_raises _ _ _ _ _ _ _ _ _ Hbefore Hraise). }
  apply train_batch_inl in Hraise as (Hw & Hg & Ha & _).
  split_and!; try done.
  apply train_loop_parameters in Hbefore as (_ & Hg' & Haw).
  2:{ unfold train_loop_start, enumerate. cbn.
      by destruct (batches tl (w_hidden s)). }
  assert (w_grad (train_loop_start tl epoch s) = zero_grad ∧
          w_adam (train_loop_start tl epoch s) = w_adam s ∧
          w_weights (train_loop_start tl epoch s) = w_weights s)
    as (Hg0 & Ha0 & Hw0).
  { unfold train_loop_start, enumerate. cbn.
    by destruct (batches tl (w_hidden s)). }
  rewrite Hg0 in Hg', Haw. rewrite Ha0, Hw0 in Haw.
  by exists bls.
Qed.

End Parameters.

Section Edges.
Context `{Framework}.

Lemma valid_step_empty model vl epoch s :
  cat [] = None → loaded vl s = [] →
  valid_step model vl epoch s
  = (inl RuntimeError, valid_loop_start vl epoch s).
Proof.
  intros Hcat Hnil. rewrite valid_step_run, Hnil, bind_run. cbn [for_each].
  cbn. rewrite bind_run. unfold torch_cat. by rewrite Hcat.
Qed.

(** X11: with a validation loader that yields no batch, and torch.cat
    raising on an empty list as PyTorch's does, the first validation step
    raises RuntimeError at torch.cat([]), after the first training step has
    run: fit raises it, ConcordanceIndex is never called, nothing is logged
    for 'valid' and no file is written. *)
Theorem empty_validation_loader_stops_fit model tl vl params s rt s1 :
  cat [] = None →
  (∀ h, (batches vl h).1 = []) →
  0 < epochs params →
  train_step model tl 0 (enter_epoch 0 (fit_loop_start params s))
  = (inr rt, s1) →
  valid_step model vl 0 s1 = (inl RuntimeError, valid_loop_start vl 0 s1) ∧
  fit model tl vl params s = (inl RuntimeError, valid_loop_start vl 0 s1) ∧
  w_results (valid_loop_start vl 0 s1) = w_results s1 ∧
  ∃ evs, w_trace (valid_loop_start vl 0 s1) = w_trace s ++ evs ∧
         concordance_calls evs = [] ∧ output_files evs = [].
Proof.
  intros Hcat Hempty Hn Htrain.
  assert (valid_step model vl 0 s1
          = (inl RuntimeError, valid_loop_start vl 0 s1)) as Hvalid.
  { apply valid_step_empty; [done|]. apply Hempty. }
  split; [done|]. split; [|split].
  - eapply fit_raises.
    + exists [], (seqZ 1 (Z.pred (epochs params))), [].
      split; [|done]. unfold py_range. by rewrite seqZ_cons.
    + right. eauto.
  - unfold valid_loop_start, enumerate. cbn.
    by destruct (batches vl (w_hidden s1)).
  - apply train_step_inr in Htrain
      as (bls & el & evs & _ & _ & _ & _ & _ & Ht & Hevs & _).
    apply batch_call_projections in Hevs as (_ & Hcc & Hof & _).
    exists (TrainStep 0 :: ZeroGrad :: evs ++ [ValidStep 0]).
    split.
    + unfold valid_loop_start, enumerate. cbn.
      destruct (batches vl (w_hidden s1)). cbn. rewrite Ht.
      unfold enter_epoch, fit_loop_start. cbn.
      by rewrite <- !app_assoc.
    + unfold concordance_calls, output_files in *. cbn.
      rewrite !omap_app, Hcc, Hof. done.
Qed.

Lemma main_rejects argv s :
  (∀ args, ¬ accepted argv args) → main argv s = (inl (SystemExit 2), s).
Proof.
  intros Hnone. unfold main. rewrite bind_run.
  destruct (parse_args argv s) as [[e|args] s0] eqn:Hparse.
  - by apply parse_args_inl in Hparse as (-> & -> & _).
  - apply parse_args_inr in Hparse as [_ Hacc]. by destruct (Hnone args).
Qed.

(** X12: a value of --shuffle or --fold that int() does not accept makes
    main exit with status 2 at argument parsing, in an unchanged state. *)
Theorem option_that_is_no_integer_is_rejected argv s text :
  opt_shuffle argv = Some text ∨ opt_fold argv = Some text →
  py_int text = None →
  main argv s = (inl (SystemExit 2), s).
Proof.
  intros Hgiven Hint. apply main_rejects.
  intros args (_ & Hs & Hf). destruct Hgiven as [Hgiven|Hgiven].
  - rewrite Hgiven in Hs. cbn in Hs. destruct Hs as [Hs _]. congruence.
  - rewrite Hgiven in Hf. cbn in Hf. destruct Hf as [Hf _]. congruence.
Qed.

(** X13: when fit raises, main raises the same exception there:
    predict_to_csv and plot_results_to_pdf are not called, and the run has
    written no file. *)
Theorem main_stops_when_fit_raises argv s args model s1 e s' :
  accepted argv args →
  let params := specify_params_here (args_endpoint args) (args_shuffle args)
                                    (args_fold args) in
  call_new_model params (data_loaded params s) = (inr model, s1) →
  fit model (trainloader_of params) (validloader_of params) params s1
  = (inl e, s') →
  main argv s = (inl e, s') ∧
  ∃ evs, w_trace s' = w_trace s ++ data_calls params ++ evs ∧
         Forall training_call evs ∧
         output_files (data_calls params ++ evs) = [].
Proof.
  intros Hacc params Hmodel Hfit.
  split.
  { rewrite (main_run_accepted argv s args Hacc). fold params.
    by rewrite bind_run, Hmodel, bind_run, Hfit. }
  apply fit_inl in Hfit as (evs & Ht & Hevs).
  exists evs. split; [|split; [done|]].
  - rewrite Ht. unfold call_new_model in Hmodel.
    destruct (new_model _ _ _ _ _ _ _ _) as [[[m w] g] h].
    injection Hmodel as _ <-. cbn. by rewrite <- !app_assoc.
  - unfold output_files. rewrite omap_app. cbn.
    clear -Hevs. induction Hevs as [|ev evs He _ IH]; [done|].
    destruct ev; try done.
Qed.

End Edges.

Section Dictionaries.
Context `{Framework}.

Lemma py_dict_snoc {V} (kvs : list (string * V)) k v :
  py_dict (kvs ++ [(k, v)]) = <[k := v]> (py_dict kvs).
Proof. unfold py_dict. by rewrite fold_left_app. Qed.

(** In a dict comprehension the last pair with a given key wins. *)
Lemma py_dict_last {V} (kvs : list (string * V)) i k v :
  kvs !! i = Some (k, v) →
  (∀ j v', (i < j)%nat → kvs !! j ≠ Some (k, v')) →
  py_dict kvs !! k = Some v.
Proof.
  revert i. induction kvs as [|[k' v'] kvs IH] using rev_ind; intros i Hi Hlast.
  - by rewrite lookup_nil in Hi.
  - rewrite py_dict_snoc.
    destruct (decide (i = length kvs)) as [->|Hne].
    + rewrite list_lookup_middle in Hi by done. injection Hi as -> ->.
      apply lookup_insert_eq.
    + assert (i < length kvs)%nat as Hlt.
      { apply lookup_lt_Some in Hi. rewrite length_app in Hi. cbn in Hi. lia. }
      rewrite lookup_app_l in Hi by done.
      destruct (decide (k' = k)) as [->|Hk].
      * exfalso. apply (Hlast (length kvs) v' Hlt).
        by rewrite list_lookup_middle.
      * rewrite lookup_insert_ne by done. apply (IH i Hi).
        intros j v'' Hj Hkv. apply (Hlast j v'' Hj).
        by apply lookup_app_l_Some.
Qed.

(** X14: in the 'reconstruction_loss' dictionary that a training step logs,
    and in the one that a validation step logs, the entry of an input type
    is the sum of the reconstruction losses of that type over the batches of
    the step; for a type listed more than once in model.input_types_vae it
    is the sum for its last position. *)
Theorem reconstruction_loss_is_logged_by_type model tl vl epoch s rt s1 rv s2 :
  train_step model tl epoch s = (inr rt, s1) →
  valid_step model vl epoch s1 = (inr rv, s2) →
  ∃ bls items el per_train per_valid,
    train_losses model (loaded tl s) bls ∧
    valid_items model (w_weights s1) (loaded vl s1) items ∧
    results_history (w_results s2) !! epoch = Some el ∧
    log_train el !! "reconstruction_loss" = Some (LogDict per_train) ∧
    log_valid el !! "reconstruction_loss" = Some (LogDict per_valid) ∧
    ∀ i t, input_types_vae model !! i = Some t →
      (∀ j, (i < j)%nat → input_types_vae model !! j ≠ Some t) →
      per_train !! t = Some (total_reconstruction i bls) ∧
      per_valid !! t
      = Some (total_reconstruction i (item_losses <$> items)).
Proof.
  intros Ht Hv.
  apply train_step_inr in Ht
    as (bls & el & evt & Hbls & _ & Hsums & _ & Hr1 & _).
  apply valid_step_inr in Hv
    as (items & el' & ei & et & est & evv & Hitems & _ & _ & _ & _
        & Hsums' & _ & Hel' & Hr2 & _).
  rewrite Hr1, with_epoch_lookup in Hel'. injection Hel' as <-.
  eexists bls, items, _, _, _. split; [done|]. split; [done|].
  split; [rewrite Hr2; apply with_epoch_lookup|]. cbn.
  split.
  { unfold write_losses. rewrite lookup_insert_ne by done.
    apply lookup_insert_eq. }
  split.
  { unfold write_losses. do 2 (rewrite lookup_insert_ne by done).
    apply lookup_insert_eq. }
  assert (∀ acc bls' i t,
            sums_of model bls' acc →
            input_types_vae model !! i = Some t →
            (∀ j, (i < j)%nat → input_types_vae model !! j ≠ Some t) →
            py_dict (zip (input_types_vae model) acc.1.2) !! t
            = Some (total_reconstruction i bls')) as Hdict.
  { intros acc bls' i t (_ & Hlen & Hrecs & _) Hi Hlast.
    apply (py_dict_last _ i).
    - apply lookup_zip_with_Some. do 2 eexists. split; [done|].
      split; [done|]. apply Hrecs. by eapply lookup_lt_Some.
    - intros j v' Hj Hkv.
      apply lookup_zip_with_Some in Hkv as (? & ? & [= <- <-] & Hkv & _).
      by apply (Hlast j Hj). }
  intros i t Hi Hlast. split; by eapply Hdict.
Qed.

End Dictionaries.

(** ** Runs of the small instance *)

Import Toy.



(** C2, at a failing input: a training step over two batches. The second
    optimizer.step reads buffers that still hold the gradient of the loss of
    the first batch, not those of the second batch alone. *)
Theorem gradients_accumulate_across_batches :
  ∃ l1 l2,
    backward_calls (w_trace train_run.2) = [l1; l2] ∧
    optimizer_calls (w_trace train_run.2)
    = [backward zero_grad l1; backward (backward zero_grad l1) l2] ∧
    backward (backward zero_grad l1) l2 ≠ backward zero_grad l2.
Proof.
  exists [0.75%float], [0.75%float].
  split; [reflexivity|]. split; [reflexivity|].
  intros Heq. apply (f_equal length) in Heq. discriminate.
Qed.


Lemma fit_records_history_witness :
  ∃ evs,
    w_trace fit_run.2 = w_trace start ++ evs ∧
    step_calls evs = [(Train, 0); (Valid, 0); (Train, 1); (Valid, 1)].
Proof.
  destruct (fit_records_history (H := framework) toy_model train_data valid_data
              (toy_params "pfs" 0 0) start (returned PyNone fit_run)
              fit_run.2)
    as (evs & Ht & Hsteps & _).
  - apply returned_eq. reflexivity.
  - exists evs. split; [exact Ht|exact Hsteps].
Defined.

Lemma metric_once_per_epoch_witness :
  ∃ ei et est evs,
    w_trace epoch_run.2 = w_trace start ++ evs ∧
    concordance_calls evs = [(ei, et, est)].
Proof.
  destruct (metric_once_per_epoch (H := framework) toy_model train_data valid_data 0 start
              (returned tt epoch_run) epoch_run.2)
    as (s1 & items & ei & et & est & evs & el & _ & _ & _ & _ & _ & Ht & Hc
        & _).
  - apply returned_eq. reflexivity.
  - exists ei, et, est, evs. split; [exact Ht|exact Hc].
Defined.

Lemma logged_losses_are_sums_witness :
  (∃ bls items,
     train_losses toy_model (loaded train_data tuned) bls ∧
     valid_items toy_model (w_weights tuned_run.2)
                 (loaded valid_data tuned_run.2) items ∧
     sum_from_zero ((λ bl, item (batch_kl_loss bl)) <$> bls)
     = PyFloat 0.5 ∧
     sum_from_zero ((λ bl, item (batch_survival_loss bl)) <$> bls)
     = PyFloat 1 ∧
     sum_from_zero
       ((λ bl, item (batch_kl_loss bl)) <$> (item_losses <$> items))
     = PyFloat 0.0625 ∧
     ∃ i, sum_from_zero
            (omap (λ bl, item <$> batch_reconstruction_losses bl !! i) bls)
          = PyFloat 5) ∧
  (∃ el, results_history (w_results empty_train_run.2) !! 0 = Some el ∧
         logged_zero (log_train el)) ∧
  empty_valid_run.1 = inl RuntimeError.
Proof.
  destruct (logged_losses_are_sums (H := framework) toy_model train_data
              valid_data 0) as (Hsums & _).
  destruct (logged_losses_are_sums (H := framework) toy_model [] [] 0)
    as (_ & Htrain & Hvalid).
  split; [|split].
  - destruct (Hsums tuned (returned no_sums tuned_run) tuned_run.2
                (returned (no_sums, []) tuned_valid_run) tuned_valid_run.2)
      as (bls & items & el & Hbls & Hitems & Hel
          & (Hkl & Hsurv & per_type & Hrec & _ & Hall) & (Hkl' & _)).
    + apply returned_eq. reflexivity.
    + apply returned_eq. reflexivity.
    + exists bls, items. split; [exact Hbls|]. split; [exact Hitems|].
      assert (∀ key,
                (results_history (w_results tuned_valid_run.2) !! 0
                   ≫= λ el, log_train el !! key)
                = log_train el !! key) as Htrain_at.
      { intros key. rewrite Hel. reflexivity. }
      assert (∀ key,
                (results_history (w_results tuned_valid_run.2) !! 0
                   ≫= λ el, log_valid el !! key)
                = log_valid el !! key) as Hvalid_at.
      { intros key. rewrite Hel. reflexivity. }
      split_and!.
      * enough (Some (LogNum (sum_from_zero
                                ((λ bl, item (batch_kl_loss bl)) <$> bls)))
                = Some (LogNum (PyFloat 0.5))) as Heq by (by injection Heq).
        rewrite <- Hkl, <- Htrain_at. reflexivity.
      * enough (Some (LogNum (sum_from_zero
                                ((λ bl, item (batch_survival_loss bl))
                                   <$> bls)))
                = Some (LogNum (PyFloat 1))) as Heq by (by injection Heq).
        rewrite <- Hsurv, <- Htrain_at. reflexivity.
      * enough (Some (LogNum (sum_from_zero
                                ((λ bl, item (batch_kl_loss bl))
                                   <$> (item_losses <$> items))))
                = Some (LogNum (PyFloat 0.0625))) as Heq
          by (by injection Heq).
        rewrite <- Hkl', <- Hvalid_at. reflexivity.
      * assert (per_type !! "rna" = Some (PyFloat 5)) as Hrna.
        { enough (Some (LogDict per_type)
                  = Some (LogDict {[ "rna" := PyFloat 5 ]})) as Heq
            by (by injection Heq as ->).
          rewrite <- Hrec, <- Htrain_at. reflexivity. }
        destruct (Hall "rna" _ Hrna) as (i & _ & Hi). by exists i.
  - destruct (Htrain ready) as (rt & s1 & el & Hrun & Hel & Hzero).
    + reflexivity.
    + eexists. reflexivity.
    + exists el. split; [|exact Hzero].
      unfold empty_train_run. rewrite Hrun. exact Hel.
  - destruct (Hvalid train_run.2) as [_ Hraises]; [reflexivity|].
    destruct (Hraises eq_refl) as [Hrun _].
    exact (f_equal fst Hrun).
Defined.

Lemma main_outputs_witness :
  ∃ args evs,
    accepted argv_example args ∧
    w_trace main_run.2
    = w_trace start ++ evs
        ++ [JsonDump
              (resultsprefix (toy_params (args_endpoint args)
                                (args_shuffle args) (args_fold args))
               +:+ ".json")
              (w_results main_run.2);
            PredictToCsv
              (validloader_of (toy_params (args_endpoint args)
                                 (args_shuffle args) (args_fold args)))
              (resultsprefix (toy_params (args_endpoint args)
                                (args_shuffle args) (args_fold args))
               +:+ ".csv");
            PlotResultsToPdf
              (resultsprefix (toy_params (args_endpoint args)
                                (args_shuffle args) (args_fold args))
               +:+ ".json")
              (resultsprefix (toy_params (args_endpoint args)
                                (args_shuffle args) (args_fold args))
               +:+ ".pdf")] ∧
    output_files evs = [].
Proof.
  destruct (main_outputs (H := framework) argv_example start (returned tt main_run)
              main_run.2)
    as (args & evs & Hacc & Ht & Hfiles & _).
  - apply returned_eq. reflexivity.
  - exists args, evs. split; [exact Hacc|]. split; [exact Ht|exact Hfiles].
Defined.

Lemma main_checks_arguments_witness :
  main (CommandLine None (Some "3") (Some "5")) start
  = (inl (SystemExit 2), start) ∧
  main (CommandLine (Some "dfs") None None) start
  = (inl (SystemExit 2), start) ∧
  ∃ train_scaled valid_scaled,
    train_scaled = train_data ∧ valid_scaled = valid_data ∧
    main argv_example start
    = (model ← call_new_model (toy_params "pfs" 3 4);
       _ ← fit model train_scaled valid_scaled (toy_params "pfs" 3 4);
       _ ← predict_to_csv model valid_scaled "out/pfs.csv";
       _ ← plot_results_to_pdf "out/pfs.json" "out/pfs.pdf";
       mret tt) (data_loaded (toy_params "pfs" 3 4) start).
Proof.
  split; [|split].
  - apply (proj1 (proj2 (proj2 (main_checks_arguments (H := framework)
                                  (CommandLine None (Some "3") (Some "5"))
                                  start))) "5" 5);
      [reflexivity|reflexivity|lia].
  - apply (proj1 (main_checks_arguments (H := framework)
                    (CommandLine (Some "dfs") None None) start) "dfs");
      [reflexivity|discriminate|discriminate].
  - destruct (proj2 (proj2 (proj2 (proj2 (proj2
                (main_checks_arguments (H := framework) argv_example
                   start))))) args_example)
      as (train & valid & train_scaled & valid_scaled & Hsplit & Hscaled
          & Hmain).
    + split; [reflexivity|]. split; (split; [reflexivity|cbn; lia]).
    + injection Hsplit as <- <-. injection Hscaled as <- <-.
      eexists _, _. split; [reflexivity|]. split; [reflexivity|].
      exact Hmain.
Defined.


Lemma fit_returns_none_witness : returned (PyResults (Results [] ∅)) fit_run = PyNone.
Proof.
  apply (fit_returns_none (H := framework) toy_model train_data valid_data
           (toy_params "pfs" 0 0) start _ fit_run.2).
  apply returned_eq. reflexivity.
Defined.

Lemma batch_without_input_raises_key_error_witness :
  train_batch toy_model bare_batch ready = (inl KeyError, ready) ∧
  valid_batch toy_model bare_batch ready = (inl KeyError, ready).
Proof.
  apply (batch_without_input_raises_key_error (H := framework) toy_model
           bare_batch ready "rna").
  - constructor.
  - reflexivity.
Defined.

Lemma batch_without_survival_columns_witness :
  valid_batch toy_model unlabelled_batch ready = (inl KeyError, ready).
Proof.
  apply (batch_without_survival_columns (H := framework) toy_model
           unlabelled_batch ready).
  left. reflexivity.
Defined.

Lemma failed_check_precedes_backward_witness :
  (train_batch toy_model nan_batch ready).1 = inl AssertionError ∧
  backward_calls (w_trace (train_batch toy_model nan_batch ready).2) = [].
Proof.
  destruct (failed_check_precedes_backward (H := framework) toy_model
              nan_batch ready) as (s' & Hrun & _ & _ & _ & _ & Ht).
  - exists [[nan]], [[0.5%float]], [[nan]], [0.5%float], [0%float],
      [0.5%float], tt.
    split; [repeat constructor|]. split; [repeat constructor|].
    split; [reflexivity|].
    right. right. left. left. reflexivity.
  - rewrite Hrun. split; [reflexivity|].
    cbn [snd]. rewrite Ht. reflexivity.
Defined.

Lemma fit_leaves_model_in_eval_mode_witness :
  w_training fit_run.2 = false.
Proof.
  destruct (fit_leaves_model_in_eval_mode (H := framework) toy_model
              train_data valid_data (toy_params "pfs" 0 0) start
              (returned PyNone fit_run) fit_run.2) as [Htr _].
  - apply returned_eq. reflexivity.
  - reflexivity.
  - exact Htr.
Defined.

Lemma fit_finds_no_entry_for_its_epoch_witness :
  results_history (w_results first_epochs.2) !! 1 = None.
Proof.
  destruct (fit_finds_no_entry_for_its_epoch (H := framework) toy_model
              train_data valid_data (toy_params "pfs" 0 0) start 1
              first_epochs.2) as (_ & _ & Hnone & _).
  - exists [0], [], (returned [] first_epochs). split; [reflexivity|].
    apply (returned_eq [] first_epochs). reflexivity.
  - exact Hnone.
Defined.

Lemma train_step_updates_parameters_witness :
  ∃ bls,
    w_grad train_run.2 = fold_left backward (batch_loss <$> bls) zero_grad.
Proof.
  destruct (train_step_updates_parameters (H := framework) toy_model
              train_data 0 ready (returned no_sums train_run) train_run.2)
    as (bls & _ & Hg & _).
  - apply returned_eq. reflexivity.
  - exists bls. exact Hg.
Defined.

Lemma empty_validation_loader_stops_fit_witness :
  (fit toy_model train_data [] (toy_params "pfs" 0 0) start).1
  = inl RuntimeError.
Proof.
  destruct (empty_validation_loader_stops_fit (H := framework) toy_model
              train_data [] (toy_params "pfs" 0 0) start
              (returned no_sums first_train_run) first_train_run.2)
    as (_ & Hfit & _).
  - reflexivity.
  - intros h. reflexivity.
  - reflexivity.
  - apply (returned_eq no_sums first_train_run). reflexivity.
  - exact (f_equal fst Hfit).
Defined.

Lemma option_that_is_no_integer_is_rejected_witness :
  main (CommandLine None (Some "abc") None) start
  = (inl (SystemExit 2), start).
Proof.
  apply (option_that_is_no_integer_is_rejected (H := framework)
           (CommandLine None (Some "abc") None) start "abc").
  - left. reflexivity.
  - reflexivity.
Defined.

Lemma main_stops_when_fit_raises_witness :
  (@main nan_framework argv_example nan_start).1 = inl AssertionError.
Proof.
  destruct (main_stops_when_fit_raises (H := nan_framework) argv_example
              nan_start args_example (value_of toy_model nan_model_run)
              nan_model_run.2 (raised KeyError nan_fit_run) nan_fit_run.2)
    as [Hmain _].
  - split; [reflexivity|]. split; (split; [reflexivity|cbn; lia]).
  - apply (value_of_eq toy_model nan_model_run). reflexivity.
  - apply (raised_eq KeyError nan_fit_run). reflexivity.
  - exact (f_equal fst Hmain).
Defined.

Lemma reconstruction_loss_is_logged_by_type_witness :
  ∃ bls el per_train,
    results_history (w_results valid_run.2) !! 0 = Some el ∧
    log_train el !! "reconstruction_loss" = Some (LogDict per_train) ∧
    per_train !! "rna" = Some (total_reconstruction 0 bls).
Proof.
  destruct (reconstruction_loss_is_logged_by_type (H := framework) toy_model
              train_data valid_data 0 ready
              (returned no_sums train_run) train_run.2
              (returned (no_sums, []) valid_run) valid_run.2)
    as (bls & items & el & per_train & per_valid & _ & _ & Hel & Htrain & _
        & Hby).
  - apply returned_eq. reflexivity.
  - apply returned_eq. reflexivity.
  - exists bls, el, per_train. split; [exact Hel|]. split; [exact Htrain|].
    apply (Hby 0%nat "rna"); [reflexivity|].
    intros [|j] Hj; [lia|]. by destruct j.
Defined.

Lemma train_step_keeps_earlier_updates_witness :
  (train_step toy_model spoilt_data 0 ready).1 = inl AssertionError ∧
  w_weights spoilt_run.2 = w_weights first_batch_run.2.
Proof.
  destruct (train_step_keeps_earlier_updates (H := framework) toy_model
              spoilt_data 0 ready nan_batch first_batch_run.2
              (raised KeyError spoilt_run) spoilt_run.2)
    as (Hstep & Hw & _).
  - exists [toy_batch 1 0.5 3], [], (value_of [] first_batch_run).
    split; [reflexivity|].
    apply (value_of_eq [] first_batch_run). reflexivity.
  - apply (raised_eq KeyError spoilt_run). reflexivity.
  - split; [exact (f_equal fst Hstep)|exact Hw].
Defined.
